(** * tensorflow-yolov4: the Decode head, candidate aggregation and the
      TFLite inference wrapper

    Sources embedded here:
    - [yolov4/model/yolov4.py]: [Decode.__init__], [Decode.build],
      [Decode.call] and the tail of [YOLOv4.call];
    - [yolov4/tflite/__init__.py]: [YOLOv4.load_tflite], [YOLOv4._predict]
      and [YOLOv4.predict].

    Tensors are dense row-major buffers with a shape, as TensorFlow and
    NumPy store them.  Every tensor operation the two files use is given
    by its index semantics.  The element type is abstract: the results
    about [Decode] hold for any interpretation of the float32 operations,
    and the real numbers give one concrete interpretation. *)

From Stdlib Require Import String Bool Arith ZArith Lia List.
From Stdlib Require Import QArith Qminmax.
From Stdlib Require Import Reals Lra.
Import ListNotations.

Close Scope Q_scope.
Close Scope R_scope.
Open Scope nat_scope.

Set Implicit Arguments.

(** ** Option monad for the operations that can reject their arguments *)

Definition obind {A B : Type} (m : option A) (k : A -> option B) : option B :=
  match m with
  | Some a => k a
  | None => None
  end.

Notation "x <- m ;; k" := (obind m (fun x => k))
  (at level 61, m at next level, right associativity).

(** ** Dense tensors *)

Class Default (A : Type) := default : A.

#[export] Instance Default_Z : Default Z := 0%Z.
#[export] Instance Default_nat : Default nat := 0.

Module Tensor.

Record tensor (A : Type) := mk { shape : list nat; data : list A }.

Arguments mk {A} _ _.
Arguments shape {A} _.
Arguments data {A} _.

(** Number of elements of a shape. *)
Definition size (s : list nat) : nat := fold_right Nat.mul 1 s.

Definition wf {A} (t : tensor A) : Prop := length (data t) = size (shape t).

(** Row-major offset of a multi-index, and its inverse. *)
Fixpoint ravel (s idx : list nat) : nat :=
  match s, idx with
  | _ :: s', i :: idx' => i * size s' + ravel s' idx'
  | _, _ => 0
  end.

Fixpoint unravel (s : list nat) (n : nat) : list nat :=
  match s with
  | [] => []
  | _ :: s' => (n / size s') :: unravel s' (n mod size s')
  end.

Fixpoint in_bounds (s idx : list nat) : Prop :=
  match s, idx with
  | [], [] => True
  | d :: s', i :: idx' => i < d /\ in_bounds s' idx'
  | _, _ => False
  end.

Definition get {A} `{Default A} (t : tensor A) (idx : list nat) : A :=
  nth (ravel (shape t) idx) (data t) default.

(** The tensor of shape [s] whose element at [idx] is [f idx]. *)
Definition tabulate {A} (s : list nat) (f : list nat -> A) : tensor A :=
  mk s (map (fun n => f (unravel s n)) (seq 0 (size s))).

(** Elementwise application: activations, casts, tensor-scalar arithmetic. *)
Definition tmap {A B} (f : A -> B) (t : tensor A) : tensor B :=
  mk (shape t) (map f (data t)).

(** [tf.reshape] / [np.reshape] with an explicit shape: same buffer. *)
Definition reshape {A} (t : tensor A) (s : list nat) : option (tensor A) :=
  if size s =? length (data t) then Some (mk s (data t)) else None.

(** [np.reshape(t, (1, -1, stride))]: the middle dimension is inferred. *)
Definition reshape_1_infer {A} (t : tensor A) (stride : nat)
  : option (tensor A) :=
  let n := length (data t) in
  if (stride =? 0) then None
  else if (n mod stride =? 0) then Some (mk [1; n / stride; stride] (data t))
  else None.

(** Index along the last axis, and the indices before it. *)
Definition ilast (idx : list nat) : nat := last idx 0.
Definition iinit (idx : list nat) : list nat := removelast idx.

(** [tf.split(t, sizes, axis=-1)]. *)
Fixpoint offsets (acc : nat) (sizes : list nat) : list (nat * nat) :=
  match sizes with
  | [] => []
  | n :: rest => (acc, n) :: offsets (acc + n) rest
  end.

Definition slice_last {A} `{Default A} (t : tensor A) (off n : nat)
  : tensor A :=
  tabulate (iinit (shape t) ++ [n])
           (fun idx => get t (iinit idx ++ [off + ilast idx])).

Definition split_last {A} `{Default A} (t : tensor A) (sizes : list nat)
  : option (list (tensor A)) :=
  match shape t with
  | [] => None
  | _ :: _ =>
      if ilast (shape t) =? list_sum sizes
      then Some (map (fun p => slice_last t (fst p) (snd p)) (offsets 0 sizes))
      else None
  end.

(** [Concatenate(axis=-1)]: the pieces agree on all axes but the last. *)
Fixpoint pick_last {A} `{Default A} (ts : list (tensor A))
  (pre : list nat) (c : nat) : A :=
  match ts with
  | [] => default
  | t :: rest =>
      let n := ilast (shape t) in
      if c <? n then get t (pre ++ [c]) else pick_last rest pre (c - n)
  end.

Definition list_eqb (a b : list nat) : bool :=
  if list_eq_dec Nat.eq_dec a b then true else false.

Definition concat_last {A} `{Default A} (ts : list (tensor A))
  : option (tensor A) :=
  match ts with
  | [] => None
  | t0 :: _ =>
      match shape t0 with
      | [] => None
      | _ :: _ =>
          if forallb (fun t => match shape t with
                               | [] => false
                               | _ :: _ => list_eqb (iinit (shape t))
                                                    (iinit (shape t0))
                               end) ts
          then Some (tabulate
                       (iinit (shape t0)
                          ++ [list_sum (map (fun t => ilast (shape t)) ts)])
                       (fun idx => pick_last ts (iinit idx) (ilast idx)))
          else None
      end
  end.

(** [Concatenate(axis=1)] on rank-3 tensors [(batch, rows, cols)]. *)
Fixpoint pick_rows {A} `{Default A} (ts : list (tensor A))
  (b r c : nat) : A :=
  match ts with
  | [] => default
  | t :: rest =>
      let n := nth 1 (shape t) 0 in
      if r <? n then get t [b; r; c] else pick_rows rest b (r - n) c
  end.

Definition concat_axis1 {A} `{Default A} (ts : list (tensor A))
  : option (tensor A) :=
  match ts with
  | [] => None
  | t0 :: _ =>
      match shape t0 with
      | [b; _; c] =>
          if forallb (fun t => match shape t with
                               | [b'; _; c'] => (b' =? b) && (c' =? c)
                               | _ => false
                               end) ts
          then Some (tabulate
                       [b; list_sum (map (fun t => nth 1 (shape t) 0) ts); c]
                       (fun idx => pick_rows ts (nth 0 idx 0) (nth 1 idx 0)
                                             (nth 2 idx 0)))
          else None
      | _ => None
      end
  end.

(** NumPy/TensorFlow broadcasting: shapes are aligned at their last axis;
    two dimensions are compatible when equal or when one of them is 1. *)
Fixpoint bshape_rev (a b : list nat) : option (list nat) :=
  match a, b with
  | [], _ => Some b
  | _, [] => Some a
  | x :: a', y :: b' =>
      r <- bshape_rev a' b' ;;
      if x =? y then Some (x :: r)
      else if x =? 1 then Some (y :: r)
      else if y =? 1 then Some (x :: r)
      else None
  end.

Definition broadcast_shapes (a b : list nat) : option (list nat) :=
  r <- bshape_rev (rev a) (rev b) ;; Some (rev r).

Fixpoint bproj_rev (s idx : list nat) : list nat :=
  match s, idx with
  | d :: s', i :: idx' => (if d =? 1 then 0 else i) :: bproj_rev s' idx'
  | _, _ => []
  end.

(** The index of the operand of shape [s] read for output index [idx]. *)
Definition bproj (s idx : list nat) : list nat :=
  rev (bproj_rev (rev s) (rev idx)).

Definition zip_broadcast {A B C} `{Default A} `{Default B}
  (f : A -> B -> C) (a : tensor A) (b : tensor B) : option (tensor C) :=
  s <- broadcast_shapes (shape a) (shape b) ;;
  Some (tabulate s (fun idx => f (get a (bproj (shape a) idx))
                                 (get b (bproj (shape b) idx)))).

(** [tf.range(n)]. *)
Definition range (n : nat) : tensor Z := mk [n] (map Z.of_nat (seq 0 n)).

(** [tf.meshgrid(a, b)] with the default ["xy"] indexing, for rank-1
    operands of lengths N and M: two tensors of shape (M, N) with
    [X[r, c] = a[c]] and [Y[r, c] = b[r]]. *)
Definition meshgrid {A} `{Default A} (a b : tensor A)
  : tensor A * tensor A :=
  let n := size (shape a) in
  let m := size (shape b) in
  (tabulate [m; n] (fun idx => get a [nth 1 idx 0]),
   tabulate [m; n] (fun idx => get b [nth 0 idx 0])).

(** [tf.stack([x, y], axis=-1)]. *)
Definition stack2_last {A} `{Default A} (p : tensor A * tensor A)
  : option (tensor A) :=
  let (x, y) := p in
  if list_eqb (shape x) (shape y)
  then Some (tabulate (shape x ++ [2])
               (fun idx => if ilast idx =? 0 then get x (iinit idx)
                           else get y (iinit idx)))
  else None.

(** [tf.tile(t, multiples)]. *)
Fixpoint zip_with {X Y Z} (f : X -> Y -> Z) (a : list X) (b : list Y)
  : list Z :=
  match a, b with
  | x :: a', y :: b' => f x y :: zip_with f a' b'
  | _, _ => []
  end.

Definition tile {A} `{Default A} (t : tensor A) (multiples : list nat)
  : option (tensor A) :=
  if length multiples =? length (shape t)
  then Some (tabulate (zip_with Nat.mul (shape t) multiples)
               (fun idx => get t (zip_with Nat.modulo idx (shape t))))
  else None.

End Tensor.

(** ** The float32 operations the two files use *)

Class Float32 (F : Type) := {
  f_add : F -> F -> F;
  f_sub : F -> F -> F;
  f_mul : F -> F -> F;
  f_div : F -> F -> F;
  f_exp : F -> F;                (* [backend.exp] *)
  f_sigmoid : F -> F;            (* [tf.keras.activations.sigmoid] *)
  f_of_Z : Z -> F;               (* cast of an integer to float32 *)
  f_half : F                     (* the literal [0.5] *)
}.

#[export] Instance Default_Float32 {F} `{Float32 F} : Default F :=
  @f_of_Z F _ 0%Z.

(** ** [class Decode(Model)] *)

Module Decode.
Import Tensor.

Section WithFloat.
Context {F : Type} `{Float32 F}.

(** A [layers.Reshape]: created with [(-1,)], then given its target shape
    by [build]. *)
Inductive Reshape : Type :=
| Flatten
| Target (s : list nat).

Record Decode : Type := mkDecode {
  anchors : tensor F;
  cell_width : Z;
  num_classes : nat;
  xyscale : F;
  reshape0 : Reshape;
  reshape1 : Reshape;
  xy_grid : option (tensor F);    (* set by [build] *)
  built : bool                    (* Keras builds a layer only once *)
}.

Definition init (anchors : tensor F) (cell_width : Z) (num_classes : nat)
  (xyscale : F) : Decode :=
  mkDecode anchors cell_width num_classes xyscale Flatten Flatten None false.

(** Keras [Reshape]: the batch axis is kept, the rest takes the target. *)
Definition apply_reshape (r : Reshape) (x : tensor F) : option (tensor F) :=
  match shape x with
  | [] => None
  | b :: _ =>
      match r with
      | Flatten => if b =? 0 then None
                   else reshape x [b; length (data x) / b]
      | Target s => reshape x (b :: s)
      end
  end.

Definition build (self : Decode) (input_shape : list nat) : option Decode :=
  g <- nth_error input_shape 1 ;;
  let reshape0 := Target [g; g; 3; 5 + num_classes self] in
  xy_grid <- stack2_last (meshgrid (range g) (range g)) ;;
  xy_grid <- reshape xy_grid [1; g; g; 1; 2] ;;
  xy_grid <- tile xy_grid [1; 1; 1; 3; 1] ;;
  let xy_grid := tmap f_of_Z xy_grid in
  let reshape1 := Target [g * g * 3; 5 + num_classes self] in
  Some (mkDecode (anchors self) (cell_width self) (num_classes self)
          (xyscale self) reshape0 reshape1 (Some xy_grid) true).

Definition call (self : Decode) (x : tensor F) (training : bool)
  : option (tensor F) :=
  x <- apply_reshape (reshape0 self) x ;;
  parts <- split_last x [2; 2; 1; num_classes self] ;;
  match parts with
  | [dxdy; wh; score; classes] =>
      let dxdy := tmap f_sigmoid dxdy in
      grid <- xy_grid self ;;
      xy <- zip_broadcast f_add
              (tmap (fun v => f_add (f_mul (f_sub v f_half) (xyscale self))
                                    f_half) dxdy)
              grid ;;
      let xy := tmap (fun v => f_mul v (f_of_Z (cell_width self))) xy in
      wh <- zip_broadcast f_mul (anchors self) (tmap f_exp wh) ;;
      let score := if negb training then tmap f_sigmoid score else score in
      let classes :=
        if negb training then tmap f_sigmoid classes else classes in
      x <- concat_last [xy; wh; score; classes] ;;
      apply_reshape (reshape1 self) x
  | _ => None
  end.

(** Keras [Model.__call__]: the layer is built from the shape of its
    first input, then called; the layer object keeps what [build] set. *)
Definition apply (self : Decode) (x : tensor F) (training : bool)
  : option (Decode * tensor F) :=
  self' <- (if built self then Some self else build self (shape x)) ;;
  out <- call self' x training ;;
  Some (self', out).

(** The raw input seen as [(batch, grid, grid, 3, 5 + C)], which is what
    [reshape0] makes of it. *)
Definition raw_view (x : tensor F) (g C : nat) : tensor F :=
  mk [nth 0 (shape x) 0; g; g; 3; 5 + C] (data x).

(** The grid offset of channel [c] (0 for x, 1 for y) at row [i], column
    [j], as a float. *)
Definition grid_offset (i j c : nat) : F :=
  f_of_Z (Z.of_nat (if c =? 0 then j else i)).

(** Closed form of channel [c] of one decoded row, from the raw row
    [raw], the anchor [(anchor 0, anchor 1)] and the grid values
    [gridv 0], [gridv 1] of its cell. *)
Definition decode_elem (self : Decode) (training : bool)
  (raw : nat -> F) (anchor : nat -> F) (gridv : nat -> F) (c : nat) : F :=
  if c <? 2 then
    f_mul (f_add (f_add (f_mul (f_sub (f_sigmoid (raw c)) f_half)
                               (xyscale self)) f_half)
                 (gridv c))
          (f_of_Z (cell_width self))
  else if c <? 4 then f_mul (anchor (c - 2)) (f_exp (raw c))
  else if training then raw c else f_sigmoid (raw c).

End WithFloat.
End Decode.

(** ** The real numbers as an interpretation of float32 *)

Definition Rsigmoid (x : R) : R := (1 / (1 + exp (- x)))%R.

#[export] Instance Float32_R : Float32 R := {|
  f_add := Rplus;
  f_sub := Rminus;
  f_mul := Rmult;
  f_div := Rdiv;
  f_exp := exp;
  f_sigmoid := Rsigmoid;
  f_of_Z := IZR;
  f_half := (5 / 10)%R
|}.

(** ** [class YOLOv4(Model)]: the three heads and their concatenation *)

Module YOLOv4.
Import Tensor.

Section WithFloat.
Context {F : Type} `{Float32 F}.

(** The convolutional trunk ([CSPDarknet53] and the [YOLOConv2D] layers up
    to [conv93], [conv101] and [conv109]) belongs to the framework; it is
    taken as the function giving the three raw head tensors. *)
Variable trunk : tensor F -> tensor F * tensor F * tensor F.

Record YOLOv4 : Type := mkYOLOv4 {
  decode93 : Decode.Decode (F := F);
  decode101 : Decode.Decode (F := F);
  decode109 : Decode.Decode (F := F)
}.

Definition init (anchors : list (tensor F)) (num_classes : nat)
  (xyscales : list F) : option YOLOv4 :=
  a0 <- nth_error anchors 0 ;; s0 <- nth_error xyscales 0 ;;
  a1 <- nth_error anchors 1 ;; s1 <- nth_error xyscales 1 ;;
  a2 <- nth_error anchors 2 ;; s2 <- nth_error xyscales 2 ;;
  Some (mkYOLOv4 (Decode.init a0 8 num_classes s0)
                 (Decode.init a1 16 num_classes s1)
                 (Decode.init a2 32 num_classes s2)).

Definition call (self : YOLOv4) (x : tensor F) (training : bool)
  : option (YOLOv4 * tensor F) :=
  let '(s_bboxes, m_bboxes, l_bboxes) := trunk x in
  s <- Decode.apply (decode93 self) s_bboxes training ;;
  m <- Decode.apply (decode101 self) m_bboxes training ;;
  l <- Decode.apply (decode109 self) l_bboxes training ;;
  x <- concat_axis1 [snd s; snd m; snd l] ;;
  Some (mkYOLOv4 (fst s) (fst m) (fst l), x).

End WithFloat.
End YOLOv4.

(** ** [yolov4/tflite/__init__.py] *)

Module TFLite.
Import Tensor.

Inductive exn : Type :=
| KeyError (key : string)
| IndexError
| AttributeError (name : string)
| ValueError
| ZeroDivisionError
| RuntimeError (msg : string)
| ExternalError (what : string).   (* raised inside the TFLite runtime *)

Inductive dtype : Type := np_float32 | np_uint8 | np_int8.

Definition is_float32 (d : dtype) : bool :=
  match d with np_float32 => true | _ => false end.

(** State-and-exception monad over the Python object [self]. *)
Definition M (S A : Type) : Type := S -> S * (exn + A).

Definition ret {S A} (a : A) : M S A := fun s => (s, inr a).
Definition raise {S A} (e : exn) : M S A := fun s => (s, inl e).
Definition bind {S A B} (m : M S A) (k : A -> M S B) : M S B :=
  fun s => match m s with
           | (s', inl e) => (s', inl e)
           | (s', inr a) => k a s'
           end.
Definition gets {S A} (f : S -> A) : M S A := fun s => (s, inr (f s)).
Definition modify {S} (f : S -> S) : M S unit := fun s => (f s, inr tt).
Definition lift {S A} (r : exn + A) : M S A := fun s => (s, r).
Definition or_raise {S A} (e : exn) (o : option A) : M S A :=
  match o with Some a => ret a | None => raise e end.

Declare Scope py_scope.
Delimit Scope py_scope with py.
Notation "x <~ m ;; k" := (bind m (fun x => k))
  (at level 61, m at next level, right associativity) : py_scope.
Notation "m ;;; k" := (bind m (fun _ => k))
  (at level 61, right associativity) : py_scope.

(** [for x in xs: body x]. *)
Fixpoint for_each {S X} (xs : list X) (body : X -> M S unit) : M S unit :=
  match xs with
  | [] => ret tt
  | x :: rest => bind (body x) (fun _ => for_each rest body)
  end.

(** [enumerate(xs)]. *)
Definition enumerate {X} (xs : list X) : list (nat * X) :=
  combine (seq 0 (length xs)) xs.

(** A [dict] with string keys. *)
Fixpoint dict_get {V} (d : list (string * V)) (k : string) : option V :=
  match d with
  | [] => None
  | (k', v) :: rest => if String.eqb k' k then Some v else dict_get rest k
  end.

(** [m] keeps the invariant [I] of the object, whether it returns or
    raises, and raises only exceptions in [X]. *)
Definition keeps {S A} (I : S -> Prop) (X : exn -> Prop) (m : M S A) : Prop :=
  forall s, I s ->
    I (fst (m s)) /\ (forall e, snd (m s) = inl e -> X e).

Definition is_runtime_error (e : exn) : Prop :=
  exists msg, e = RuntimeError msg.

(** Exception sets that hold the errors Python itself raises. *)
Definition python_errors (X : exn -> Prop) : Prop :=
  (forall k, X (KeyError k)) /\ X IndexError
  /\ (forall n, X (AttributeError n)) /\ X ZeroDivisionError.

Section WithFloat.
Context {F : Type} `{Float32 F}.

Inductive ndarray : Type :=
| U8 (t : tensor Z)       (* pixel values *)
| F32 (t : tensor F).

(** An entry of [get_input_details()] / [get_output_details()]. *)
Record Details : Type := mkDetails {
  d_index : nat;
  d_shape : list Z;
  d_dtype : dtype
}.

(** The TFLite interpreter: its tensor table and the compiled network,
    which is run by [invoke]. *)
Record Interpreter : Type := mkInterpreter {
  input_details : list Details;
  output_details : list Details;
  network : ndarray -> list (tensor F);
  inputs : list (nat * ndarray);
  outputs : list (nat * tensor F)
}.

Fixpoint table_get {V} (t : list (nat * V)) (i : nat) : option V :=
  match t with
  | [] => None
  | (j, v) :: rest => if j =? i then Some v else table_get rest i
  end.

Definition set_tensor (it : Interpreter) (i : nat) (x : ndarray)
  : Interpreter :=
  mkInterpreter (input_details it) (output_details it) (network it)
                ((i, x) :: inputs it) (outputs it).

Definition invoke (it : Interpreter) : exn + Interpreter :=
  match input_details it with
  | [] => inl (ExternalError "invoke"%string)
  | d :: _ =>
      match table_get (inputs it) (d_index d) with
      | None => inl (ExternalError "invoke"%string)
      | Some x =>
          inr (mkInterpreter (input_details it) (output_details it)
                 (network it) (inputs it)
                 (combine (map d_index (output_details it)) (network it x)
                    ++ outputs it))
      end
  end.

Definition get_tensor (it : Interpreter) (i : nat) : exn + tensor F :=
  match table_get (outputs it) i with
  | Some t => inr t
  | None => inl (ExternalError "get_tensor"%string)
  end.

(** The configuration object ([self.config], owned by [BaseClass]). *)
Record MetaYolo : Type := mkMetaYolo {
  mask : list nat;
  m_anchors : list (Z * Z);
  beta_nms : F;
  scale_x_y : F;
  classes : nat
}.

Record Net : Type := mkNet {
  input_shape : list Z;       (* (height, width, channels) *)
  width : Z;
  height : Z
}.

Record Config : Type := mkConfig {
  layer_count : list (string * nat);
  net : Net;
  find_metalayer : string -> nat -> exn + MetaYolo;
  yolo_0 : option MetaYolo;
  yolo_tpu_0 : option MetaYolo
}.

(** The detector object; an attribute is [None] until it is assigned. *)
Record YOLOv4 : Type := mkYOLOv4 {
  config : Config;
  _tpu : option bool;
  _interpreter : option Interpreter;
  _input_details : option Details;
  _input_float : option bool;
  _output_details : option (list Details);
  _anhcors : list (tensor F);
  _scale_x_y : list F;
  _beta_nms : option F
}.

Definition new (c : Config) : YOLOv4 :=
  mkYOLOv4 c None None None None None [] [] None.

Definition set_tpu v (s : YOLOv4) :=
  mkYOLOv4 (config s) (Some v) (_interpreter s) (_input_details s)
    (_input_float s) (_output_details s) (_anhcors s) (_scale_x_y s)
    (_beta_nms s).
Definition set_interpreter v (s : YOLOv4) :=
  mkYOLOv4 (config s) (_tpu s) (Some v) (_input_details s)
    (_input_float s) (_output_details s) (_anhcors s) (_scale_x_y s)
    (_beta_nms s).
Definition set_input_details v (s : YOLOv4) :=
  mkYOLOv4 (config s) (_tpu s) (_interpreter s) (Some v)
    (_input_float s) (_output_details s) (_anhcors s) (_scale_x_y s)
    (_beta_nms s).
Definition set_input_float v (s : YOLOv4) :=
  mkYOLOv4 (config s) (_tpu s) (_interpreter s) (_input_details s)
    (Some v) (_output_details s) (_anhcors s) (_scale_x_y s)
    (_beta_nms s).
Definition set_output_details v (s : YOLOv4) :=
  mkYOLOv4 (config s) (_tpu s) (_interpreter s) (_input_details s)
    (_input_float s) (Some v) (_anhcors s) (_scale_x_y s)
    (_beta_nms s).
Definition set_anhcors v (s : YOLOv4) :=
  mkYOLOv4 (config s) (_tpu s) (_interpreter s) (_input_details s)
    (_input_float s) (_output_details s) v (_scale_x_y s)
    (_beta_nms s).
Definition set_scale_x_y v (s : YOLOv4) :=
  mkYOLOv4 (config s) (_tpu s) (_interpreter s) (_input_details s)
    (_input_float s) (_output_details s) (_anhcors s) v
    (_beta_nms s).
Definition set_beta_nms v (s : YOLOv4) :=
  mkYOLOv4 (config s) (_tpu s) (_interpreter s) (_input_details s)
    (_input_float s) (_output_details s) (_anhcors s) (_scale_x_y s)
    (Some v).

(** Reading an attribute; one that was never assigned raises
    [AttributeError]. *)
Definition attr {A} (name : string) (f : YOLOv4 -> option A) : M YOLOv4 A :=
  fun s => match f s with
           | Some a => (s, inr a)
           | None => (s, inl (AttributeError name))
           end.

(** What the file takes from elsewhere: the TFLite runtime, and the
    methods and helpers of [BaseClass] and [common]. *)
Variable load_delegate : string -> exn + string.
Variable tflite_Interpreter : string -> list string -> exn + Interpreter.
Variable allocate_tensors : Interpreter -> exn + Interpreter.
Variable resize_image : Config -> tensor Z -> exn + tensor Z.
Variable yolo_diou_nms : tensor F -> F -> exn + tensor F.
Variable fit_to_original : tensor F -> nat -> nat -> tensor F.
Variable _yolo_layer : tensor F -> tensor F -> tensor F -> F -> tensor F.

Local Open Scope py_scope.

Definition shape_mismatch_msg : string :=
  "YOLOv4: config.input_shape and tflite.input_details['shape'] do not match."%string.

(** [a[i] != b[j]] on integer sequences. *)
Definition differ (a : list Z) (i : nat) (b : list Z) (j : nat)
  : M YOLOv4 bool :=
  x <~ or_raise IndexError (nth_error a i) ;;
  y <~ or_raise IndexError (nth_error b j) ;;
  ret (negb (Z.eqb x y)).

(** [np.zeros((rows, 2))] and the assignment [a[j, c] = v]. *)
Definition zeros2 (rows : nat) : tensor F :=
  mk [rows; 2] (repeat (f_of_Z 0) (rows * 2)).

Fixpoint list_set {X} (l : list X) (n : nat) (v : X) : list X :=
  match l, n with
  | [], _ => []
  | _ :: rest, O => v :: rest
  | x :: rest, S n' => x :: list_set rest n' v
  end.

Definition tset (t : tensor F) (idx : list nat) (v : F) : tensor F :=
  mk (shape t) (list_set (data t) (ravel (shape t) idx) v).

(** [self._anhcors[i][j, c] = v]. *)
Definition set_anchor (i j c : nat) (v : F) : M YOLOv4 unit :=
  anchors <~ gets _anhcors ;;
  a <~ or_raise IndexError (nth_error anchors i) ;;
  modify (set_anhcors (list_set anchors i (tset a [j; c] v))).

(** Python [/] on two integers. *)
Definition int_div (a b : Z) : M YOLOv4 F :=
  if Z.eqb b 0 then raise ZeroDivisionError
  else ret (f_div (f_of_Z a) (f_of_Z b)).

(** [load_tflite], first block: [self._tpu] and the interpreter. *)
Definition create_interpreter (tflite_path edgetpu_lib : string)
  : M YOLOv4 unit :=
  cfg <~ gets config ;;
  n_tpu <~ or_raise (KeyError "yolo_tpu")
             (dict_get (layer_count cfg) "yolo_tpu") ;;
  modify (set_tpu (0 <? n_tpu)) ;;;
  tpu <~ attr "_tpu" _tpu ;;
  it <~ (if tpu : bool
         then d <~ lift (load_delegate edgetpu_lib) ;;
              lift (tflite_Interpreter tflite_path [d])
         else lift (tflite_Interpreter tflite_path [])) ;;
  modify (set_interpreter it) ;;;
  it <~ attr "_interpreter" _interpreter ;;
  it <~ lift (allocate_tensors it) ;;
  modify (set_interpreter it).

(** [load_tflite], block [# input_details]: the shape check, then
    [self._input_details] and [self._input_float]. *)
Definition check_input_details : M YOLOv4 unit :=
  it <~ attr "_interpreter" _interpreter ;;
  cfg <~ gets config ;;
  details <~ or_raise IndexError (nth_error (input_details it) 0) ;;
  d1 <~ differ (d_shape details) 1 (input_shape (net cfg)) 0 ;;
  mismatch <~ (if d1 : bool then ret true
               else d2 <~ differ (d_shape details) 2
                                 (input_shape (net cfg)) 1 ;;
                    if d2 : bool then ret true
                    else differ (d_shape details) 3
                                (input_shape (net cfg)) 2) ;;
  (if mismatch : bool
   then raise (RuntimeError shape_mismatch_msg) else ret tt) ;;;
  modify (set_input_details details) ;;;
  details <~ attr "_input_details" _input_details ;;
  modify (set_input_float (is_float32 (d_dtype details))).

(** [load_tflite], block [# output_details] and the loop over the yolo
    layers of the configuration. *)
Definition read_yolo_layers : M YOLOv4 unit :=
  it <~ attr "_interpreter" _interpreter ;;
  modify (set_output_details (output_details it)) ;;;
  tpu <~ attr "_tpu" _tpu ;;
  let layer_type := (if tpu : bool then "yolo_tpu" else "yolo")%string in
  modify (set_anhcors []) ;;;
  modify (set_scale_x_y []) ;;;
  cfg <~ gets config ;;
  n_layers <~ or_raise (KeyError layer_type)
                (dict_get (layer_count cfg) layer_type) ;;
  for_each (seq 0 n_layers) (fun i =>
    metayolo <~ lift (find_metalayer cfg layer_type i) ;;
    modify (set_beta_nms (beta_nms metayolo)) ;;;
    modify (fun s => set_anhcors
                       (_anhcors s ++ [zeros2 (length (mask metayolo))]) s) ;;;
    modify (fun s => set_scale_x_y
                       (_scale_x_y s ++ [scale_x_y metayolo]) s) ;;;
    for_each (enumerate (mask metayolo)) (fun jn =>
      let (j, n) := jn : nat * nat in
      a <~ or_raise IndexError (nth_error (m_anchors metayolo) n) ;;
      v <~ int_div (fst a) (width (net cfg)) ;;
      set_anchor i j 0 v ;;;
      a <~ or_raise IndexError (nth_error (m_anchors metayolo) n) ;;
      v <~ int_div (snd a) (height (net cfg)) ;;
      set_anchor i j 1 v)).

Definition load_tflite (tflite_path edgetpu_lib : string) : M YOLOv4 unit :=
  create_interpreter tflite_path edgetpu_lib ;;;
  check_input_details ;;;
  read_yolo_layers.

(** [[f(x) for x in xs]] where [f] can raise. *)
Fixpoint map_m {S X Y} (f : X -> M S Y) (xs : list X) : M S (list Y) :=
  match xs with
  | [] => ret []
  | x :: rest => y <~ f x ;; ys <~ map_m f rest ;; ret (y :: ys)
  end.

(** [np.reshape(yolo, (1, -1, stride))] and [np.concatenate(_, axis=1)]. *)
Definition np_reshape_1_infer (t : tensor F) (stride : nat)
  : M YOLOv4 (tensor F) :=
  or_raise ValueError (reshape_1_infer t stride).

Definition np_concatenate_axis1 (ts : list (tensor F)) : M YOLOv4 (tensor F) :=
  or_raise ValueError (concat_axis1 ts).

(** [_predict], first half: hand [x] to the interpreter, run it and read
    the output tensors, [[yolo0, yolo1, ...]]. *)
Definition invoke_and_fetch (x : ndarray) : M YOLOv4 (list (tensor F)) :=
  details <~ attr "_input_details" _input_details ;;
  it <~ attr "_interpreter" _interpreter ;;
  let it := set_tensor it (d_index details) x in
  modify (set_interpreter it) ;;;
  it <~ lift (invoke it) ;;
  modify (set_interpreter it) ;;;
  ods <~ attr "_output_details" _output_details ;;
  map_m (fun od => lift (get_tensor it (d_index od))) ods.

(** [_predict], second half: the candidates of every scale, reshaped to
    [(1, -1, stride)] and concatenated along the candidate axis. *)
Definition aggregate (yolos : list (tensor F)) : M YOLOv4 (tensor F) :=
  tpu <~ attr "_tpu" _tpu ;;
  cfg <~ gets config ;;
  candidates <~
    (if tpu : bool
     then
       let num_yolo := length yolos / 2 in
       _yolos <~ map_m (fun i =>
                   y0 <~ or_raise IndexError (nth_error yolos (2 * i)) ;;
                   y1 <~ or_raise IndexError (nth_error yolos (2 * i + 1)) ;;
                   anchors <~ gets _anhcors ;;
                   a <~ or_raise IndexError (nth_error anchors i) ;;
                   scales <~ gets _scale_x_y ;;
                   sc <~ or_raise IndexError (nth_error scales i) ;;
                   ret (_yolo_layer y0 y1 a sc))
                 (seq 0 num_yolo) ;;
       meta <~ or_raise (AttributeError "yolo_tpu_0") (yolo_tpu_0 cfg) ;;
       let stride := 5 + classes meta in
       map_m (fun yolo => np_reshape_1_infer yolo stride) _yolos
     else
       meta <~ or_raise (AttributeError "yolo_0") (yolo_0 cfg) ;;
       let stride := 5 + classes meta in
       map_m (fun yolo => np_reshape_1_infer yolo stride) yolos) ;;
  np_concatenate_axis1 candidates.

Definition _predict (x : ndarray) : M YOLOv4 (tensor F) :=
  yolos <~ invoke_and_fetch x ;;
  aggregate yolos.

(** [a[np.newaxis, ...]] and [a[0]]. *)
Definition newaxis {A} (t : tensor A) : tensor A :=
  mk (1 :: shape t) (data t).

Definition index0 {A} (t : tensor A) : option (tensor A) :=
  match shape t with
  | S _ :: rest => Some (mk rest (firstn (size rest) (data t)))
  | _ => None
  end.

(** [image.astype(np.float32) / 255]. *)
Definition normalize (image : tensor Z) : tensor F :=
  tmap (fun v => f_div v (f_of_Z 255)) (tmap f_of_Z image).

Definition predict (frame : tensor Z) : M YOLOv4 (tensor F) :=
  hw <~ (match shape frame with
         | [height; width; _] => ret (height, width)
         | _ => raise ValueError
         end) ;;
  let (height, width) := hw : nat * nat in
  cfg <~ gets config ;;
  image_data <~ lift (resize_image cfg frame) ;;
  input_float <~ attr "_input_float" _input_float ;;
  batch <~ (if input_float : bool
            then _predict (F32 (normalize (newaxis image_data)))
            else _predict (U8 (newaxis image_data))) ;;
  candidates <~ or_raise IndexError (index0 batch) ;;
  (* Select 0 *)
  beta <~ attr "_beta_nms" _beta_nms ;;
  pred_bboxes <~ lift (yolo_diou_nms candidates beta) ;;
  ret (fit_to_original pred_bboxes height width).

(** Invariants that the assignments of [read_yolo_layers] do not touch. *)
Definition stable (I : YOLOv4 -> Prop) : Prop :=
  forall s, I s ->
    (forall v, I (set_output_details v s))
    /\ (forall v, I (set_anhcors v s))
    /\ (forall v, I (set_scale_x_y v s))
    /\ (forall v, I (set_beta_nms v s)).

(** The runtime gives [create_interpreter] the interpreter [it] for a
    configuration with [n_tpu] TPU layers: through a delegate when there
    is one, without otherwise. *)
Definition created (tflite_path edgetpu_lib : string) (n_tpu : nat)
  (it : Interpreter) : Prop :=
  exists it0,
    (if 0 <? n_tpu
     then exists d, load_delegate edgetpu_lib = inr d
                    /\ tflite_Interpreter tflite_path [d] = inr it0
     else tflite_Interpreter tflite_path [] = inr it0)
    /\ allocate_tensors it0 = inr it.

(** The interpreter after [set_tensor(index, x)] and [invoke()]. *)
Definition ran_on (it : Interpreter) (index : nat) (x : ndarray)
  : Interpreter :=
  mkInterpreter (input_details it) (output_details it) (network it)
    ((index, x) :: inputs it)
    (combine (map d_index (output_details it)) (network it x) ++ outputs it).

End WithFloat.
End TFLite.

(** ** DIoU non-maximum suppression

    [yolo_diou_nms] is a method of [BaseClass], which [predict] calls and
    which is not part of the two files above. *)

Module NMS.

Local Open Scope Q_scope.

(** Modelled from the spec: the candidate box of the data model,
    [(x_center, y_center, w, h, objectness, class_scores[C])]; numbers are
    exact rationals. *)
Record Candidate : Type := mkCandidate {
  cx : Q;
  cy : Q;
  cw : Q;
  ch : Q;
  objectness : Q;
  class_scores : list Q
}.

(** Modelled from the spec: the strict comparison [a < b] of two scores
    or of a threshold and a metric. *)
Definition Qltb (a b : Q) : bool := negb (Qle_bool b a).

(** Modelled from the spec: the class with maximum score per candidate
    (the first one among equal scores) and that score. *)
Fixpoint argmax_from (best_i : nat) (best : Q) (i : nat) (l : list Q)
  : nat * Q :=
  match l with
  | [] => (best_i, best)
  | x :: rest =>
      if Qltb best x then argmax_from i x (S i) rest
      else argmax_from best_i best (S i) rest
  end.

Definition best_class (c : Candidate) : nat * Q :=
  match class_scores c with
  | [] => (0%nat, 0)
  | x :: rest => argmax_from 0%nat x 1%nat rest
  end.

Definition predicted_class (c : Candidate) : nat := fst (best_class c).

(** Modelled from the spec: [score = objectness * class_prob]. *)
Definition score (c : Candidate) : Q := objectness c * snd (best_class c).

(** Modelled from the spec: intersection over union of two centre-size
    boxes, and [DIoU = IoU - euclidean_distance(centers)^2 /
    diagonal_of_smallest_enclosing_box^2]. *)
Definition x1 (c : Candidate) : Q := cx c - cw c / 2.
Definition x2 (c : Candidate) : Q := cx c + cw c / 2.
Definition y1 (c : Candidate) : Q := cy c - ch c / 2.
Definition y2 (c : Candidate) : Q := cy c + ch c / 2.

Definition sq (a : Q) : Q := a * a.

Definition iou (a b : Candidate) : Q :=
  let iw := Qmax 0 (Qmin (x2 a) (x2 b) - Qmax (x1 a) (x1 b)) in
  let ih := Qmax 0 (Qmin (y2 a) (y2 b) - Qmax (y1 a) (y1 b)) in
  let inter := iw * ih in
  inter / (cw a * ch a + cw b * ch b - inter).

Definition diou (a b : Candidate) : Q :=
  let d2 := sq (cx a - cx b) + sq (cy a - cy b) in
  let c2 := sq (Qmax (x2 a) (x2 b) - Qmin (x1 a) (x1 b))
            + sq (Qmax (y2 a) (y2 b) - Qmin (y1 a) (y1 b)) in
  iou a b - d2 / c2.

Section Spec.

(** The acceptance threshold, the number of classes, and the rule that
    scales the suppression threshold by [beta_nms], the kept box's score
    and the candidate's own score: the spec leaves their values open. *)
Variable threshold : Q.
Variable num_classes : nat.
Variable effective_threshold : Q -> Q -> Q -> Q.

(** Modelled from the spec: a candidate is suppressed against the kept box
    when [DIoU > iou_threshold]. *)
Definition suppressed (beta_nms : Q) (kept c : Candidate) : bool :=
  Qltb (effective_threshold beta_nms (score kept) (score c)) (diou kept c).

(** Modelled from the spec: pick the remaining candidate with the highest
    score (the first one among equal scores); the others stay in order. *)
Fixpoint pick_max (best : Candidate) (rest : list Candidate)
  : Candidate * list Candidate :=
  match rest with
  | [] => (best, [])
  | c :: r =>
      if Qltb (score best) (score c)
      then let (m, others) := pick_max c r in (m, best :: others)
      else let (m, others) := pick_max best r in (m, c :: others)
  end.

(** Modelled from the spec: within a class group, repeatedly pick the
    best remaining candidate, emit it, and remove every other remaining
    candidate that it suppresses, until none remains. *)
Fixpoint suppress_loop (fuel : nat) (beta_nms : Q) (remaining : list Candidate)
  : list Candidate :=
  match fuel, remaining with
  | S fuel', c :: r =>
      let (kept, others) := pick_max c r in
      kept :: suppress_loop fuel' beta_nms
                (filter (fun o => negb (suppressed beta_nms kept o)) others)
  | _, _ => []
  end.

(** Modelled from the spec: the loop runs until no candidate remains in
    the group; one round per candidate is enough. *)
Definition suppress_group (beta_nms : Q) (group : list Candidate)
  : list Candidate :=
  suppress_loop (length group) beta_nms group.

(** Modelled from the spec: [BaseClass.yolo_diou_nms], whose code is not
    among the sources.  Drop the candidates whose score is not above the
    threshold, group the survivors by predicted class, suppress within
    each group, and emit the groups in class-id order.  The result is the
    sequence of kept candidates; a final detection is a kept candidate
    with its class id and class probability. *)
Definition yolo_diou_nms (candidates : list Candidate) (beta_nms : Q)
  : list Candidate :=
  let survivors := filter (fun c => Qltb threshold (score c)) candidates in
  flat_map (fun k =>
              suppress_group beta_nms
                (filter (fun c => predicted_class c =? k)%nat survivors))
           (seq 0 num_classes).

(** Modelled from the spec: the final detection
    [(x, y, w, h, objectness, class_id, class_prob)] of a kept candidate. *)
Definition detection (c : Candidate) : Q * Q * Q * Q * Q * nat * Q :=
  (cx c, cy c, cw c, ch c, objectness c, predicted_class c,
   snd (best_class c)).

(** What the suppression loop emits: every kept candidate scores at least
    as high as the ones emitted after it and suppresses none of them. *)
Fixpoint kept_chain (beta_nms : Q) (kept : list Candidate) : Prop :=
  match kept with
  | [] => True
  | m :: rest =>
      (forall c, In c rest ->
         (score c <= score m)%Q
         /\ suppressed beta_nms m c = false)
      /\ kept_chain beta_nms rest
  end.

End Spec.
End NMS.

(** ** Concrete inputs over the reals *)

Module Examples.
Import Tensor.
Local Open Scope R_scope.

(** Anchors (0.1, 0.1) for the three anchors of a scale. *)
Definition anchors_tenth : tensor R := mk [3; 2]%nat (repeat (1 / 10) 6).

(** A 1 x 1 grid with no class: fifteen zero logits. *)
Definition zeros_1x1 : tensor R := mk [1; 1; 1; 15]%nat (repeat 0 15).

(** An 8 x 8 grid with one class: every raw row is (0, 0, 0, 0, 20, 0). *)
Definition logits_8x8 : tensor R :=
  tabulate [1; 8; 8; 18]%nat
    (fun idx => if (ilast idx mod 6 =? 4)%nat then 20 else 0).

Local Close Scope R_scope.
Local Open Scope string_scope.

(** A model with one float32 input of 416 x 416 x 3 and no yolo layer,
    and the runtime that opens it. *)
Definition input_f32 : TFLite.Details :=
  TFLite.mkDetails 0 [1; 416; 416; 3]%Z TFLite.np_float32.

Definition interpreter0 : TFLite.Interpreter (F := R) :=
  TFLite.mkInterpreter [input_f32] [] (fun _ => []) [] [].

Definition meta0 : TFLite.MetaYolo (F := R) :=
  TFLite.mkMetaYolo [] [] 0%R 0%R 0.

Definition config0 : TFLite.Config (F := R) :=
  TFLite.mkConfig [("yolo_tpu", 0); ("yolo", 0)]
    (TFLite.mkNet [416; 416; 3]%Z 416 416)
    (fun _ _ => inl TFLite.IndexError) (Some meta0) (Some meta0).

Definition no_delegate (lib : string) : TFLite.exn + string :=
  inl (TFLite.ExternalError "no delegate").

Definition open_model (path : string) (delegates : list string)
  : TFLite.exn + TFLite.Interpreter (F := R) := inr interpreter0.

Definition allocate (it : TFLite.Interpreter (F := R))
  : TFLite.exn + TFLite.Interpreter (F := R) := inr it.

Definition loaded : TFLite.YOLOv4 (F := R) :=
  fst (TFLite.load_tflite no_delegate open_model allocate
         "yolov4.tflite" "libedgetpu.so.1" (TFLite.new config0)).

(** A 2 x 2 black frame, and stand-ins for the methods of [BaseClass]. *)
Definition black_frame : tensor Z := mk [2; 2; 3] (repeat 0%Z 12).

Definition keep_size (cfg : TFLite.Config (F := R)) (frame : tensor Z)
  : TFLite.exn + tensor Z := inr frame.

Definition keep_all (candidates : tensor R) (beta_nms : R)
  : TFLite.exn + tensor R := inr candidates.

Definition keep_boxes (pred_bboxes : tensor R) (height width : nat)
  : tensor R := pred_bboxes.

Definition first_output (x logistic_x anchors : tensor R) (scale_x_y : R)
  : tensor R := x.

(** Detector objects for the two branches of [_predict]. *)
Definition detector_cpu : TFLite.YOLOv4 (F := R) :=
  TFLite.mkYOLOv4 config0 (Some false) None None None None [] [] None.

Definition detector_tpu : TFLite.YOLOv4 (F := R) :=
  TFLite.mkYOLOv4 config0 (Some true) None None None None
    [anchors_tenth; anchors_tenth; anchors_tenth] [1%R; 1%R; 1%R] None.

Definition trunk_zeros (x : tensor R) : tensor R * tensor R * tensor R :=
  (zeros_1x1, zeros_1x1, zeros_1x1).

(** The same configuration for a 608 x 608 network. *)
Definition config_608 : TFLite.Config (F := R) :=
  TFLite.mkConfig [("yolo_tpu", 0); ("yolo", 0)]%string
    (TFLite.mkNet [608; 608; 3]%Z 608 608)
    (fun _ _ => inl TFLite.IndexError) (Some meta0) (Some meta0).

(** A configuration with one yolo layer that uses the second of two
    anchors, on a 416 x 416 network. *)
Definition meta1 : TFLite.MetaYolo (F := R) :=
  TFLite.mkMetaYolo [1] [(12, 16); (19, 36)]%Z (6 / 10)%R (12 / 10)%R 80.

Definition config1 : TFLite.Config (F := R) :=
  TFLite.mkConfig [("yolo_tpu", 0); ("yolo", 1)]
    (TFLite.mkNet [416; 416; 3]%Z 416 416)
    (fun _ _ => inr meta1) (Some meta1) None.

(** Three candidates over two classes: two identical boxes of class 0
    and the same box predicted as class 1; a fixed suppression threshold. *)
Definition box_a : NMS.Candidate :=
  NMS.mkCandidate 10 10 4 4 (9 # 10) [9 # 10; 1 # 10]%Q.

Definition box_b : NMS.Candidate :=
  NMS.mkCandidate 10 10 4 4 (9 # 10) [1 # 10; 9 # 10]%Q.

Definition fixed_threshold (beta_nms kept_score score : Q) : Q := beta_nms.

End Examples.

(** ** What [load_tflite] stores *)

Module Stored.
Import Tensor TFLite.
Section WithFloat.
Context {F : Type} `{Float32 F}.

(** The two entries that the inner loop of [load_tflite] writes for the
    mask entry [n]: anchor [n] divided by the network width and height. *)
Definition normalized_anchor (cfg : Config (F := F)) (meta : MetaYolo (F := F))
  (n : nat) : list F :=
  let a := nth n (m_anchors meta) (0, 0)%Z in
  [f_div (f_of_Z (fst a)) (f_of_Z (width (net cfg)));
   f_div (f_of_Z (snd a)) (f_of_Z (height (net cfg)))].

(** The array [self._anhcors[i]] of a layer once its mask is processed. *)
Definition layer_anchors (cfg : Config (F := F)) (meta : MetaYolo (F := F))
  : tensor F :=
  mk [length (mask meta); 2] (flat_map (normalized_anchor cfg meta) (mask meta)).

(** [self._beta_nms] after the layers [i0 .. i0 + k - 1]. *)
Definition last_beta (metas : nat -> MetaYolo (F := F)) (i0 k : nat)
  (before : option F) : option F :=
  match k with
  | O => before
  | S k' => Some (beta_nms (metas (i0 + k')))
  end.

End WithFloat.
End Stored.

(** ** Concrete inputs for the error paths and the load path *)

Module Inputs.
Import Tensor Examples.
Local Open Scope string_scope.

(** A configuration whose [layer_count] has no "yolo_tpu" entry. *)
Definition config_no_tpu_key : TFLite.Config (F := R) :=
  TFLite.mkConfig [("yolo", 0)]
    (TFLite.mkNet [416; 416; 3]%Z 416 416)
    (fun _ _ => inl TFLite.IndexError) (Some meta0) (Some meta0).

(** A runtime that cannot open the model file. *)
Definition no_model (path : string) (delegates : list string)
  : TFLite.exn + TFLite.Interpreter (F := R) :=
  inl (TFLite.ExternalError "no model").

(** A model without input tensor, and the runtime that opens it. *)
Definition interpreter_no_input : TFLite.Interpreter (F := R) :=
  TFLite.mkInterpreter [] [] (fun _ => []) [] [].

Definition open_no_input (path : string) (delegates : list string)
  : TFLite.exn + TFLite.Interpreter (F := R) := inr interpreter_no_input.

(** A configuration that announces one yolo layer and describes none. *)
Definition config_lost_layer : TFLite.Config (F := R) :=
  TFLite.mkConfig [("yolo_tpu", 0); ("yolo", 1)]
    (TFLite.mkNet [416; 416; 3]%Z 416 416)
    (fun _ _ => inl (TFLite.KeyError "yolo")) (Some meta1) None.

(** A layer whose mask names a third anchor where there are two. *)
Definition meta_bad_mask : TFLite.MetaYolo (F := R) :=
  TFLite.mkMetaYolo [0; 2] [(12, 16); (19, 36)]%Z (6 / 10)%R (12 / 10)%R 80.

Definition config_bad_mask : TFLite.Config (F := R) :=
  TFLite.mkConfig [("yolo_tpu", 0); ("yolo", 1)]
    (TFLite.mkNet [416; 416; 3]%Z 416 416)
    (fun _ _ => inr meta_bad_mask) (Some meta_bad_mask) None.

(** A raw tensor that agrees with [zeros_1x1] on its first row only. *)
Definition zeros_then_ones : tensor R :=
  mk [1; 1; 1; 15] (repeat 0%R 5 ++ repeat 1%R 10).

(** A frame without channel axis, and a resize step that rejects its
    frame. *)
Definition gray_frame : tensor Z := mk [2; 2] (repeat 0%Z 4).

Definition reject_size (cfg : TFLite.Config (F := R)) (frame : tensor Z)
  : TFLite.exn + tensor Z := inl TFLite.ValueError.

(** A model with one output of fifteen values, loaded without TPU. *)
Definition output_f32 : TFLite.Details :=
  TFLite.mkDetails 1 [1; 1; 1; 15]%Z TFLite.np_float32.

Definition interpreter_one_output : TFLite.Interpreter (F := R) :=
  TFLite.mkInterpreter [input_f32] [output_f32] (fun _ => [zeros_1x1]) [] [].

Definition detector_ready : TFLite.YOLOv4 (F := R) :=
  TFLite.mkYOLOv4 config0 (Some false) (Some interpreter_one_output)
    (Some input_f32) (Some true) (Some [output_f32]) [] [] (Some (6 / 10)%R).

End Inputs.

(** * Properties *)

(** ** Index arithmetic and the tensor operations *)

Module TensorFacts.
Import Tensor.

Lemma ravel_lt : forall s idx, in_bounds s idx -> ravel s idx < size s.
Proof.
  induction s as [|d s IH]; intros [|i idx] Hb; simpl in *; try tauto.
  - lia.
  - destruct Hb as [Hi Hb]. specialize (IH _ Hb). nia.
Qed.

Lemma unravel_ravel : forall s idx,
  in_bounds s idx -> unravel s (ravel s idx) = idx.
Proof.
  induction s as [|d s IH]; intros [|i idx] Hb; simpl in *; try tauto.
  destruct Hb as [Hi Hb].
  pose proof (ravel_lt _ _ Hb) as Hlt.
  assert (Hq : (i * size s + ravel s idx) / size s = i).
  { symmetry. apply Nat.div_unique with (r := ravel s idx); lia. }
  assert (Hr : (i * size s + ravel s idx) mod size s = ravel s idx).
  { symmetry. apply Nat.mod_unique with (q := i); lia. }
  rewrite Hq, Hr, IH; auto.
Qed.

Lemma nth_map_seq : forall {A} (f : nat -> A) n k d,
  k < n -> nth k (map f (seq 0 n)) d = f k.
Proof.
  intros A f n k d Hk.
  rewrite (nth_indep _ d (f 0)) by (rewrite length_map, length_seq; lia).
  rewrite (map_nth f (seq 0 n) 0 k), seq_nth; auto.
Qed.

Lemma shape_tabulate : forall {A} s (f : list nat -> A),
  shape (tabulate s f) = s.
Proof. reflexivity. Qed.

Lemma wf_tabulate : forall {A} s (f : list nat -> A), wf (tabulate s f).
Proof. intros. unfold wf, tabulate. simpl. now rewrite length_map, length_seq. Qed.

Lemma get_tabulate : forall {A} `{Default A} s (f : list nat -> A) idx,
  in_bounds s idx -> get (tabulate s f) idx = f idx.
Proof.
  intros A D s f idx Hb. unfold get, tabulate. simpl.
  rewrite nth_map_seq by (apply ravel_lt; auto).
  now rewrite unravel_ravel.
Qed.

Lemma shape_tmap : forall {A B} (f : A -> B) t, shape (tmap f t) = shape t.
Proof. reflexivity. Qed.

Lemma wf_tmap : forall {A B} (f : A -> B) t, wf t -> wf (tmap f t).
Proof. intros. unfold wf, tmap in *. simpl. now rewrite length_map. Qed.

Lemma get_tmap : forall {A B} `{Default A} `{Default B} (f : A -> B) t idx,
  wf t -> in_bounds (shape t) idx ->
  get (tmap f t) idx = f (get t idx).
Proof.
  intros A B DA DB f t idx Hwf Hb. unfold get, tmap. simpl.
  rewrite (nth_indep _ default (f default)).
  - apply map_nth.
  - rewrite length_map, Hwf. now apply ravel_lt.
Qed.

Lemma reshape_some : forall {A} (t : tensor A) s,
  wf t -> size s = size (shape t) -> reshape t s = Some (mk s (data t)).
Proof.
  intros A t s Hwf Hs. unfold reshape. rewrite Hwf, <- Hs, Nat.eqb_refl.
  reflexivity.
Qed.

Lemma get_same_offset : forall {A} `{Default A} (t t' : tensor A) idx idx',
  data t' = data t ->
  ravel (shape t') idx' = ravel (shape t) idx ->
  get t' idx' = get t idx.
Proof. intros. unfold get. congruence. Qed.

(** An operand dimension equal to 1 is read at index 0; any in-range
    index of it is 0 anyway. *)
Lemma bsel : forall d i, i < d -> (if d =? 1 then 0 else i) = i.
Proof. intros d i Hi. destruct (Nat.eqb_spec d 1); lia. Qed.

End TensorFacts.

(** ** [Decode]: what [build] and [call] compute *)

Module DecodeFacts.
Import Tensor TensorFacts.

Section WithFloat.
Context {F : Type} `{Float32 F}.

Lemma get_range : forall g j, j < g -> get (range g) [j] = Z.of_nat j.
Proof.
  intros g j Hj. unfold get, range. cbn [shape data ravel size fold_right].
  replace (j * 1 + 0) with j by lia.
  apply nth_map_seq; auto.
Qed.

Lemma list_eqb_refl : forall a, list_eqb a a = true.
Proof. intros a. unfold list_eqb. destruct (list_eq_dec Nat.eq_dec a a); congruence. Qed.

Lemma meshgrid_range : forall g,
  meshgrid (range g) (range g) =
  (tabulate [g; g] (fun idx => get (range g) [nth 1 idx 0]),
   tabulate [g; g] (fun idx => get (range g) [nth 0 idx 0])).
Proof.
  intros g. unfold meshgrid. cbn [shape range size fold_right].
  rewrite Nat.mul_1_r. reflexivity.
Qed.

Lemma build_spec : forall (self : Decode.Decode) input_shape g,
  nth_error input_shape 1 = Some g ->
  exists grid,
    Decode.build self input_shape =
      Some (Decode.mkDecode (Decode.anchors self) (Decode.cell_width self)
              (Decode.num_classes self) (Decode.xyscale self)
              (Decode.Target [g; g; 3; 5 + Decode.num_classes self])
              (Decode.Target [g * g * 3; 5 + Decode.num_classes self])
              (Some grid) true)
    /\ shape grid = [1; g; g; 3; 2]
    /\ wf grid
    /\ forall i j k, i < g -> j < g -> k < 3 ->
         get grid [0; i; j; k; 0] = f_of_Z (Z.of_nat j)
         /\ get grid [0; i; j; k; 1] = f_of_Z (Z.of_nat i).
Proof.
  intros self input_shape g Hg.
  unfold Decode.build. rewrite Hg. cbn [obind].
  rewrite meshgrid_range. unfold stack2_last.
  rewrite shape_tabulate, list_eqb_refl. cbn [obind app].
  set (S3 := tabulate [g; g; 2] _).
  rewrite (@reshape_some _ S3 [1; g; g; 1; 2]);
    [ | apply wf_tabulate | unfold S3; rewrite shape_tabulate; simpl; lia ].
  cbn [obind]. unfold tile. cbn [shape length Nat.eqb zip_with].
  rewrite !Nat.mul_1_r, Nat.mul_1_l. cbn [obind].
  set (R5 := mk [1; g; g; 1; 2] (data S3)).
  eexists. split; [reflexivity|].
  split; [reflexivity|].
  split; [apply wf_tmap, wf_tabulate|].
  intros i j k Hi Hj Hk.
  assert (Hcell : forall c, c < 2 ->
            get (tabulate [1; g; g; 3; 2]
                   (fun idx => get R5 (zip_with Nat.modulo idx [1; g; g; 1; 2])))
                [0; i; j; k; c]
            = if c =? 0 then Z.of_nat j else Z.of_nat i).
  { intros c Hc.
    rewrite get_tabulate by (simpl; lia).
    cbn [zip_with].
    rewrite (Nat.mod_small i g), (Nat.mod_small j g), (Nat.mod_small c 2),
      !Nat.mod_1_r by lia.
    rewrite (@get_same_offset _ _ S3 R5 [i; j; c] [0; i; j; 0; c]);
      [ | reflexivity | unfold R5, S3; rewrite shape_tabulate; simpl; lia ].
    unfold S3. rewrite get_tabulate by (simpl; lia).
    cbn [ilast iinit last removelast].
    rewrite !get_tabulate by (simpl; lia).
    cbn [nth]. rewrite !get_range by lia. reflexivity. }
  split.
  - rewrite get_tmap; [ | apply wf_tabulate | simpl; lia ].
    now rewrite (Hcell 0) by lia.
  - rewrite get_tmap; [ | apply wf_tabulate | simpl; lia ].
    now rewrite (Hcell 1) by lia.
Qed.

Lemma broadcast_batch : forall B s,
  broadcast_shapes (B :: s) (1 :: s) = Some (B :: s).
Proof.
  intros B s. unfold broadcast_shapes. cbn [rev].
  assert (E : bshape_rev (rev s ++ [B]) (rev s ++ [1]) = Some (rev s ++ [B])).
  { induction (rev s) as [|d l IH]; cbn [app bshape_rev obind].
    - destruct (Nat.eqb_spec B 1); [reflexivity|].
      destruct B; reflexivity.
    - rewrite IH. cbn [obind]. now rewrite Nat.eqb_refl. }
  rewrite E. cbn [obind]. now rewrite rev_app_distr, rev_involutive.
Qed.

Lemma split_last_some : forall {A} `{Default A} (t : tensor A) sizes,
  shape t <> [] -> ilast (shape t) = list_sum sizes ->
  split_last t sizes =
    Some (map (fun p => slice_last t (fst p) (snd p)) (offsets 0 sizes)).
Proof.
  intros A D t sizes Hne Hs. unfold split_last.
  destruct (shape t); [congruence|]. now rewrite Hs, Nat.eqb_refl.
Qed.

Lemma get_slice_last : forall {A} `{Default A} (t : tensor A) off n pre c,
  in_bounds (iinit (shape t) ++ [n]) (pre ++ [c]) ->
  get (slice_last t off n) (pre ++ [c]) = get t (pre ++ [off + c]).
Proof.
  intros A D t off n pre c Hb. unfold slice_last.
  rewrite get_tabulate by auto.
  unfold iinit, ilast. now rewrite removelast_last, last_last.
Qed.

Lemma zip_broadcast_some : forall {A B C} `{Default A} `{Default B}
  (f : A -> B -> C) a b s,
  broadcast_shapes (shape a) (shape b) = Some s ->
  zip_broadcast f a b =
    Some (tabulate s (fun idx => f (get a (bproj (shape a) idx))
                                   (get b (bproj (shape b) idx)))).
Proof. intros. unfold zip_broadcast. now rewrite H2. Qed.

Lemma iinit_snoc : forall pre n, iinit (pre ++ [n]) = pre.
Proof. intros. apply removelast_last. Qed.

Lemma ilast_snoc : forall pre n, ilast (pre ++ [n]) = n.
Proof. intros. apply last_last. Qed.

Lemma concat_last_some : forall {A} `{Default A} (ts : list (tensor A)) pre,
  ts <> [] ->
  Forall (fun t => exists n, shape t = pre ++ [n]) ts ->
  concat_last ts =
    Some (tabulate (pre ++ [list_sum (map (fun t => ilast (shape t)) ts)])
            (fun idx => pick_last ts (iinit idx) (ilast idx))).
Proof.
  intros A D ts pre Hne Hall. unfold concat_last.
  destruct ts as [|t0 rest]; [congruence|].
  assert (Hpre : forall t : tensor A, (exists n, shape t = pre ++ [n]) ->
                   iinit (shape t) = pre /\ shape t <> []).
  { intros t [n Hn]. rewrite Hn, iinit_snoc. split; [reflexivity|].
    destruct pre; discriminate. }
  destruct (Hpre t0 (Forall_inv Hall)) as [Hi0 Hne0].
  assert (Hf : forallb (fun t => match shape t with
                                 | [] => false
                                 | _ :: _ => list_eqb (iinit (shape t))
                                               (iinit (shape t0))
                                 end) (t0 :: rest) = true).
  { apply forallb_forall. intros t Ht.
    rewrite Forall_forall in Hall.
    destruct (Hpre t (Hall _ Ht)) as [Hi Hn].
    rewrite Hi, Hi0. destruct (shape t); [congruence|].
    apply list_eqb_refl. }
  rewrite Hf, Hi0. destruct (shape t0); [congruence|]. reflexivity.
Qed.

Lemma call_spec : forall (self : Decode.Decode) grid x training B g,
  let C := Decode.num_classes self in
  Decode.reshape0 self = Decode.Target [g; g; 3; 5 + C] ->
  Decode.reshape1 self = Decode.Target [g * g * 3; 5 + C] ->
  Decode.xy_grid self = Some grid ->
  shape grid = [1; g; g; 3; 2] -> wf grid ->
  shape (Decode.anchors self) = [3; 2] -> wf (Decode.anchors self) ->
  shape x = [B; g; g; 3 * (5 + C)] -> wf x ->
  exists out,
    Decode.call self x training = Some out
    /\ shape out = [B; g * g * 3; 5 + C]
    /\ wf out
    /\ forall b i j k c, b < B -> i < g -> j < g -> k < 3 -> c < 5 + C ->
         get out [b; (i * g + j) * 3 + k; c] =
         Decode.decode_elem self training
           (fun c => get (Decode.raw_view x g C) [b; i; j; k; c])
           (fun c => get (Decode.anchors self) [k; c])
           (fun c => get grid [0; i; j; k; c]) c.
Proof.
  intros self grid x training B g C Hr0 Hr1 Hgrid Hgs Hgw Has Haw Hxs Hxw.
  unfold Decode.call. rewrite Hr0, Hr1, Hgrid.
  unfold Decode.apply_reshape at 1. rewrite Hxs.
  rewrite reshape_some; [ | auto | rewrite Hxs; simpl; lia ].
  cbn [obind].
  set (x5 := mk [B; g; g; 3; 5 + C] (data x)).
  assert (Hx5 : Decode.raw_view x g C = x5).
  { unfold Decode.raw_view, x5. now rewrite Hxs. }
  fold C.
  rewrite split_last_some;
    [ | discriminate | cbn [shape x5 ilast last list_sum fold_right]; lia ].
  cbn [obind offsets map fst snd Nat.add].
  set (dxdy := slice_last x5 0 2).
  set (wh := slice_last x5 2 2).
  set (sc := if negb training then _ else slice_last x5 4 1).
  set (cl := if negb training then _ else slice_last x5 5 C).
  rewrite (@zip_broadcast_some _ _ _ _ _ f_add _ grid [B; g; g; 3; 2])
    by (rewrite Hgs; apply broadcast_batch).
  cbn [obind].
  rewrite (@zip_broadcast_some _ _ _ _ _ f_mul (Decode.anchors self) _
             [B; g; g; 3; 2]) by (rewrite Has; reflexivity).
  cbn [obind].
  set (xy := tmap _ (tabulate _ _)).
  set (wh' := tabulate _ _).
  assert (Hsc : shape sc = [B; g; g; 3; 1])
    by (unfold sc; destruct training; reflexivity).
  assert (Hcl : shape cl = [B; g; g; 3; C])
    by (unfold cl; destruct training; reflexivity).
  rewrite (@concat_last_some _ _ [xy; wh'; sc; cl] [B; g; g; 3]);
    [ | discriminate
      | repeat constructor; eexists;
        [reflexivity | reflexivity | exact Hsc | exact Hcl] ].
  cbn [obind map list_sum fold_right].
  rewrite Hsc, Hcl.
  replace (ilast (shape xy)) with 2 by reflexivity.
  replace (ilast (shape wh')) with 2 by reflexivity.
  cbn [ilast last].
  replace (2 + (2 + (1 + (C + 0)))) with (5 + C) by lia.
  set (cc := tabulate _ _).
  unfold Decode.apply_reshape. cbn [shape cc tabulate app].
  fold cc.
  change (S (S (S (S (S C))))) with (5 + C).
  rewrite reshape_some;
    [ | apply wf_tabulate | cbn [cc shape tabulate app size fold_right]; ring ].
  eexists. split; [reflexivity|]. split; [reflexivity|].
  split.
  { unfold wf. cbn [cc shape data tabulate app size fold_right].
    rewrite length_map, length_seq. cbn [size fold_right]. ring. }
  intros b i j k c Hb Hi Hj Hk Hc.
  rewrite (@get_same_offset _ _ cc _ [b; i; j; k; c]);
    [ | reflexivity
      | cbn [cc shape tabulate app ravel size fold_right]; ring ].
  unfold cc. rewrite get_tabulate by (simpl; lia).
  cbn [iinit ilast removelast last].
  rewrite Hx5.
  assert (Hraw : forall off n c', c' < n -> off + n <= 5 + C ->
            get (slice_last x5 off n) [b; i; j; k; c']
            = get x5 [b; i; j; k; off + c']).
  { intros off n c' Hc' Hn.
    apply (get_slice_last x5 off n [b; i; j; k] c'). simpl; lia. }
  assert (Hwf5 : forall off n, wf (slice_last x5 off n))
    by (intros; apply wf_tabulate).
  unfold Decode.decode_elem, pick_last.
  replace (ilast (shape xy)) with 2 by reflexivity.
  replace (ilast (shape wh')) with 2 by reflexivity.
  rewrite Hsc, Hcl. cbn [ilast last app].
  destruct (Nat.ltb_spec c 2) as [Hc2|Hc2].
  - (* x, y *)
    unfold xy. rewrite get_tmap; [ | apply wf_tabulate | simpl; lia ].
    rewrite get_tabulate by (simpl; lia).
    rewrite Hgs. unfold bproj.
    cbn [shape tmap dxdy slice_last tabulate iinit removelast app x5 rev
         bproj_rev Nat.eqb].
    rewrite !bsel by lia.
    rewrite !get_tmap;
      try apply wf_tmap; try apply Hwf5;
      try (cbn [shape tmap slice_last tabulate iinit removelast app x5];
           simpl; lia).
    unfold dxdy. rewrite Hraw by lia. reflexivity.
  - destruct (Nat.ltb_spec (c - 2) 2) as [Hc4|Hc4].
    + (* w, h *)
      replace (c <? 4) with true by (symmetry; apply Nat.ltb_lt; lia).
      unfold wh'. rewrite get_tabulate by (simpl; lia).
      rewrite Has. unfold bproj.
      cbn [shape tmap wh slice_last tabulate iinit removelast app x5 rev
           bproj_rev Nat.eqb].
      rewrite !bsel by lia.
      rewrite get_tmap;
        [ | apply Hwf5
          | cbn [shape slice_last tabulate iinit removelast app x5];
            simpl; lia ].
      unfold wh. rewrite Hraw by lia.
      replace (2 + (c - 2)) with c by lia. reflexivity.
    + replace (c <? 4) with false by (symmetry; apply Nat.ltb_ge; lia).
      destruct (Nat.ltb_spec (c - 2 - 2) 1) as [Hc5|Hc5].
      * (* objectness *)
        assert (c = 4) by lia. subst c. cbn [Nat.sub].
        unfold sc. destruct training; cbn [negb].
        -- now rewrite Hraw by lia.
        -- rewrite get_tmap;
             [ | apply Hwf5
               | cbn [shape slice_last tabulate iinit removelast app x5];
                 simpl; lia ].
           now rewrite Hraw by lia.
      * (* classes *)
        replace (c - 2 - 2 - 1 <? C) with true
          by (symmetry; apply Nat.ltb_lt; lia).
        assert (Hcc : 5 + (c - 2 - 2 - 1) = c) by lia.
        unfold cl. destruct training; cbn [negb].
        -- rewrite Hraw by lia. now rewrite Hcc.
        -- rewrite get_tmap;
             [ | apply Hwf5
               | cbn [shape slice_last tabulate iinit removelast app x5];
                 simpl; lia ].
           rewrite Hraw by lia. now rewrite Hcc.
Qed.

Lemma apply_spec : forall anchors cw C xyscale (x : tensor F) training B g,
  shape anchors = [3; 2] -> wf anchors ->
  shape x = [B; g; g; 3 * (5 + C)] -> wf x ->
  let self := Decode.init anchors cw C xyscale in
  exists self' out,
    Decode.apply self x training = Some (self', out)
    /\ Decode.built self' = true
    /\ shape out = [B; g * g * 3; 5 + C]
    /\ wf out
    /\ forall b i j k c, b < B -> i < g -> j < g -> k < 3 -> c < 5 + C ->
         get out [b; (i * g + j) * 3 + k; c] =
         Decode.decode_elem self training
           (fun c => get (Decode.raw_view x g C) [b; i; j; k; c])
           (fun c => get anchors [k; c])
           (Decode.grid_offset i j) c.
Proof.
  intros anchors cw C xyscale x training B g Has Haw Hxs Hxw self.
  unfold Decode.apply. cbn [Decode.built self Decode.init].
  destruct (@build_spec self (shape x) g) as (grid & Hb & Hgs & Hgw & Hgv).
  { now rewrite Hxs. }
  rewrite Hb. cbn [obind].
  set (self' := Decode.mkDecode _ _ _ _ _ _ _ _).
  destruct (@call_spec self' grid x training B g) as (out & Hc & Hos & How & Hov);
    auto.
  rewrite Hc. cbn [obind].
  exists self', out. repeat split; auto.
  intros b i j k c Hb' Hi Hj Hk Hc'.
  rewrite Hov by auto.
  unfold Decode.decode_elem. cbn [self' self Decode.init Decode.xyscale
                            Decode.cell_width Decode.anchors Decode.num_classes].
  destruct (Nat.ltb_spec c 2) as [Hc2|Hc2]; [|reflexivity].
  destruct (Hgv i j k Hi Hj Hk) as [G0 G1].
  unfold Decode.grid_offset.
  destruct c as [|[|c]]; [now rewrite G0 | now rewrite G1 | lia].
Qed.


(** C1: for a raw input of shape (grid, grid, 3, 5 + C), the decoded x of
    row [i], column [j], anchor [k] is
    ((sigmoid(dx) - 0.5) * xyscale + 0.5 + j) * cell_width, and the decoded
    y is ((sigmoid(dy) - 0.5) * xyscale + 0.5 + i) * cell_width, where
    dx, dy are the first two components of the raw row at (i, j, k). *)
Theorem decode_xy_formula :
  forall anchors cw C xyscale (x : tensor F) training B g b i j k,
  shape anchors = [3; 2] -> wf anchors ->
  shape x = [B; g; g; 3 * (5 + C)] -> wf x ->
  b < B -> i < g -> j < g -> k < 3 ->
  exists self' out,
    Decode.apply (Decode.init anchors cw C xyscale) x training
      = Some (self', out)
    /\ let dx := get (Decode.raw_view x g C) [b; i; j; k; 0] in
       let dy := get (Decode.raw_view x g C) [b; i; j; k; 1] in
       let row := (i * g + j) * 3 + k in
       get out [b; row; 0] =
         f_mul (f_add (f_add (f_mul (f_sub (f_sigmoid dx) f_half) xyscale)
                             f_half)
                      (f_of_Z (Z.of_nat j)))
               (f_of_Z cw)
       /\ get out [b; row; 1] =
         f_mul (f_add (f_add (f_mul (f_sub (f_sigmoid dy) f_half) xyscale)
                             f_half)
                      (f_of_Z (Z.of_nat i)))
               (f_of_Z cw).
Proof.
  intros anchors cw C xyscale x training B g b i j k Has Haw Hxs Hxw Hb Hi Hj Hk.
  destruct (apply_spec cw xyscale training Has Haw Hxs Hxw)
    as (self' & out & Ha & _ & _ & _ & Hv).
  exists self', out. split; [exact Ha|].
  cbv zeta. split; rewrite Hv by lia; reflexivity.
Qed.

(** C3: the decoded width is anchor_w * exp(dw) and the decoded height is
    anchor_h * exp(dh), with the [k]-th anchor of the scale and the raw
    third and fourth components; no sigmoid is applied to them. *)
Theorem decode_wh_formula :
  forall anchors cw C xyscale (x : tensor F) training B g b i j k,
  shape anchors = [3; 2] -> wf anchors ->
  shape x = [B; g; g; 3 * (5 + C)] -> wf x ->
  b < B -> i < g -> j < g -> k < 3 ->
  exists self' out,
    Decode.apply (Decode.init anchors cw C xyscale) x training
      = Some (self', out)
    /\ let dw := get (Decode.raw_view x g C) [b; i; j; k; 2] in
       let dh := get (Decode.raw_view x g C) [b; i; j; k; 3] in
       let row := (i * g + j) * 3 + k in
       get out [b; row; 2] = f_mul (get anchors [k; 0]) (f_exp dw)
       /\ get out [b; row; 3] = f_mul (get anchors [k; 1]) (f_exp dh).
Proof.
  intros anchors cw C xyscale x training B g b i j k Has Haw Hxs Hxw Hb Hi Hj Hk.
  destruct (apply_spec cw xyscale training Has Haw Hxs Hxw)
    as (self' & out & Ha & _ & _ & _ & Hv).
  exists self', out. split; [exact Ha|].
  cbv zeta. split; rewrite Hv by lia; reflexivity.
Qed.

(** C4: the grid that [build] makes holds the column index [j] in its
    first channel and the row index [i] in its second, at every cell
    (row [i], column [j]); [call] adds the first channel to the x term and
    the second to the y term. *)
Theorem grid_column_on_x_row_on_y :
  forall (self : Decode.Decode) (x : tensor F) training B g b i j k,
  let C := Decode.num_classes self in
  shape (Decode.anchors self) = [3; 2] -> wf (Decode.anchors self) ->
  shape x = [B; g; g; 3 * (5 + C)] -> wf x ->
  b < B -> i < g -> j < g -> k < 3 ->
  exists self' grid out,
    Decode.build self (shape x) = Some self'
    /\ Decode.xy_grid self' = Some grid
    /\ get grid [0; i; j; k; 0] = f_of_Z (Z.of_nat j)
    /\ get grid [0; i; j; k; 1] = f_of_Z (Z.of_nat i)
    /\ Decode.call self' x training = Some out
    /\ let u c := f_add (f_mul (f_sub (f_sigmoid
                      (get (Decode.raw_view x g C) [b; i; j; k; c])) f_half)
                      (Decode.xyscale self)) f_half in
       let row := (i * g + j) * 3 + k in
       get out [b; row; 0] =
         f_mul (f_add (u 0) (get grid [0; i; j; k; 0]))
               (f_of_Z (Decode.cell_width self))
       /\ get out [b; row; 1] =
         f_mul (f_add (u 1) (get grid [0; i; j; k; 1]))
               (f_of_Z (Decode.cell_width self)).
Proof.
  intros self x training B g b i j k C Has Haw Hxs Hxw Hb Hi Hj Hk.
  destruct (@build_spec self (shape x) g) as (grid & Hbd & Hgs & Hgw & Hgv).
  { now rewrite Hxs. }
  set (self' := Decode.mkDecode _ _ _ _ _ _ _ _) in Hbd.
  destruct (@call_spec self' grid x training B g)
    as (out & Hc & _ & _ & Hov); auto.
  destruct (Hgv i j k Hi Hj Hk) as [G0 G1].
  exists self', grid, out.
  repeat (split; [assumption || reflexivity|]).
  cbv zeta. split; rewrite Hov by (simpl; lia); reflexivity.
Qed.

(** C5: with [training = false] the objectness and every class logit go
    through sigmoid; with [training = true] they are the raw input values;
    x, y, w, h are the same in both modes. *)
Theorem decode_training_flag :
  forall anchors cw C xyscale (x : tensor F) B g b i j k,
  shape anchors = [3; 2] -> wf anchors ->
  shape x = [B; g; g; 3 * (5 + C)] -> wf x ->
  b < B -> i < g -> j < g -> k < 3 ->
  let self := Decode.init anchors cw C xyscale in
  exists self_i out_i self_t out_t,
    Decode.apply self x false = Some (self_i, out_i)
    /\ Decode.apply self x true = Some (self_t, out_t)
    /\ let row := (i * g + j) * 3 + k in
       let raw c := get (Decode.raw_view x g C) [b; i; j; k; c] in
       (forall c, 4 <= c < 5 + C ->
          get out_i [b; row; c] = f_sigmoid (raw c)
          /\ get out_t [b; row; c] = raw c)
       /\ (forall c, c < 4 -> get out_t [b; row; c] = get out_i [b; row; c]).
Proof.
  intros anchors cw C xyscale x B g b i j k Has Haw Hxs Hxw Hb Hi Hj Hk self.
  destruct (apply_spec cw xyscale false Has Haw Hxs Hxw)
    as (self_i & out_i & Hai & _ & _ & _ & Hvi).
  destruct (apply_spec cw xyscale true Has Haw Hxs Hxw)
    as (self_t & out_t & Hat & _ & _ & _ & Hvt).
  exists self_i, out_i, self_t, out_t.
  split; [exact Hai|]. split; [exact Hat|]. cbv zeta. split.
  - intros c [Hc4 Hc]. rewrite Hvi, Hvt by lia.
    unfold Decode.decode_elem.
    replace (c <? 2) with false by (symmetry; apply Nat.ltb_ge; lia).
    replace (c <? 4) with false by (symmetry; apply Nat.ltb_ge; lia).
    split; reflexivity.
  - intros c Hc. rewrite Hvi, Hvt by lia.
    unfold Decode.decode_elem.
    destruct (c <? 2); [reflexivity|].
    replace (c <? 4) with true by (symmetry; apply Nat.ltb_lt; lia).
    reflexivity.
Qed.

(** C2, as amended: x and y are the grid-unit value
    (sigmoid(d) - 0.5) * xyscale + 0.5 + offset multiplied by cell_width;
    w and h are anchor * exp(d), in the unit of the anchors given to the
    layer, and are the same whatever cell_width is. *)
Theorem decode_units :
  forall anchors cw1 cw2 C xyscale (x : tensor F) training B g b i j k,
  shape anchors = [3; 2] -> wf anchors ->
  shape x = [B; g; g; 3 * (5 + C)] -> wf x ->
  b < B -> i < g -> j < g -> k < 3 ->
  exists self1 out1 self2 out2,
    Decode.apply (Decode.init anchors cw1 C xyscale) x training
      = Some (self1, out1)
    /\ Decode.apply (Decode.init anchors cw2 C xyscale) x training
      = Some (self2, out2)
    /\ let raw c := get (Decode.raw_view x g C) [b; i; j; k; c] in
       let u c := f_add (f_add (f_mul (f_sub (f_sigmoid (raw c)) f_half)
                                      xyscale) f_half)
                        (Decode.grid_offset i j c) in
       let row := (i * g + j) * 3 + k in
       (forall c, c < 2 ->
          get out1 [b; row; c] = f_mul (u c) (f_of_Z cw1)
          /\ get out2 [b; row; c] = f_mul (u c) (f_of_Z cw2))
       /\ (forall c, c < 2 ->
          get out1 [b; row; 2 + c] = f_mul (get anchors [k; c])
                                           (f_exp (raw (2 + c)))
          /\ get out2 [b; row; 2 + c] = get out1 [b; row; 2 + c]).
Proof.
  intros anchors cw1 cw2 C xyscale x training B g b i j k
    Has Haw Hxs Hxw Hb Hi Hj Hk.
  destruct (apply_spec cw1 xyscale training Has Haw Hxs Hxw)
    as (self1 & out1 & Ha1 & _ & _ & _ & Hv1).
  destruct (apply_spec cw2 xyscale training Has Haw Hxs Hxw)
    as (self2 & out2 & Ha2 & _ & _ & _ & Hv2).
  exists self1, out1, self2, out2.
  split; [exact Ha1|]. split; [exact Ha2|]. cbv zeta. split.
  - intros c Hc. rewrite Hv1, Hv2 by lia. unfold Decode.decode_elem.
    replace (c <? 2) with true by (symmetry; apply Nat.ltb_lt; lia).
    split; reflexivity.
  - intros c Hc. rewrite Hv1, Hv2 by lia. unfold Decode.decode_elem.
    replace (2 + c <? 2) with false by (symmetry; apply Nat.ltb_ge; lia).
    replace (2 + c <? 4) with true by (symmetry; apply Nat.ltb_lt; lia).
    replace (2 + c - 2) with c by lia.
    split; reflexivity.
Qed.

End WithFloat.
End DecodeFacts.

(** ** [Decode] on concrete inputs, over the reals *)

Module DecodeOverReals.
Import Tensor TensorFacts DecodeFacts Examples.
Local Open Scope R_scope.

Lemma Rsigmoid_0 : Rsigmoid 0 = 1 / 2.
Proof. unfold Rsigmoid. rewrite Ropp_0, exp_0. lra. Qed.

Lemma logits_8x8_raw : forall c, (c < 4)%nat ->
  get (Decode.raw_view logits_8x8 8 1) [0; 0; 0; 0; c]%nat = 0.
Proof.
  intros c Hc.
  rewrite (@get_same_offset _ _ logits_8x8 _ [0; 0; 0; c]%nat);
    [ | reflexivity | simpl; lia ].
  unfold logits_8x8. rewrite get_tabulate by (simpl; lia).
  do 4 (destruct c as [|c]; [reflexivity|]). lia.
Qed.

(** The first cell of an 8 x 8 scale with cell width 32, anchor
    (0.1, 0.1) and zero box logits. *)
Lemma first_cell_values :
  forall (anchors x : tensor R) xyscale training B C b,
  shape anchors = [3; 2]%nat -> wf anchors ->
  get anchors [0; 0]%nat = 1 / 10 -> get anchors [0; 1]%nat = 1 / 10 ->
  shape x = [B; 8; 8; 3 * (5 + C)]%nat -> wf x -> (b < B)%nat ->
  (forall c, (c < 4)%nat ->
     get (Decode.raw_view x 8 C) [b; 0; 0; 0; c]%nat = 0) ->
  exists self' out,
    Decode.apply (Decode.init anchors 32 C xyscale) x training
      = Some (self', out)
    /\ get out [b; 0; 0]%nat = 16 /\ get out [b; 0; 1]%nat = 16
    /\ get out [b; 0; 2]%nat = 1 / 10 /\ get out [b; 0; 3]%nat = 1 / 10.
Proof.
  intros anchors x xyscale training B C b Has Haw Ha0 Ha1 Hxs Hxw Hb Hraw.
  destruct (@apply_spec R _ anchors 32%Z C xyscale x training B 8%nat
              Has Haw Hxs Hxw)
    as (self' & out & Ha & _ & _ & _ & Hv).
  exists self', out. split; [exact Ha|].
  assert (Hv' : forall c, (c < 4)%nat ->
            get out [b; 0; c]%nat =
            Decode.decode_elem (Decode.init anchors 32 C xyscale) training
              (fun c => get (Decode.raw_view x 8 C) [b; 0; 0; 0; c]%nat)
              (fun c => get anchors [0; c]%nat)
              (Decode.grid_offset 0 0) c).
  { intros c Hc. apply (Hv b 0 0 0 c)%nat; lia. }
  rewrite !Hv' by lia.
  unfold Decode.decode_elem, Decode.grid_offset.
  cbn [Nat.ltb Nat.leb Nat.sub Nat.eqb Decode.init Decode.xyscale
       Decode.cell_width f_mul f_add f_sub f_exp f_sigmoid f_of_Z f_half
       Float32_R Z.of_nat].
  rewrite !Hraw by lia. rewrite Ha0, Ha1, Rsigmoid_0, exp_0.
  repeat split; lra.
Qed.

(** C2, counterexample: with cell width 32, anchor width 0.1 and dw = 0
    the decoded width is 0.1, not 0.1 * exp(0) * 32. *)
Lemma decode_wh_ignores_cell_width :
  exists self' out,
    Decode.apply (Decode.init anchors_tenth 32 0 1) zeros_1x1 false
      = Some (self', out)
    /\ get out [0; 0; 2]%nat = 1 / 10
    /\ get out [0; 0; 2]%nat <>
         f_mul (f_mul (get anchors_tenth [0; 0]%nat)
                      (f_exp (get (Decode.raw_view zeros_1x1 1 0)
                                  [0; 0; 0; 0; 2]%nat)))
               (f_of_Z 32).
Proof.
  destruct (@apply_spec R _ anchors_tenth 32%Z 0%nat 1 zeros_1x1 false
              1%nat 1%nat)
    as (self' & out & Ha & _ & _ & _ & Hv); try reflexivity.
  exists self', out. split; [exact Ha|].
  specialize (Hv 0 0 0 0 2)%nat.
  change ((0 * 1 + 0) * 3 + 0)%nat with 0%nat in Hv.
  rewrite Hv by lia.
  unfold Decode.decode_elem. cbn [Nat.ltb Nat.leb Nat.sub].
  assert (Ha0 : get anchors_tenth [0; 0]%nat = 1 / 10) by reflexivity.
  assert (Hr : get (Decode.raw_view zeros_1x1 1 0) [0; 0; 0; 0; 2]%nat = 0)
    by reflexivity.
  rewrite Ha0, Hr. cbn [f_mul f_exp f_of_Z Float32_R]. rewrite exp_0.
  split; lra.
Qed.

(** C7, counterexample: with xyscale = 1.2 the decoded centre is 16, which
    is 19.2 away from (0.5 * 1.2 + 0.5) * 32 = 35.2, and the decoded
    width is 0.1, which is 25.5 away from 0.1 * 256 = 25.6. *)
Lemma first_cell_not_as_claimed :
  exists self' out,
    Decode.apply (Decode.init anchors_tenth 32 1 (12 / 10)) logits_8x8 false
      = Some (self', out)
    /\ Rabs (get out [0; 0; 0]%nat - (5 / 10 * (12 / 10) + 5 / 10) * 32) > 19
    /\ Rabs (get out [0; 0; 2]%nat - 1 / 10 * 256) > 25.
Proof.
  destruct (@first_cell_values anchors_tenth logits_8x8 (12 / 10) false
              1%nat 1%nat 0%nat)
    as (self' & out & Ha & Hx & _ & Hw & _);
    try reflexivity; try lia; try apply wf_tabulate; try apply logits_8x8_raw.
  exists self', out. split; [exact Ha|].
  rewrite Hx, Hw. split.
  - replace (16 - (5 / 10 * (12 / 10) + 5 / 10) * 32) with (- (192 / 10))
      by lra.
    rewrite Rabs_Ropp, Rabs_right; lra.
  - replace (1 / 10 - 1 / 10 * 256) with (- (255 / 10)) by lra.
    rewrite Rabs_Ropp, Rabs_right; lra.
Qed.

(** C7, as amended: at grid cell (0, 0), anchor 0, on a scale with grid 8,
    cell width 32 and anchor (0.1, 0.1), with dx = dy = dw = dh = 0, the
    decoded centre is 0.5 * 32 = 16 in each coordinate, whatever xyscale
    is, and the decoded width and height are the anchor's 0.1. *)
Theorem decode_first_cell :
  forall (anchors x : tensor R) xyscale training B C b,
  shape anchors = [3; 2]%nat -> wf anchors ->
  get anchors [0; 0]%nat = 1 / 10 -> get anchors [0; 1]%nat = 1 / 10 ->
  shape x = [B; 8; 8; 3 * (5 + C)]%nat -> wf x -> (b < B)%nat ->
  (forall c, (c < 4)%nat ->
     get (Decode.raw_view x 8 C) [b; 0; 0; 0; c]%nat = 0) ->
  exists self' out,
    Decode.apply (Decode.init anchors 32 C xyscale) x training
      = Some (self', out)
    /\ get out [b; 0; 0]%nat = 5 / 10 * 32
    /\ get out [b; 0; 1]%nat = 5 / 10 * 32
    /\ get out [b; 0; 2]%nat = 1 / 10
    /\ get out [b; 0; 3]%nat = 1 / 10.
Proof.
  intros anchors x xyscale training B C b Has Haw Ha0 Ha1 Hxs Hxw Hb Hraw.
  destruct (first_cell_values xyscale training Has Haw Ha0 Ha1 Hxs Hxw Hb Hraw)
    as (self' & out & Ha & Hx & Hy & Hw & Hh).
  exists self', out. split; [exact Ha|].
  rewrite Hx, Hy, Hw, Hh. repeat split; lra.
Qed.

Lemma decode_first_cell_witness :
  exists self' out,
    Decode.apply (Decode.init anchors_tenth 32 1 (12 / 10)) logits_8x8 false
      = Some (self', out)
    /\ get out [0; 0; 0]%nat = 5 / 10 * 32
    /\ get out [0; 0; 1]%nat = 5 / 10 * 32
    /\ get out [0; 0; 2]%nat = 1 / 10
    /\ get out [0; 0; 3]%nat = 1 / 10.
Proof.
  apply (@decode_first_cell anchors_tenth logits_8x8 (12 / 10) false
           1%nat 1%nat 0%nat);
    solve [ reflexivity | lia | apply wf_tabulate | apply logits_8x8_raw ].
Defined.

(** The layer on the 1 x 1 example: inputs of the general results. *)
Lemma decode_xy_formula_witness :
  exists self' out,
    Decode.apply (Decode.init anchors_tenth 32 0 1) zeros_1x1 false
      = Some (self', out)
    /\ let dx := get (Decode.raw_view zeros_1x1 1 0) [0; 0; 0; 0; 0]%nat in
       let dy := get (Decode.raw_view zeros_1x1 1 0) [0; 0; 0; 0; 1]%nat in
       let row := ((0 * 1 + 0) * 3 + 0)%nat in
       get out [0; row; 0]%nat =
         f_mul (f_add (f_add (f_mul (f_sub (f_sigmoid dx) f_half) 1) f_half)
                      (f_of_Z (Z.of_nat 0)))
               (f_of_Z 32)
       /\ get out [0; row; 1]%nat =
         f_mul (f_add (f_add (f_mul (f_sub (f_sigmoid dy) f_half) 1) f_half)
                      (f_of_Z (Z.of_nat 0)))
               (f_of_Z 32).
Proof.
  apply (@decode_xy_formula R _ anchors_tenth 32%Z 0%nat 1 zeros_1x1 false
           1%nat 1%nat 0%nat 0%nat 0%nat 0%nat);
    solve [ reflexivity | lia ].
Defined.

Lemma decode_wh_formula_witness :
  exists self' out,
    Decode.apply (Decode.init anchors_tenth 32 0 1) zeros_1x1 false
      = Some (self', out)
    /\ let dw := get (Decode.raw_view zeros_1x1 1 0) [0; 0; 0; 0; 2]%nat in
       let dh := get (Decode.raw_view zeros_1x1 1 0) [0; 0; 0; 0; 3]%nat in
       let row := ((0 * 1 + 0) * 3 + 0)%nat in
       get out [0; row; 2]%nat = f_mul (get anchors_tenth [0; 0]%nat) (f_exp dw)
       /\ get out [0; row; 3]%nat
          = f_mul (get anchors_tenth [0; 1]%nat) (f_exp dh).
Proof.
  apply (@decode_wh_formula R _ anchors_tenth 32%Z 0%nat 1 zeros_1x1 false
           1%nat 1%nat 0%nat 0%nat 0%nat 0%nat);
    solve [ reflexivity | lia ].
Defined.

Lemma grid_column_on_x_row_on_y_witness :
  let self := Decode.init anchors_tenth 32 1 (12 / 10) in
  exists self' grid out,
    Decode.build self (shape logits_8x8) = Some self'
    /\ Decode.xy_grid self' = Some grid
    /\ get grid [0; 2; 5; 1; 0]%nat = f_of_Z (Z.of_nat 5)
    /\ get grid [0; 2; 5; 1; 1]%nat = f_of_Z (Z.of_nat 2)
    /\ Decode.call self' logits_8x8 false = Some out
    /\ let u c := f_add (f_mul (f_sub (f_sigmoid
                      (get (Decode.raw_view logits_8x8 8 1)
                           [0; 2; 5; 1; c]%nat)) f_half)
                      (12 / 10)) f_half in
       let row := ((2 * 8 + 5) * 3 + 1)%nat in
       get out [0; row; 0]%nat =
         f_mul (f_add (u 0%nat) (get grid [0; 2; 5; 1; 0]%nat)) (f_of_Z 32)
       /\ get out [0; row; 1]%nat =
         f_mul (f_add (u 1%nat) (get grid [0; 2; 5; 1; 1]%nat)) (f_of_Z 32).
Proof.
  apply (@grid_column_on_x_row_on_y R _
           (Decode.init anchors_tenth 32 1 (12 / 10)) logits_8x8 false
           1%nat 8%nat 0%nat 2%nat 5%nat 1%nat);
    solve [ reflexivity | lia | apply wf_tabulate ].
Defined.

Lemma decode_training_flag_witness :
  let self := Decode.init anchors_tenth 32 1 (12 / 10) in
  exists self_i out_i self_t out_t,
    Decode.apply self logits_8x8 false = Some (self_i, out_i)
    /\ Decode.apply self logits_8x8 true = Some (self_t, out_t)
    /\ let row := ((2 * 8 + 5) * 3 + 1)%nat in
       let raw c := get (Decode.raw_view logits_8x8 8 1) [0; 2; 5; 1; c]%nat in
       (forall c, (4 <= c < 5 + 1)%nat ->
          get out_i [0; row; c]%nat = f_sigmoid (raw c)
          /\ get out_t [0; row; c]%nat = raw c)
       /\ (forall c, (c < 4)%nat ->
             get out_t [0; row; c]%nat = get out_i [0; row; c]%nat).
Proof.
  apply (@decode_training_flag R _ anchors_tenth 32%Z 1%nat (12 / 10)
           logits_8x8 1%nat 8%nat 0%nat 2%nat 5%nat 1%nat);
    solve [ reflexivity | lia | apply wf_tabulate ].
Defined.

Lemma decode_units_witness :
  exists self1 out1 self2 out2,
    Decode.apply (Decode.init anchors_tenth 16 1 (12 / 10)) logits_8x8 false
      = Some (self1, out1)
    /\ Decode.apply (Decode.init anchors_tenth 32 1 (12 / 10)) logits_8x8 false
      = Some (self2, out2)
    /\ let raw c := get (Decode.raw_view logits_8x8 8 1) [0; 2; 5; 1; c]%nat in
       let u c := f_add (f_add (f_mul (f_sub (f_sigmoid (raw c)) f_half)
                                      (12 / 10)) f_half)
                        (Decode.grid_offset 2 5 c) in
       let row := ((2 * 8 + 5) * 3 + 1)%nat in
       (forall c, (c < 2)%nat ->
          get out1 [0; row; c]%nat = f_mul (u c) (f_of_Z 16)
          /\ get out2 [0; row; c]%nat = f_mul (u c) (f_of_Z 32))
       /\ (forall c, (c < 2)%nat ->
          get out1 [0; row; 2 + c]%nat
            = f_mul (get anchors_tenth [1; c]%nat) (f_exp (raw (2 + c)%nat))
          /\ get out2 [0; row; 2 + c]%nat = get out1 [0; row; 2 + c]%nat).
Proof.
  apply (@decode_units R _ anchors_tenth 16%Z 32%Z 1%nat (12 / 10)
           logits_8x8 false 1%nat 8%nat 0%nat 2%nat 5%nat 1%nat);
    solve [ reflexivity | lia | apply wf_tabulate ].
Defined.

End DecodeOverReals.

(** ** Shapes under reshape and concatenation; [YOLOv4.call] *)

Module YOLOv4Facts.
Import Tensor TensorFacts DecodeFacts.

Section WithFloat.
Context {F : Type} `{Float32 F}.

Lemma reshape_1_infer_some : forall (t : tensor F) g st,
  wf t -> shape t = [1; g; g; 3 * st] -> 0 < st ->
  reshape_1_infer t st = Some (mk [1; g * g * 3; st] (data t)).
Proof.
  intros t g st Hwf Hs Hst. unfold reshape_1_infer. cbv zeta.
  unfold wf in Hwf. rewrite !Hwf, Hs. cbn [size fold_right].
  replace (1 * (g * (g * (3 * st * 1)))) with (g * g * 3 * st) by ring.
  destruct (Nat.eqb_spec st 0); [lia|].
  rewrite Nat.Div0.mod_mul. cbn [Nat.eqb]. rewrite Nat.div_mul by lia.
  reflexivity.
Qed.

Lemma concat_axis1_three : forall (t1 t2 t3 : tensor F) b r1 r2 r3 c,
  shape t1 = [b; r1; c] -> shape t2 = [b; r2; c] -> shape t3 = [b; r3; c] ->
  exists out,
    concat_axis1 [t1; t2; t3] = Some out
    /\ shape out = [b; r1 + r2 + r3; c] /\ wf out.
Proof.
  intros t1 t2 t3 b r1 r2 r3 c H1 H2 H3.
  unfold concat_axis1. rewrite H1. cbn [forallb].
  rewrite H1, H2, H3, !Nat.eqb_refl. cbn [andb map nth list_sum fold_right].
  rewrite H1, H2, H3. cbn [nth].
  eexists. split; [reflexivity|]. split.
  - rewrite shape_tabulate. f_equal. f_equal. lia.
  - apply wf_tabulate.
Qed.

(** Shapes under [YOLOv4.call]. *)
Lemma yolov4_call_shape :
  forall trunk anchors C xyscales (self : YOLOv4.YOLOv4) (x : tensor F)
         training (s m l : tensor F) B g1 g2 g3,
  YOLOv4.init anchors C xyscales = Some self ->
  Forall (fun a => shape a = [3; 2] /\ wf a) anchors ->
  trunk x = (s, m, l) ->
  shape s = [B; g1; g1; 3 * (5 + C)] -> wf s ->
  shape m = [B; g2; g2; 3 * (5 + C)] -> wf m ->
  shape l = [B; g3; g3; 3 * (5 + C)] -> wf l ->
  exists self' out,
    YOLOv4.call trunk self x training = Some (self', out)
    /\ shape out = [B; g1 * g1 * 3 + g2 * g2 * 3 + g3 * g3 * 3; 5 + C]
    /\ wf out.
Proof.
  intros trunk anchors C xyscales self x training s m l B g1 g2 g3
    Hinit Hanch Htr Hs Hsw Hm Hmw Hl Hlw.
  unfold YOLOv4.init in Hinit.
  destruct (nth_error anchors 0) as [a0|] eqn:E0; [|discriminate].
  destruct (nth_error xyscales 0) as [s0|]; [|discriminate].
  destruct (nth_error anchors 1) as [a1|] eqn:E1; [|discriminate].
  destruct (nth_error xyscales 1) as [s1|]; [|discriminate].
  destruct (nth_error anchors 2) as [a2|] eqn:E2; [|discriminate].
  destruct (nth_error xyscales 2) as [s2|]; [|discriminate].
  cbn [obind] in Hinit. injection Hinit as <-.
  rewrite Forall_forall in Hanch.
  destruct (Hanch a0) as [Ha0 Hw0]; [eapply nth_error_In; eauto|].
  destruct (Hanch a1) as [Ha1 Hw1]; [eapply nth_error_In; eauto|].
  destruct (Hanch a2) as [Ha2 Hw2]; [eapply nth_error_In; eauto|].
  unfold YOLOv4.call. rewrite Htr.
  cbn [YOLOv4.decode93 YOLOv4.decode101 YOLOv4.decode109].
  destruct (apply_spec 8%Z s0 training Ha0 Hw0 Hs Hsw)
    as (d1 & o1 & A1 & _ & S1 & _ & _).
  destruct (apply_spec 16%Z s1 training Ha1 Hw1 Hm Hmw)
    as (d2 & o2 & A2 & _ & S2 & _ & _).
  destruct (apply_spec 32%Z s2 training Ha2 Hw2 Hl Hlw)
    as (d3 & o3 & A3 & _ & S3 & _ & _).
  rewrite A1, A2, A3. cbn [obind fst snd].
  destruct (@concat_axis1_three o1 o2 o3 _ _ _ _ _ S1 S2 S3) as (out & Hc & Hos & How).
  rewrite Hc. cbn [obind]. eauto.
Qed.

End WithFloat.
End YOLOv4Facts.

(** ** [load_tflite], [_predict] and [predict] *)

Module TFLiteFacts.
Import Tensor TensorFacts YOLOv4Facts TFLite.

Section Logic.
Context {S : Type}.

Lemma keeps_ret : forall {A} (I : S -> Prop) X (a : A), keeps I X (ret a).
Proof. intros A I X a s Hs. split; [exact Hs | discriminate]. Qed.

Lemma keeps_raise : forall {A} (I : S -> Prop) (X : exn -> Prop) e,
  X e -> keeps I X (@raise S A e).
Proof.
  intros A I X e He s Hs. split; [exact Hs|].
  intros e' [= <-]. exact He.
Qed.

Lemma keeps_gets : forall {A} (I : S -> Prop) X (f : S -> A), keeps I X (gets f).
Proof. intros A I X f s Hs. split; [exact Hs | discriminate]. Qed.

Lemma keeps_modify : forall (I : S -> Prop) X f,
  (forall s, I s -> I (f s)) -> keeps I X (modify f).
Proof. intros I X f Hf s Hs. split; [apply Hf, Hs | discriminate]. Qed.

Lemma keeps_lift : forall {A} (I : S -> Prop) (X : exn -> Prop) (r : exn + A),
  (forall e, r = inl e -> X e) -> keeps I X (lift r).
Proof. intros A I X r Hr s Hs. split; [exact Hs | exact Hr]. Qed.

Lemma keeps_or_raise : forall {A} (I : S -> Prop) (X : exn -> Prop) e (o : option A),
  X e -> keeps I X (or_raise e o).
Proof.
  intros A I X e [a|] He; [apply keeps_ret | now apply keeps_raise].
Qed.

Lemma keeps_bind : forall {A B} (I : S -> Prop) X (m : M S A) (k : A -> M S B),
  keeps I X m -> (forall a, keeps I X (k a)) -> keeps I X (bind m k).
Proof.
  intros A B I X m k Hm Hk s Hs. unfold bind.
  destruct (Hm s Hs) as [Hi He].
  destruct (m s) as [s' [e|a]]; cbn [fst snd] in *.
  - split; [exact Hi|]. intros e' [= <-]. now apply He.
  - apply Hk, Hi.
Qed.

Lemma keeps_for_each : forall {Y} (I : S -> Prop) X (xs : list Y) body,
  (forall x, keeps I X (body x)) -> keeps I X (for_each xs body).
Proof.
  intros Y I X xs body Hb. induction xs as [|x xs IH]; cbn [for_each].
  - apply keeps_ret.
  - apply keeps_bind; [apply Hb | intros _; exact IH].
Qed.

Lemma keeps_map_m : forall {Y Z} (I : S -> Prop) X (f : Y -> M S Z) xs,
  (forall x, keeps I X (f x)) -> keeps I X (map_m f xs).
Proof.
  intros Y Z I X f xs Hf. induction xs as [|x xs IH]; cbn [map_m].
  - apply keeps_ret.
  - apply keeps_bind; [apply Hf|]. intros y.
    apply keeps_bind; [exact IH|]. intros ys. apply keeps_ret.
Qed.

Lemma bind_inr : forall {A B} (m : M S A) (k : A -> M S B) s s' a,
  m s = (s', inr a) -> bind m k s = k a s'.
Proof. intros A B m k s s' a Hm. unfold bind. now rewrite Hm. Qed.

Lemma bind_inl : forall {A B} (m : M S A) (k : A -> M S B) s s' e,
  m s = (s', inl e) -> bind m k s = (s', inl e).
Proof. intros A B m k s s' e Hm. unfold bind. now rewrite Hm. Qed.

Lemma bind_inv : forall {A B} (m : M S A) (k : A -> M S B) s s' b,
  bind m k s = (s', inr b) ->
  exists s1 a, m s = (s1, inr a) /\ k a s1 = (s', inr b).
Proof.
  intros A B m k s s' b. unfold bind.
  destruct (m s) as [s1 [e|a]]; [discriminate|]. eauto.
Qed.

Lemma keeps_bind_gets : forall {A B} (I : S -> Prop) X (f : S -> A) v
  (k : A -> M S B),
  (forall s, I s -> f s = v) -> keeps I X (k v) -> keeps I X (bind (gets f) k).
Proof.
  intros A B I X f v k Hf Hk s Hs. unfold bind, gets.
  rewrite (Hf s Hs). apply Hk, Hs.
Qed.

Lemma bind_ret : forall {A B} (a : A) (k : A -> M S B) s,
  bind (ret a) k s = k a s.
Proof. reflexivity. Qed.

Lemma bind_gets : forall {A B} (f : S -> A) (k : A -> M S B) s,
  bind (gets f) k s = k (f s) s.
Proof. reflexivity. Qed.

Lemma bind_modify : forall {B} (f : S -> S) (k : unit -> M S B) s,
  bind (modify f) k s = k tt (f s).
Proof. reflexivity. Qed.

Lemma bind_lift_inr : forall {A B} (r : exn + A) a (k : A -> M S B) s,
  r = inr a -> bind (lift r) k s = k a s.
Proof. intros A B r a k s ->. reflexivity. Qed.

Lemma readonly_of_keeps : forall {A} (m : M S A),
  (forall s0, keeps (fun s => s = s0) (fun _ => True) m) ->
  forall s, fst (m s) = s.
Proof. intros A m Hm s. now apply (Hm s s). Qed.

Lemma gets_inv : forall {A} (f : S -> A) s s' a,
  gets f s = (s', inr a) -> s' = s /\ a = f s.
Proof. intros A f s s' a [= <- <-]. auto. Qed.

Lemma modify_inv : forall (f : S -> S) s s' u,
  modify f s = (s', inr u) -> s' = f s.
Proof. intros f s s' u [= <-]. reflexivity. Qed.

Lemma or_raise_inv : forall {A} e (o : option A) (s s' : S) a,
  or_raise e o s = (s', inr a) -> s' = s /\ o = Some a.
Proof.
  intros A e [x|] s s' a; cbn [or_raise]; unfold ret, raise;
    intros [= <- <-]; auto.
Qed.

Lemma lift_inv : forall {A} (r : exn + A) (s s' : S) a,
  lift r s = (s', inr a) -> s' = s /\ r = inr a.
Proof. intros A r s s' a [= <- ->]. auto. Qed.

End Logic.

Tactic Notation "run_py" "in" hyp(H) :=
  repeat (progress
    (unfold bind, ret, raise, gets, modify, lift, or_raise, attr, differ,
       np_reshape_1_infer, np_concatenate_axis1 in H;
     cbn [map_m for_each fst snd nth_error
          config _tpu _interpreter _input_details _input_float
          _output_details _anhcors _scale_x_y _beta_nms
          set_tpu set_interpreter set_input_details set_input_float
          set_output_details set_anhcors set_scale_x_y set_beta_nms] in H)).

Tactic Notation "run_py" :=
  repeat (progress
    (unfold bind, ret, raise, gets, modify, lift, or_raise, attr, differ,
       np_reshape_1_infer, np_concatenate_axis1;
     cbn [map_m for_each fst snd nth_error
          config _tpu _interpreter _input_details _input_float
          _output_details _anhcors _scale_x_y _beta_nms
          set_tpu set_interpreter set_input_details set_input_float
          set_output_details set_anhcors set_scale_x_y set_beta_nms])).

Section Load.
Context {F : Type} `{Float32 F}.
Variable load_delegate : string -> exn + string.
Variable tflite_Interpreter : string -> list string -> exn + Interpreter (F := F).
Variable allocate_tensors : Interpreter (F := F) -> exn + Interpreter (F := F).

Lemma create_interpreter_ok : forall path lib (s : @YOLOv4 F) n_tpu it,
  dict_get (layer_count (config s)) "yolo_tpu" = Some n_tpu ->
  created load_delegate tflite_Interpreter allocate_tensors path lib
    n_tpu it ->
  exists s1,
    create_interpreter load_delegate tflite_Interpreter allocate_tensors
      path lib s = (s1, inr tt)
    /\ _interpreter s1 = Some it
    /\ config s1 = config s
    /\ _input_details s1 = _input_details s
    /\ _input_float s1 = _input_float s.
Proof.
  intros path lib s n_tpu it Hcnt (it0 & Hmk & Hal).
  destruct s as [cfg tpu itp idt ifl odt anh scl beta].
  cbn [config] in Hcnt.
  unfold create_interpreter. run_py. rewrite Hcnt. run_py.
  destruct (0 <? n_tpu).
  - destruct Hmk as (d & Hd & Hi). rewrite Hd. run_py. rewrite Hi. run_py.
    rewrite Hal. run_py. eexists. repeat split; reflexivity.
  - rewrite Hmk. run_py. rewrite Hal. run_py.
    eexists. repeat split; reflexivity.
Qed.

Lemma check_input_details_spec :
  forall (s : @YOLOv4 F) it d rest n h w c Hh Ww Ch,
  _interpreter s = Some it -> input_details it = d :: rest ->
  d_shape d = [n; h; w; c] ->
  input_shape (net (config s)) = [Hh; Ww; Ch] ->
  check_input_details s =
    if ((h =? Hh) && (w =? Ww) && (c =? Ch))%Z
    then (set_input_float (is_float32 (d_dtype d)) (set_input_details d s),
          inr tt)
    else (s, inl (RuntimeError shape_mismatch_msg)).
Proof.
  intros s it d rest n h w c Hh Ww Ch Hit Hin Hds Hcs.
  destruct s as [cfg tpu itp idt ifl odt anh scl beta].
  cbn [config _interpreter] in *. subst itp.
  unfold check_input_details. run_py. rewrite Hin. run_py.
  rewrite Hds, Hcs. run_py.
  destruct (h =? Hh)%Z; cbn [negb andb]; [|reflexivity].
  destruct (w =? Ww)%Z; cbn [negb andb]; [|reflexivity].
  destruct (c =? Ch)%Z; cbn [negb andb]; reflexivity.
Qed.

Lemma keeps_attr : forall {A} (I : @YOLOv4 F -> Prop) (X : exn -> Prop) name
  (f : YOLOv4 -> option A),
  X (AttributeError name) -> keeps I X (attr name f).
Proof.
  intros A I X name f Hx s Hs. unfold attr.
  destruct (f s); cbn [fst snd]; split; auto; try discriminate.
  intros e [= <-]. exact Hx.
Qed.

Lemma set_anchor_keeps : forall I X i j c (v : F),
  stable I -> python_errors X -> keeps I X (set_anchor i j c v).
Proof.
  intros I X i j c v Hst (_ & Hidx & _ & _). unfold set_anchor.
  apply keeps_bind; [apply keeps_gets|]. intros anchors.
  apply keeps_bind; [now apply keeps_or_raise|]. intros a.
  apply keeps_modify. intros s Hs. now apply Hst.
Qed.

Lemma int_div_keeps : forall (I : @YOLOv4 F -> Prop) X a b,
  python_errors X -> keeps I X (int_div a b).
Proof.
  intros I X a b (_ & _ & _ & Hz). unfold int_div.
  destruct (b =? 0)%Z; [now apply keeps_raise | apply keeps_ret].
Qed.

Lemma read_yolo_layers_keeps : forall I X cfg,
  stable I -> python_errors X ->
  (forall s, I s -> config s = cfg) ->
  (forall layer_type i e, find_metalayer cfg layer_type i = inl e -> X e) ->
  keeps I X read_yolo_layers.
Proof.
  intros I X cfg Hst Hpy Hcfg Hfind.
  pose proof Hpy as (Hkey & Hidx & Hattr & Hzero).
  unfold read_yolo_layers.
  apply keeps_bind; [now apply keeps_attr|]. intros it.
  apply keeps_bind; [apply keeps_modify; intros s Hs; now apply Hst|].
  intros _.
  apply keeps_bind; [now apply keeps_attr|]. intros tpu.
  apply keeps_bind; [apply keeps_modify; intros s Hs; now apply Hst|].
  intros _.
  apply keeps_bind; [apply keeps_modify; intros s Hs; now apply Hst|].
  intros _.
  apply keeps_bind_gets with (v := cfg); [exact Hcfg|].
  apply keeps_bind; [now apply keeps_or_raise|]. intros n_layers.
  apply keeps_for_each. intros i.
  apply keeps_bind; [apply keeps_lift, Hfind|]. intros metayolo.
  apply keeps_bind; [apply keeps_modify; intros s Hs; now apply Hst|].
  intros _.
  apply keeps_bind; [apply keeps_modify; intros s Hs; now apply Hst|].
  intros _.
  apply keeps_bind; [apply keeps_modify; intros s Hs; now apply Hst|].
  intros _.
  apply keeps_for_each. intros [j n].
  apply keeps_bind; [now apply keeps_or_raise|]. intros a.
  apply keeps_bind; [now apply int_div_keeps|]. intros v.
  apply keeps_bind; [now apply set_anchor_keeps|]. intros _.
  apply keeps_bind; [now apply keeps_or_raise|]. intros a'.
  apply keeps_bind; [now apply int_div_keeps|]. intros v'.
  now apply set_anchor_keeps.
Qed.

(** C8: once the interpreter is created, [load_tflite] raises the
    [RuntimeError] of the shape check, before [_input_details] and
    [_input_float] are assigned, when the height, width or channel
    dimension of the model's input tensor differs from the configured
    input shape; when the three agree and the configuration's
    [find_metalayer] raises no [RuntimeError], [load_tflite] raises none. *)
Theorem load_tflite_shape_check :
  forall path lib (s : @YOLOv4 F) n_tpu it d rest n h w c Hh Ww Ch,
  dict_get (layer_count (config s)) "yolo_tpu" = Some n_tpu ->
  created load_delegate tflite_Interpreter allocate_tensors path lib
    n_tpu it ->
  input_details it = d :: rest ->
  d_shape d = [n; h; w; c] ->
  input_shape (net (config s)) = [Hh; Ww; Ch] ->
  let run := load_tflite load_delegate tflite_Interpreter allocate_tensors
               path lib s in
  (h <> Hh \/ w <> Ww \/ c <> Ch ->
     snd run = inl (RuntimeError shape_mismatch_msg)
     /\ _interpreter (fst run) = Some it
     /\ _input_details (fst run) = _input_details s
     /\ _input_float (fst run) = _input_float s)
  /\ (h = Hh /\ w = Ww /\ c = Ch ->
      (forall layer_type i e,
         find_metalayer (config s) layer_type i = inl e ->
         ~ is_runtime_error e) ->
      forall e, snd run = inl e -> ~ is_runtime_error e).
Proof.
  intros path lib s n_tpu it d rest n h w c Hh Ww Ch Hcnt Hmk Hin Hds Hcs run.
  destruct (create_interpreter_ok s Hcnt Hmk)
    as (s1 & Hcr & Hit & Hcfg & Hid & Hif).
  assert (Hcs1 : input_shape (net (config s1)) = [Hh; Ww; Ch])
    by now rewrite Hcfg.
  pose proof (check_input_details_spec _ Hit Hin Hds Hcs1) as Hck.
  unfold run, load_tflite. rewrite (@bind_inr _ _ _ _ _ _ _ _ Hcr).
  split.
  - intros Hne.
    assert (E : ((h =? Hh) && (w =? Ww) && (c =? Ch))%Z = false).
    { destruct (Z.eqb_spec h Hh), (Z.eqb_spec w Ww), (Z.eqb_spec c Ch);
        cbn [andb]; try reflexivity. tauto. }
    rewrite E in Hck. rewrite (@bind_inl _ _ _ _ _ _ _ _ Hck). cbn [fst snd]. auto.
  - intros (-> & -> & ->) Hfind e.
    rewrite !Z.eqb_refl in Hck. cbn [andb] in Hck.
    rewrite (@bind_inr _ _ _ _ _ _ _ _ Hck).
    set (s2 := set_input_float _ _).
    destruct (@read_yolo_layers_keeps
                (fun s' => config s' = config s)
                (fun e => ~ is_runtime_error e) (config s)) with (s := s2)
      as [_ He].
    + intros s' Hs'. repeat split; intros; exact Hs'.
    + repeat split; intros; intros [m Hm]; discriminate.
    + auto.
    + exact Hfind.
    + unfold s2. cbn [config set_input_float set_input_details]. exact Hcfg.
    + exact (He e).
Qed.

Lemma attr_inv : forall {A} name (f : @YOLOv4 F -> option A) s s' a,
  attr name f s = (s', inr a) -> s' = s /\ f s = Some a.
Proof.
  intros A name f s s' a. unfold attr.
  destruct (f s); intros [= <- <-]; auto.
Qed.

Lemma bind_attr : forall {A B} name (f : @YOLOv4 F -> option A) a
  (k : A -> M YOLOv4 B) s,
  f s = Some a -> bind (attr name f) k s = k a s.
Proof. intros A B name f a k s Hf. unfold bind, attr. now rewrite Hf. Qed.

Lemma differ_readonly : forall a i b j (s : @YOLOv4 F),
  fst (differ a i b j s) = s.
Proof.
  intros a i b j. apply readonly_of_keeps. intros s0. unfold differ.
  apply keeps_bind; [now apply keeps_or_raise|]. intros x.
  apply keeps_bind; [now apply keeps_or_raise|]. intros y.
  apply keeps_ret.
Qed.

Tactic Notation "bind_inv" hyp(H) "as" ident(s) ident(a) ident(H1) :=
  apply bind_inv in H; destruct H as (s & a & H1 & H).

Lemma check_input_details_inv : forall (s1 s2 : @YOLOv4 F),
  check_input_details s1 = (s2, inr tt) ->
  exists it d rest,
    _interpreter s1 = Some it /\ input_details it = d :: rest
    /\ s2 = set_input_float (is_float32 (d_dtype d)) (set_input_details d s1).
Proof.
  intros s1 s2 Hck. unfold check_input_details in Hck.
  bind_inv Hck as sa it Hit. apply attr_inv in Hit as [-> Hit].
  bind_inv Hck as sb cfg Hcfg. apply gets_inv in Hcfg as [-> ->].
  bind_inv Hck as sc d Hd. apply or_raise_inv in Hd as [-> Hd].
  bind_inv Hck as sd d1 Hd1.
  pose proof (differ_readonly (d_shape d) 1
                (input_shape (net (config s1))) 0 s1) as R1.
  rewrite Hd1 in R1. cbn [fst] in R1. subst sd. clear Hd1.
  bind_inv Hck as se mismatch Hmm.
  assert (se = s1) as ->.
  { destruct d1.
    - now injection Hmm.
    - bind_inv Hmm as sf d2 Hd2.
      pose proof (differ_readonly (d_shape d) 2
                    (input_shape (net (config s1))) 1 s1) as R2.
      rewrite Hd2 in R2. cbn [fst] in R2. subst sf.
      destruct d2.
      + now injection Hmm.
      + pose proof (differ_readonly (d_shape d) 3
                      (input_shape (net (config s1))) 2 s1) as R3.
        rewrite Hmm in R3. exact R3. }
  clear Hmm. bind_inv Hck as sg u Hraise.
  assert (sg = s1) as ->.
  { destruct mismatch; [discriminate | now injection Hraise]. }
  bind_inv Hck as sh u' Hmod. apply modify_inv in Hmod as ->.
  bind_inv Hck as si d' Hd'. apply attr_inv in Hd' as [-> Hd'].
  cbn [_input_details set_input_details] in Hd'. injection Hd' as <-.
  apply modify_inv in Hck as ->.
  destruct (input_details it) as [|d0 rest] eqn:Hin; [discriminate|].
  cbn [nth_error] in Hd. injection Hd as ->.
  exists it, d, rest. auto.
Qed.

Lemma load_tflite_post : forall path lib (s0 s : @YOLOv4 F),
  load_tflite load_delegate tflite_Interpreter allocate_tensors path lib s0
    = (s, inr tt) ->
  exists it d rest,
    _interpreter s = Some it /\ input_details it = d :: rest
    /\ _input_details s = Some d
    /\ _input_float s = Some (is_float32 (d_dtype d)).
Proof.
  intros path lib s0 s Hload. unfold load_tflite in Hload.
  bind_inv Hload as s1 u1 Hcr. bind_inv Hload as s2 u2 Hck.
  destruct u2. apply check_input_details_inv in Hck
    as (it & d & rest & Hit & Hin & ->).
  set (s2 := set_input_float _ _) in Hload.
  set (I := fun s' : @YOLOv4 F =>
              config s' = config s2 /\ _interpreter s' = Some it
              /\ _input_details s' = Some d
              /\ _input_float s' = Some (is_float32 (d_dtype d))).
  destruct (@read_yolo_layers_keeps I (fun _ => True) (config s2))
    with (s := s2) as [Hs _].
  - intros s' Hs'. repeat split; intros; apply Hs'.
  - repeat split.
  - intros s' Hs'. apply Hs'.
  - auto.
  - unfold I, s2.
    cbn [config _interpreter _input_details _input_float
         set_input_float set_input_details]. auto.
  - rewrite Hload in Hs. cbn [fst] in Hs.
    destruct Hs as (_ & Hit' & Hd & Hf). exists it, d, rest. auto.
Qed.

End Load.

Section Predict.
Context {F : Type} `{Float32 F}.
Variable resize_image : Config (F := F) -> tensor Z -> exn + tensor Z.
Variable yolo_diou_nms : tensor F -> F -> exn + tensor F.
Variable fit_to_original : tensor F -> nat -> nat -> tensor F.
Variable _yolo_layer : tensor F -> tensor F -> tensor F -> F -> tensor F.

Lemma aggregate_shape :
  forall yolo_layer (s : YOLOv4) meta (y1 y2 y3 : tensor F) g1 g2 g3,
  _tpu s = Some false ->
  yolo_0 (config s) = Some meta ->
  let st := 5 + classes meta in
  shape y1 = [1; g1; g1; 3 * st] -> wf y1 ->
  shape y2 = [1; g2; g2; 3 * st] -> wf y2 ->
  shape y3 = [1; g3; g3; 3 * st] -> wf y3 ->
  exists out,
    aggregate yolo_layer [y1; y2; y3] s = (s, inr out)
    /\ shape out = [1; g1 * g1 * 3 + g2 * g2 * 3 + g3 * g3 * 3; st]
    /\ wf out.
Proof.
  intros yl s meta y1 y2 y3 g1 g2 g3 Htpu Hmeta st H1 W1 H2 W2 H3 W3.
  unfold aggregate. run_py. rewrite Htpu. run_py. rewrite Hmeta. run_py.
  fold st.
  rewrite (@reshape_1_infer_some _ y1 g1 st), (@reshape_1_infer_some _ y2 g2 st),
    (@reshape_1_infer_some _ y3 g3 st) by (auto; unfold st; lia).
  run_py.
  set (c1 := mk _ (data y1)). set (c2 := mk _ (data y2)). set (c3 := mk _ (data y3)).
  destruct (@concat_axis1_three _ _ c1 c2 c3 1 (g1 * g1 * 3) (g2 * g2 * 3)
              (g3 * g3 * 3) st eq_refl eq_refl eq_refl) as (out & Hc & Hs & Hw).
  rewrite Hc. run_py. eauto.
Qed.


Lemma aggregate_shape_tpu :
  forall yolo_layer (s : YOLOv4) meta
         (y1 l1 y2 l2 y3 l3 a1 a2 a3 : tensor F) s1 s2 s3 g1 g2 g3,
  (forall a b an sc,
     shape (yolo_layer a b an sc) = shape a
     /\ (wf a -> wf (yolo_layer a b an sc))) ->
  _tpu s = Some true ->
  yolo_tpu_0 (config s) = Some meta ->
  _anhcors s = [a1; a2; a3] ->
  _scale_x_y s = [s1; s2; s3] ->
  let st := 5 + classes meta in
  shape y1 = [1; g1; g1; 3 * st] -> wf y1 ->
  shape y2 = [1; g2; g2; 3 * st] -> wf y2 ->
  shape y3 = [1; g3; g3; 3 * st] -> wf y3 ->
  exists out,
    aggregate yolo_layer [y1; l1; y2; l2; y3; l3] s = (s, inr out)
    /\ shape out = [1; g1 * g1 * 3 + g2 * g2 * 3 + g3 * g3 * 3; st]
    /\ wf out.
Proof.
  intros yl s meta y1 l1 y2 l2 y3 l3 a1 a2 a3 s1 s2 s3 g1 g2 g3
    Hyl Htpu Hmeta Han Hsc st H1 W1 H2 W2 H3 W3.
  destruct s as [cfg tpu it idt ifl odt anh scl beta].
  cbn [config _tpu _anhcors _scale_x_y] in *.
  subst tpu anh scl.
  unfold aggregate.
  change (Datatypes.length [y1; l1; y2; l2; y3; l3] / 2) with 3.
  cbn [seq map_m].
  change (2 * 0) with 0; change (2 * 1) with 2; change (2 * 2) with 4.
  change (0 + 1) with 1; change (2 + 1) with 3; change (4 + 1) with 5.
  run_py. rewrite Hmeta. fold st.
  destruct (Hyl y1 l1 a1 s1) as [E1 V1].
  destruct (Hyl y2 l2 a2 s2) as [E2 V2].
  destruct (Hyl y3 l3 a3 s3) as [E3 V3].
  rewrite (@reshape_1_infer_some _ _ g1 st), (@reshape_1_infer_some _ _ g2 st),
    (@reshape_1_infer_some _ _ g3 st) by (auto; try congruence; unfold st; lia).
  set (c1 := mk _ (data (yl y1 l1 a1 s1))).
  set (c2 := mk _ (data (yl y2 l2 a2 s2))).
  set (c3 := mk _ (data (yl y3 l3 a3 s3))).
  destruct (@concat_axis1_three _ _ c1 c2 c3 1 (g1 * g1 * 3) (g2 * g2 * 3)
              (g3 * g3 * 3) st eq_refl eq_refl eq_refl) as (out & Hc & Hs & Hw).
  rewrite Hc. eauto.
Qed.

Lemma aggregate_readonly : forall yolos (s : @YOLOv4 F),
  fst (aggregate _yolo_layer yolos s) = s.
Proof.
  intros yolos. apply readonly_of_keeps. intros s0. unfold aggregate.
  apply keeps_bind; [now apply keeps_attr|]. intros tpu.
  apply keeps_bind; [apply keeps_gets|]. intros cfg.
  apply keeps_bind.
  - destruct tpu.
    + apply keeps_bind.
      * apply keeps_map_m. intros i.
        apply keeps_bind; [now apply keeps_or_raise|]. intros y0.
        apply keeps_bind; [now apply keeps_or_raise|]. intros y1.
        apply keeps_bind; [apply keeps_gets|]. intros anchors.
        apply keeps_bind; [now apply keeps_or_raise|]. intros a.
        apply keeps_bind; [apply keeps_gets|]. intros scales.
        apply keeps_bind; [now apply keeps_or_raise|]. intros sc.
        apply keeps_ret.
      * intros ys. apply keeps_bind; [now apply keeps_or_raise|]. intros meta.
        apply keeps_map_m. intros y. now apply keeps_or_raise.
    + apply keeps_bind; [now apply keeps_or_raise|]. intros meta.
      apply keeps_map_m. intros y. now apply keeps_or_raise.
  - intros cs. now apply keeps_or_raise.
Qed.

Lemma invoke_and_fetch_state : forall x (s : @YOLOv4 F) it d rest,
  _input_details s = Some d -> _interpreter s = Some it ->
  input_details it = d :: rest ->
  fst (invoke_and_fetch x s) = set_interpreter (ran_on it (d_index d) x) s.
Proof.
  intros x s it d rest Hd Hit Hin.
  destruct s as [cfg tpu itp idt ifl odt anh scl beta].
  cbn [_input_details _interpreter] in Hd, Hit. subst idt itp.
  unfold invoke_and_fetch.
  rewrite (bind_attr _ _ _ _ (a := d)) by reflexivity.
  rewrite (bind_attr _ _ _ _ (a := it)) by reflexivity.
  rewrite bind_modify.
  assert (Hinv : invoke (set_tensor it (d_index d) x)
                 = inr (ran_on it (d_index d) x)).
  { unfold invoke, set_tensor, ran_on.
    cbn [input_details output_details network inputs outputs d_index].
    rewrite Hin. cbn [table_get]. rewrite Nat.eqb_refl. reflexivity. }
  rewrite (bind_lift_inr _ _ Hinv), bind_modify.
  cbn [set_interpreter config _tpu _interpreter _input_details _input_float
       _output_details _anhcors _scale_x_y _beta_nms].
  set (s' := mkYOLOv4 _ _ _ _ _ _ _ _ _).
  apply (readonly_of_keeps (m := _)). intros s0.
  apply keeps_bind; [now apply keeps_attr|]. intros ods.
  apply keeps_map_m. intros od. now apply keeps_lift.
Qed.

Lemma _predict_state : forall x (s : @YOLOv4 F) it d rest,
  _input_details s = Some d -> _interpreter s = Some it ->
  input_details it = d :: rest ->
  fst (_predict _yolo_layer x s) = set_interpreter (ran_on it (d_index d) x) s.
Proof.
  intros x s it d rest Hd Hit Hin.
  pose proof (invoke_and_fetch_state x s Hd Hit Hin) as Hst.
  unfold _predict, bind.
  destruct (invoke_and_fetch x s) as [s' [e|yolos]]; cbn [fst] in Hst;
    subst s'; [reflexivity|].
  apply aggregate_readonly.
Qed.

(** C10: after [load_tflite] has returned, [predict] hands the interpreter
    the resized image cast to float32 and divided by 255 when the dtype of
    the model's input is float32, and the resized image with its pixel
    values unchanged otherwise; the network is run on that tensor. *)
Theorem predict_normalizes_iff_float32 :
  forall load_delegate tflite_Interpreter allocate_tensors path lib
         (s0 s : @YOLOv4 F) frame h w ch img,
  load_tflite load_delegate tflite_Interpreter allocate_tensors path lib s0
    = (s, inr tt) ->
  shape frame = [h; w; ch] ->
  resize_image (config s) frame = inr img ->
  exists it d,
    _interpreter s = Some it /\ _input_details s = Some d
    /\ nth_error (input_details it) 0 = Some d
    /\ let x :=
         if is_float32 (d_dtype d)
         then F32 (tmap (fun v => f_div v (f_of_Z 255))
                        (tmap f_of_Z (newaxis img)))
         else U8 (newaxis img) in
       _interpreter
         (fst (predict resize_image yolo_diou_nms fit_to_original
                 _yolo_layer frame s))
       = Some (ran_on it (d_index d) x).
Proof.
  intros ld mk al path lib s0 s frame h w ch img Hload Hshape Hresize.
  destruct (load_tflite_post _ _ _ _ _ _ Hload)
    as (it & d & rest & Hit & Hin & Hd & Hfl).
  exists it, d. split; [exact Hit|]. split; [exact Hd|].
  split; [now rewrite Hin|]. cbv zeta.
  unfold predict. rewrite Hshape, bind_ret, bind_gets.
  rewrite (bind_lift_inr _ _ Hresize).
  rewrite (bind_attr _ _ _ _ Hfl).
  pose (x := if is_float32 (d_dtype d)
            then F32 (tmap (fun v => f_div v (f_of_Z 255))
                           (tmap f_of_Z (newaxis img)))
            else U8 (newaxis img)).
  fold x.
  assert (Hrest : forall batch s',
            fst ((candidates <~ or_raise IndexError (index0 batch) ;;
                  beta <~ attr "_beta_nms" _beta_nms ;;
                  pred_bboxes <~ lift (yolo_diou_nms candidates beta) ;;
                  ret (fit_to_original pred_bboxes h w))%py s') = s').
  { intros batch. apply readonly_of_keeps. intros s1.
    apply keeps_bind; [now apply keeps_or_raise|]. intros c.
    apply keeps_bind; [now apply keeps_attr|]. intros beta.
    apply keeps_bind; [now apply keeps_lift|]. intros p.
    apply keeps_ret. }
  assert (Hx : (if is_float32 (d_dtype d)
                then _predict _yolo_layer (F32 (normalize (newaxis img)))
                else _predict _yolo_layer (U8 (newaxis img)))
               = _predict _yolo_layer x).
  { unfold x, normalize. now destruct (is_float32 (d_dtype d)). }
  rewrite Hx.
  pose proof (_predict_state x s Hd Hit Hin) as Hst.
  unfold bind at 1.
  destruct (_predict _yolo_layer x s) as [s' [e|batch]]; cbn [fst] in Hst;
    subst s'.
  - reflexivity.
  - rewrite Hrest. reflexivity.
Qed.

End Predict.
End TFLiteFacts.

(** ** DIoU-NMS *)

Module NMSFacts.
Import NMS.

Lemma Qltb_false_iff : forall a b, Qltb a b = false <-> (b <= a)%Q.
Proof.
  intros a b. unfold Qltb. rewrite negb_false_iff. apply Qle_bool_iff.
Qed.

Lemma Qltb_true_iff : forall a b, Qltb a b = true <-> (a < b)%Q.
Proof.
  intros a b. unfold Qltb. rewrite negb_true_iff.
  rewrite <- not_true_iff_false, Qle_bool_iff. split.
  - apply Qnot_le_lt.
  - apply Qlt_not_le.
Qed.

Section Spec.
Variable threshold : Q.
Variable num_classes : nat.
Variable effective_threshold : Q -> Q -> Q -> Q.

(** The best candidate that [pick_max] returns has a score at least the
    score of the starting candidate and of every one left over. *)
Lemma pick_max_best : forall rest best m others,
  pick_max best rest = (m, others) ->
  (score best <= score m)%Q
  /\ forall c, In c others -> (score c <= score m)%Q.
Proof.
  induction rest as [|c r IH]; intros best m others Hp; cbn [pick_max] in Hp.
  - injection Hp as <- <-. split; [apply Qle_refl | intros c []].
  - destruct (Qltb (score best) (score c)) eqn:E.
    + destruct (pick_max c r) as [m' o'] eqn:Hr. injection Hp as <- <-.
      destruct (IH _ _ _ Hr) as [Hc Ho].
      apply Qltb_true_iff in E.
      assert (Hb : (score best <= score m')%Q).
      { apply Qle_trans with (score c); [apply Qlt_le_weak, E | exact Hc]. }
      split; [exact Hb|]. intros x [<-|Hx]; auto.
    + destruct (pick_max best r) as [m' o'] eqn:Hr. injection Hp as <- <-.
      destruct (IH _ _ _ Hr) as [Hb Ho].
      apply Qltb_false_iff in E.
      split; [exact Hb|]. intros x [<-|Hx]; auto.
      apply Qle_trans with (score best); assumption.
Qed.

(** [pick_max] returns one of the candidates and leaves the others. *)
Lemma pick_max_in : forall rest best m others,
  pick_max best rest = (m, others) ->
  In m (best :: rest)
  /\ (forall c, In c others -> In c (best :: rest))
  /\ length others = length rest.
Proof.
  induction rest as [|c r IH]; intros best m others Hp; cbn [pick_max] in Hp.
  - injection Hp as <- <-. cbn. auto.
  - destruct (Qltb (score best) (score c)).
    + destruct (pick_max c r) as [m' o'] eqn:Hr. injection Hp as <- <-.
      destruct (IH _ _ _ Hr) as (Hm & Ho & Hl).
      split; [right; exact Hm|]. split.
      * intros x [<-|Hx]; [left; reflexivity | right; auto].
      * cbn [length]. now rewrite Hl.
    + destruct (pick_max best r) as [m' o'] eqn:Hr. injection Hp as <- <-.
      destruct (IH _ _ _ Hr) as (Hm & Ho & Hl).
      split.
      * destruct Hm as [<-|Hm]; [left; reflexivity | right; right; exact Hm].
      * split.
        -- intros x [<-|Hx]; [right; left; reflexivity|].
           destruct (Ho _ Hx) as [<-|Hx']; [left; reflexivity|].
           right; right; exact Hx'.
        -- cbn [length]. now rewrite Hl.
Qed.

(** When no other candidate beats the first one, [pick_max] returns it
    and leaves the rest untouched. *)
Lemma pick_max_head : forall rest best,
  (forall c, In c rest -> (score c <= score best)%Q) ->
  pick_max best rest = (best, rest).
Proof.
  induction rest as [|c r IH]; intros best Hle; cbn [pick_max].
  - reflexivity.
  - assert (E : Qltb (score best) (score c) = false).
    { apply Qltb_false_iff, Hle. left; reflexivity. }
    rewrite E, IH; [reflexivity|]. intros x Hx. apply Hle. right; exact Hx.
Qed.

Lemma suppress_loop_incl : forall beta fuel remaining c,
  In c (suppress_loop effective_threshold fuel beta remaining) ->
  In c remaining.
Proof.
  intros beta. induction fuel as [|fuel IH]; intros remaining c Hc.
  - destruct remaining; contradiction.
  - destruct remaining as [|c0 r]; [contradiction|].
    cbn [suppress_loop] in Hc.
    destruct (pick_max c0 r) as [m others] eqn:Hp.
    destruct (pick_max_in _ _ Hp) as (Hm & Ho & _).
    destruct Hc as [<-|Hc]; [exact Hm|].
    apply IH in Hc. apply filter_In in Hc as [Hc _]. now apply Ho.
Qed.

Lemma suppress_loop_chain : forall beta fuel remaining,
  kept_chain effective_threshold beta (suppress_loop effective_threshold fuel beta remaining).
Proof.
  intros beta. induction fuel as [|fuel IH]; intros remaining.
  - destruct remaining; exact I.
  - destruct remaining as [|c0 r]; [exact I|].
    cbn [suppress_loop].
    destruct (pick_max c0 r) as [m others] eqn:Hp.
    cbn [kept_chain]. split; [|apply IH].
    intros c Hc. apply suppress_loop_incl in Hc.
    apply filter_In in Hc as [Hc Hns].
    destruct (pick_max_best _ _ Hp) as [_ Hbest].
    split; [now apply Hbest|]. now apply negb_true_iff in Hns.
Qed.

Lemma filter_all : forall {A} (p : A -> bool) l,
  (forall x, In x l -> p x = true) -> filter p l = l.
Proof.
  intros A p l. induction l as [|x l IH]; intros Hp; cbn [filter].
  - reflexivity.
  - rewrite (Hp x) by (left; reflexivity).
    rewrite IH; [reflexivity|]. intros y Hy. apply Hp. right; exact Hy.
Qed.

Lemma suppress_loop_fixed : forall beta kept fuel,
  kept_chain effective_threshold beta kept -> length kept <= fuel ->
  suppress_loop effective_threshold fuel beta kept = kept.
Proof.
  intros beta. induction kept as [|m rest IH]; intros fuel Hk Hf.
  - destruct fuel; reflexivity.
  - destruct fuel as [|fuel]; [cbn [length] in Hf; lia|].
    cbn [kept_chain] in Hk. destruct Hk as [Hm Hk].
    cbn [suppress_loop].
    rewrite pick_max_head by (intros c Hc; apply Hm, Hc).
    rewrite filter_all.
    + rewrite IH; [reflexivity | exact Hk | cbn [length] in Hf; lia].
    + intros c Hc. apply negb_true_iff. now apply Hm.
Qed.

Lemma suppress_group_idempotent : forall beta group,
  suppress_group effective_threshold beta
    (suppress_group effective_threshold beta group)
  = suppress_group effective_threshold beta group.
Proof.
  intros beta group. unfold suppress_group at 1.
  apply suppress_loop_fixed; [|lia].
  unfold suppress_group. apply suppress_loop_chain.
Qed.

Lemma suppress_group_incl : forall beta group c,
  In c (suppress_group effective_threshold beta group) -> In c group.
Proof. intros beta group c. apply suppress_loop_incl. Qed.

Lemma filter_flat_map : forall {A B} (p : B -> bool) (f : A -> list B) l,
  filter p (flat_map f l) = flat_map (fun x => filter p (f x)) l.
Proof.
  intros A B p f l. induction l as [|x l IH]; cbn [flat_map filter].
  - reflexivity.
  - now rewrite filter_app, IH.
Qed.

Lemma flat_map_single : forall {B} (g : nat -> list B) k l,
  NoDup l -> In k l -> (forall j, j <> k -> g j = []) ->
  flat_map g l = g k.
Proof.
  intros B g k l Hnd. induction Hnd as [|x l Hx Hnd IH]; intros Hin Hg.
  - contradiction.
  - cbn [flat_map]. destruct Hin as [->|Hin].
    + assert (E : flat_map g l = []).
      { clear IH. induction l as [|y l IHl]; [reflexivity|].
        cbn [flat_map]. rewrite Hg, IHl; auto.
        - intros Hy. apply Hx. right; exact Hy.
        - now inversion Hnd.
        - intros ->. apply Hx. left; reflexivity. }
      now rewrite E, app_nil_r.
    + rewrite Hg, IH; auto. intros ->. contradiction.
Qed.

Lemma flat_map_ext_in : forall {A B} (f g : A -> list B) l,
  (forall x, In x l -> f x = g x) -> flat_map f l = flat_map g l.
Proof.
  intros A B f g l. induction l as [|x l IH]; intros H; cbn [flat_map].
  - reflexivity.
  - rewrite (H x) by (left; reflexivity). rewrite IH; [reflexivity|].
    intros y Hy. apply H. right; exact Hy.
Qed.

(** C9: DIoU-NMS is idempotent: applied to the detections it kept, with
    the same [beta_nms], it keeps exactly those detections, in the same
    order. *)
Theorem yolo_diou_nms_idempotent : forall candidates beta_nms,
  yolo_diou_nms threshold num_classes effective_threshold
    (yolo_diou_nms threshold num_classes effective_threshold
       candidates beta_nms) beta_nms
  = yolo_diou_nms threshold num_classes effective_threshold
      candidates beta_nms.
Proof.
  intros cs beta.
  set (keep := fun c => Qltb threshold (score c)).
  set (cls := fun k c => predicted_class c =? k).
  set (group := fun k =>
         suppress_group effective_threshold beta
           (filter (cls k) (filter keep cs))).
  assert (Hout : yolo_diou_nms threshold num_classes effective_threshold
                   cs beta = flat_map group (seq 0 num_classes))
    by reflexivity.
  rewrite Hout.
  assert (Hgroup : forall k c, In c (group k) ->
            keep c = true /\ cls k c = true).
  { intros k c Hc. apply suppress_group_incl in Hc.
    apply filter_In in Hc as [Hc Hk]. apply filter_In in Hc as [_ Hkeep].
    auto. }
  assert (Hkeep : filter keep (flat_map group (seq 0 num_classes))
                  = flat_map group (seq 0 num_classes)).
  { apply filter_all. intros c Hc. apply in_flat_map in Hc as (k & _ & Hc).
    now apply (Hgroup k). }
  assert (Hcls : forall k, In k (seq 0 num_classes) ->
            filter (cls k) (flat_map group (seq 0 num_classes)) = group k).
  { intros k Hk. rewrite filter_flat_map.
    rewrite (@flat_map_single _ (fun j => filter (cls k) (group j)) k).
    - apply filter_all. intros c Hc. now apply (Hgroup k).
    - apply seq_NoDup.
    - exact Hk.
    - intros j Hj. destruct (filter (cls k) (group j)) as [|c l] eqn:E;
        [reflexivity|].
      assert (Hc : In c (filter (cls k) (group j)))
        by (rewrite E; left; reflexivity).
      apply filter_In in Hc as [Hc Hck].
      destruct (Hgroup j c Hc) as [_ Hcj].
      unfold cls in Hck, Hcj. apply Nat.eqb_eq in Hck, Hcj. congruence. }
  unfold yolo_diou_nms. fold keep. rewrite Hkeep.
  apply flat_map_ext_in. intros k Hk. fold (cls k). rewrite (Hcls k Hk).
  apply suppress_group_idempotent.
Qed.

End Spec.
(** Two identical candidates of one class: one is kept; the same box of
    another class is kept as well. *)
Example nms_keeps_one_per_class :
  yolo_diou_nms (1 # 4) 2 Examples.fixed_threshold
    [Examples.box_a; Examples.box_a; Examples.box_b] (1 # 2)
  = [Examples.box_a; Examples.box_b].
Proof. vm_compute. reflexivity. Qed.

Example nms_drops_low_scores :
  yolo_diou_nms 1 2 Examples.fixed_threshold
    [Examples.box_a; Examples.box_b] (1 # 2) = [].
Proof. vm_compute. reflexivity. Qed.

End NMSFacts.

(** ** The TFLite wrapper on a concrete model *)

Module TFLiteOverReals.
Import Tensor TensorFacts TFLiteFacts Examples.

Lemma loaded_ok :
  TFLite.load_tflite no_delegate open_model allocate
     "yolov4.tflite" "libedgetpu.so.1" (TFLite.new config0) = (loaded, inr tt).
Proof. reflexivity. Qed.

Lemma load_tflite_shape_check_witness :
  snd (TFLite.load_tflite no_delegate open_model allocate
         "yolov4.tflite" "libedgetpu.so.1" (TFLite.new config_608))
    = inl (TFLite.RuntimeError TFLite.shape_mismatch_msg)
  /\ forall e,
       snd (TFLite.load_tflite no_delegate open_model allocate
              "yolov4.tflite" "libedgetpu.so.1" (TFLite.new config0))
         = inl e ->
       ~ TFLite.is_runtime_error e.
Proof.
  assert (Hc : TFLite.created no_delegate open_model allocate
                 "yolov4.tflite" "libedgetpu.so.1" 0 interpreter0)
    by (exists interpreter0; split; reflexivity).
  split.
  - destruct (@load_tflite_shape_check R _ no_delegate open_model allocate
                "yolov4.tflite" "libedgetpu.so.1" (TFLite.new config_608)
                0 interpreter0 input_f32 [] 1 416 416 3 608 608 3
                eq_refl Hc eq_refl eq_refl eq_refl)%Z
      as [Hbad _].
    apply Hbad. left. discriminate.
  - destruct (@load_tflite_shape_check R _ no_delegate open_model allocate
                "yolov4.tflite" "libedgetpu.so.1" (TFLite.new config0)
                0 interpreter0 input_f32 [] 1 416 416 3 416 416 3
                eq_refl Hc eq_refl eq_refl eq_refl)%Z
      as [_ Hgood].
    apply Hgood; [repeat split|].
    intros layer_type i e [= <-] [msg Hm]. discriminate.
Defined.

Lemma predict_normalizes_iff_float32_witness :
  exists it d,
    TFLite._interpreter loaded = Some it
    /\ TFLite._input_details loaded = Some d
    /\ nth_error (TFLite.input_details it) 0 = Some d
    /\ let x :=
         if TFLite.is_float32 (TFLite.d_dtype d)
         then TFLite.F32 (tmap (fun v => f_div v (f_of_Z 255))
                               (tmap f_of_Z (TFLite.newaxis black_frame)))
         else TFLite.U8 (TFLite.newaxis black_frame) in
       TFLite._interpreter
         (fst (TFLite.predict keep_size keep_all keep_boxes first_output
                 black_frame loaded))
       = Some (TFLite.ran_on it (TFLite.d_index d) x).
Proof.
  apply (@predict_normalizes_iff_float32 R _ keep_size keep_all keep_boxes
           first_output no_delegate open_model allocate
           "yolov4.tflite" "libedgetpu.so.1" (TFLite.new config0) loaded
           black_frame 2 2 3 black_frame); reflexivity.
Defined.

(** The anchors that [load_tflite] stores are fractions of the network
    input size. *)
Example load_tflite_normalizes_anchors :
  let s := fst (TFLite.load_tflite no_delegate open_model allocate
                  "yolov4.tflite" "libedgetpu.so.1" (TFLite.new config1)) in
  TFLite._anhcors s = [mk [1; 2] [f_div (f_of_Z 19) (f_of_Z 416);
                                  f_div (f_of_Z 36) (f_of_Z 416)]]
  /\ TFLite._scale_x_y s = [(12 / 10)%R]
  /\ TFLite._beta_nms s = Some (6 / 10)%R
  /\ TFLite._input_float s = Some true.
Proof. repeat split. Qed.

End TFLiteOverReals.

(** ** Candidate counts *)

Module CandidateCount.
Import Tensor TensorFacts DecodeFacts YOLOv4Facts TFLiteFacts Examples.
Section WithFloat.
Context {F : Type} `{Float32 F}.

(** C6: the decoded output of a scale with grid size g has exactly
    g * g * 3 rows of length 5 + C; the concatenated output of
    [YOLOv4.call], and of the aggregation of [_predict] in both of its
    branches, has the sum of g_s * g_s * 3 over the three scales. *)
Theorem candidate_counts :
  (forall anchors cw C xyscale (x : tensor F) training B g,
     shape anchors = [3; 2] -> wf anchors ->
     shape x = [B; g; g; 3 * (5 + C)] -> wf x ->
     exists self' out,
       Decode.apply (Decode.init anchors cw C xyscale) x training
         = Some (self', out)
       /\ shape out = [B; g * g * 3; 5 + C] /\ wf out)
  /\ (forall trunk anchors C xyscales (self : YOLOv4.YOLOv4) (x : tensor F)
             training (s m l : tensor F) B g1 g2 g3,
     YOLOv4.init anchors C xyscales = Some self ->
     Forall (fun a => shape a = [3; 2] /\ wf a) anchors ->
     trunk x = (s, m, l) ->
     shape s = [B; g1; g1; 3 * (5 + C)] -> wf s ->
     shape m = [B; g2; g2; 3 * (5 + C)] -> wf m ->
     shape l = [B; g3; g3; 3 * (5 + C)] -> wf l ->
     exists self' out,
       YOLOv4.call trunk self x training = Some (self', out)
       /\ shape out = [B; g1 * g1 * 3 + g2 * g2 * 3 + g3 * g3 * 3; 5 + C]
       /\ wf out)
  /\ (forall yolo_layer (s : TFLite.YOLOv4) meta (y1 y2 y3 : tensor F)
             g1 g2 g3,
     TFLite._tpu s = Some false ->
     TFLite.yolo_0 (TFLite.config s) = Some meta ->
     let st := 5 + TFLite.classes meta in
     shape y1 = [1; g1; g1; 3 * st] -> wf y1 ->
     shape y2 = [1; g2; g2; 3 * st] -> wf y2 ->
     shape y3 = [1; g3; g3; 3 * st] -> wf y3 ->
     exists out,
       TFLite.aggregate yolo_layer [y1; y2; y3] s = (s, inr out)
       /\ shape out = [1; g1 * g1 * 3 + g2 * g2 * 3 + g3 * g3 * 3; st]
       /\ wf out)
  /\ (forall yolo_layer (s : TFLite.YOLOv4) meta
             (y1 l1 y2 l2 y3 l3 a1 a2 a3 : tensor F) s1 s2 s3 g1 g2 g3,
     (forall a b an sc,
        shape (yolo_layer a b an sc) = shape a
        /\ (wf a -> wf (yolo_layer a b an sc))) ->
     TFLite._tpu s = Some true ->
     TFLite.yolo_tpu_0 (TFLite.config s) = Some meta ->
     TFLite._anhcors s = [a1; a2; a3] ->
     TFLite._scale_x_y s = [s1; s2; s3] ->
     let st := 5 + TFLite.classes meta in
     shape y1 = [1; g1; g1; 3 * st] -> wf y1 ->
     shape y2 = [1; g2; g2; 3 * st] -> wf y2 ->
     shape y3 = [1; g3; g3; 3 * st] -> wf y3 ->
     exists out,
       TFLite.aggregate yolo_layer [y1; l1; y2; l2; y3; l3] s = (s, inr out)
       /\ shape out = [1; g1 * g1 * 3 + g2 * g2 * 3 + g3 * g3 * 3; st]
       /\ wf out).
Proof.
  split; [|split; [|split]].
  - intros anchors cw C xyscale x training B g Has Haw Hxs Hxw.
    destruct (apply_spec cw xyscale training Has Haw Hxs Hxw)
      as (self' & out & Ha & _ & Hs & Hw & _).
    eauto.
  - intros. eapply yolov4_call_shape; eauto.
  - intros. eapply aggregate_shape; eauto.
  - intros. eapply aggregate_shape_tpu; eauto.
Qed.

End WithFloat.

Lemma candidate_counts_witness :
  (exists self' out,
     Decode.apply (Decode.init anchors_tenth 32 1 (12 / 10)%R) logits_8x8 false
       = Some (self', out)
     /\ shape out = [1; 8 * 8 * 3; 5 + 1] /\ wf out)
  /\ (exists self' out,
        YOLOv4.call trunk_zeros
          (YOLOv4.mkYOLOv4 (Decode.init anchors_tenth 8 0 1%R)
             (Decode.init anchors_tenth 16 0 1%R)
             (Decode.init anchors_tenth 32 0 1%R)) zeros_1x1 false
          = Some (self', out)
        /\ shape out = [1; 1 * 1 * 3 + 1 * 1 * 3 + 1 * 1 * 3; 5 + 0]
        /\ wf out)
  /\ (exists out,
        TFLite.aggregate first_output [zeros_1x1; zeros_1x1; zeros_1x1]
          detector_cpu = (detector_cpu, inr out)
        /\ shape out = [1; 1 * 1 * 3 + 1 * 1 * 3 + 1 * 1 * 3; 5]
        /\ wf out)
  /\ (exists out,
        TFLite.aggregate first_output
          [zeros_1x1; zeros_1x1; zeros_1x1; zeros_1x1; zeros_1x1; zeros_1x1]
          detector_tpu = (detector_tpu, inr out)
        /\ shape out = [1; 1 * 1 * 3 + 1 * 1 * 3 + 1 * 1 * 3; 5]
        /\ wf out).
Proof.
  destruct (@candidate_counts R _) as (Hd & Hy & Hc & Ht).
  split; [|split; [|split]].
  - apply (Hd anchors_tenth 32%Z 1 (12 / 10)%R logits_8x8 false 1 8);
      solve [reflexivity | apply wf_tabulate].
  - apply (Hy trunk_zeros [anchors_tenth; anchors_tenth; anchors_tenth] 0
             [1%R; 1%R; 1%R] _ zeros_1x1 false zeros_1x1 zeros_1x1 zeros_1x1
             1 1 1 1);
      try reflexivity.
    repeat constructor.
  - apply (Hc first_output detector_cpu meta0 zeros_1x1 zeros_1x1 zeros_1x1
             1 1 1); reflexivity.
  - apply (Ht first_output detector_tpu meta0
             zeros_1x1 zeros_1x1 zeros_1x1 zeros_1x1 zeros_1x1 zeros_1x1
             anchors_tenth anchors_tenth anchors_tenth 1%R 1%R 1%R 1 1 1);
      try reflexivity.
    intros a b an sc. split; [reflexivity | auto].
Defined.

End CandidateCount.

(** ** The Decode head: rejected inputs, reuse and locality *)

Module DecodeEdges.
Import Tensor TensorFacts DecodeFacts.

Section WithFloat.
Context {F : Type} `{Float32 F}.

Lemma build_depends_on_grid : forall (self : Decode.Decode (F := F)) s1 s2,
  nth_error s1 1 = nth_error s2 1 ->
  Decode.build self s1 = Decode.build self s2.
Proof. intros self s1 s2 E. unfold Decode.build. now rewrite E. Qed.

Lemma reshape_none : forall {A} (t : tensor A) s,
  wf t -> size s <> size (shape t) -> reshape t s = None.
Proof.
  intros A t s Hwf Hs. unfold reshape. rewrite Hwf.
  destruct (Nat.eqb_spec (size s) (size (shape t))); [contradiction|reflexivity].
Qed.

(** A built layer whose first reshape targets a grid [g] rejects an input
    whose element count is not that of [(B, g, g, 3, 5 + C)]. *)
Lemma call_rejects : forall (self : Decode.Decode (F := F)) x training g C B rest,
  Decode.reshape0 self = Decode.Target [g; g; 3; 5 + C] ->
  shape x = B :: rest -> wf x ->
  size (B :: rest) <> size [B; g; g; 3; 5 + C] ->
  Decode.call self x training = None.
Proof.
  intros self x training g C B rest Hr0 Hxs Hxw Hne.
  unfold Decode.call. rewrite Hr0. unfold Decode.apply_reshape. rewrite Hxs.
  rewrite reshape_none; [reflexivity | exact Hxw |].
  rewrite Hxs. auto.
Qed.

(** X1: a [Decode] layer on its first call rejects a non-empty input
    [(B, g, g, ch)] whose channel count [ch] is not [3 * (5 + num_classes)]:
    [reshape0] cannot give it the shape [(B, g, g, 3, 5 + num_classes)]. *)
Theorem decode_rejects_channel_mismatch :
  forall anchors cw C xyscale (x : tensor F) training B g ch,
  shape x = [B; g; g; ch] -> wf x ->
  0 < B -> 0 < g -> ch <> 3 * (5 + C) ->
  Decode.apply (Decode.init anchors cw C xyscale) x training = None.
Proof.
  intros anchors cw C xyscale x training B g ch Hxs Hxw HB Hg Hch.
  unfold Decode.apply. cbn [Decode.built Decode.init].
  destruct (@build_spec F _ (Decode.init anchors cw C xyscale) (shape x) g)
    as (grid & Hb & _); [now rewrite Hxs|].
  rewrite Hb. cbn [obind].
  rewrite (@call_rejects _ x training g C B [g; g; ch]);
    [reflexivity | reflexivity | exact Hxs | exact Hxw |].
  cbn [size fold_right]. nia.
Qed.

(** X2: a [Decode] layer is built on its first call and keeps what
    [build] set.  After a first call on a grid of size [g], a call on any
    input of the same grid size leaves the layer as it is and returns what
    a fresh layer returns; a call on a non-empty input of another grid
    size is rejected. *)
Theorem decode_layer_reuse :
  forall anchors cw C xyscale (x : tensor F) training B g,
  shape anchors = [3; 2] -> wf anchors ->
  shape x = [B; g; g; 3 * (5 + C)] -> wf x ->
  exists self' out,
    Decode.apply (Decode.init anchors cw C xyscale) x training
      = Some (self', out)
    /\ (forall (x2 : tensor F) training2 B2,
          shape x2 = [B2; g; g; 3 * (5 + C)] -> wf x2 ->
          exists out2,
            Decode.apply self' x2 training2 = Some (self', out2)
            /\ Decode.apply (Decode.init anchors cw C xyscale) x2 training2
               = Some (self', out2))
    /\ (forall (x3 : tensor F) training3 B3 g3,
          shape x3 = [B3; g3; g3; 3 * (5 + C)] -> wf x3 ->
          0 < B3 -> g3 <> g ->
          Decode.apply self' x3 training3 = None).
Proof.
  intros anchors cw C xyscale x training B g Has Haw Hxs Hxw.
  set (self := Decode.init anchors cw C xyscale).
  destruct (@build_spec F _ self (shape x) g)
    as (grid & Hb & Hgs & Hgw & _); [now rewrite Hxs|].
  set (self' := Decode.mkDecode _ _ _ _ _ _ _ _) in Hb.
  destruct (@call_spec F _ self' grid x training B g)
    as (out & Hc & _); auto.
  exists self', out. split; [|split].
  - unfold Decode.apply. change (Decode.built self) with false. cbv iota.
    rewrite Hb. cbn [obind]. rewrite Hc. reflexivity.
  - intros x2 training2 B2 Hx2 Hw2.
    destruct (@call_spec F _ self' grid x2 training2 B2 g)
      as (out2 & Hc2 & _); auto.
    exists out2. split.
    + unfold Decode.apply. change (Decode.built self') with true.
      cbn [obind]. rewrite Hc2. reflexivity.
    + unfold Decode.apply. change (Decode.built self) with false. cbv iota.
      rewrite (@build_depends_on_grid self (shape x2) (shape x))
        by now rewrite Hx2, Hxs.
      rewrite Hb. cbn [obind]. rewrite Hc2. reflexivity.
  - intros x3 training3 B3 g3 Hx3 Hw3 HB3 Hg3.
    unfold Decode.apply. change (Decode.built self') with true.
    cbn [obind].
    rewrite (@call_rejects self' x3 training3 g C B3 [g3; g3; 3 * (5 + C)]);
      [reflexivity | reflexivity | exact Hx3 | exact Hw3 |].
    cbn [size fold_right]. intros E.
    assert (g3 * g3 = g * g) by nia.
    assert (g3 = g) by nia. contradiction.
Qed.

(** X3: a decoded row depends on its own raw row only: two inputs of the
    same shape that agree on the raw vector of cell [(i, j)], anchor [k]
    of batch element [b] have the same decoded row [(i * g + j) * 3 + k]. *)
Theorem decode_row_is_local :
  forall anchors cw C xyscale (x x' : tensor F) training B g b i j k,
  shape anchors = [3; 2] -> wf anchors ->
  shape x = [B; g; g; 3 * (5 + C)] -> wf x ->
  shape x' = [B; g; g; 3 * (5 + C)] -> wf x' ->
  b < B -> i < g -> j < g -> k < 3 ->
  (forall c, c < 5 + C ->
     get (Decode.raw_view x g C) [b; i; j; k; c]
     = get (Decode.raw_view x' g C) [b; i; j; k; c]) ->
  exists self' out out',
    Decode.apply (Decode.init anchors cw C xyscale) x training
      = Some (self', out)
    /\ Decode.apply (Decode.init anchors cw C xyscale) x' training
      = Some (self', out')
    /\ forall c, c < 5 + C ->
         get out [b; (i * g + j) * 3 + k; c]
         = get out' [b; (i * g + j) * 3 + k; c].
Proof.
  intros anchors cw C xyscale x x' training B g b i j k
    Has Haw Hxs Hxw Hxs' Hxw' Hb Hi Hj Hk Hrow.
  destruct (apply_spec cw xyscale training Has Haw Hxs Hxw)
    as (self1 & out & Ha & _ & _ & _ & Hv).
  destruct (apply_spec cw xyscale training Has Haw Hxs' Hxw')
    as (self2 & out' & Ha' & _ & _ & _ & Hv').
  assert (self2 = self1) as ->.
  { unfold Decode.apply in Ha, Ha'. cbn [Decode.built Decode.init] in Ha, Ha'.
    rewrite (@build_depends_on_grid _ (shape x') (shape x)) in Ha'
      by now rewrite Hxs, Hxs'.
    destruct (Decode.build _ (shape x)) as [d|]; [|discriminate].
    cbn [obind] in Ha, Ha'.
    destruct (Decode.call d x training); [|discriminate].
    destruct (Decode.call d x' training); [|discriminate].
    cbn [obind] in Ha, Ha'. congruence. }
  exists self1, out, out'. split; [exact Ha|]. split; [exact Ha'|].
  intros c Hc. rewrite Hv, Hv' by assumption.
  unfold Decode.decode_elem. rewrite !Hrow by lia. reflexivity.
Qed.

End WithFloat.
End DecodeEdges.

(** ** The Decode head over the reals: ranges *)

Module DecodeRanges.
Import Tensor TensorFacts DecodeFacts Examples.
Local Open Scope R_scope.








End DecodeRanges.

(** ** The three heads of [YOLOv4] *)

Module YOLOv4Rows.
Import Tensor TensorFacts DecodeFacts YOLOv4Facts.

Section WithFloat.
Context {F : Type} `{Float32 F}.

Lemma concat_axis1_rows : forall (t1 t2 t3 : tensor F) b r1 r2 r3 c,
  shape t1 = [b; r1; c] -> shape t2 = [b; r2; c] -> shape t3 = [b; r3; c] ->
  exists out,
    concat_axis1 [t1; t2; t3] = Some out
    /\ shape out = [b; r1 + r2 + r3; c] /\ wf out
    /\ forall bb cc, bb < b -> cc < c ->
         (forall r, r < r1 -> get out [bb; r; cc] = get t1 [bb; r; cc])
         /\ (forall r, r < r2 ->
               get out [bb; r1 + r; cc] = get t2 [bb; r; cc])
         /\ (forall r, r < r3 ->
               get out [bb; r1 + r2 + r; cc] = get t3 [bb; r; cc]).
Proof.
  intros t1 t2 t3 b r1 r2 r3 c H1 H2 H3.
  unfold concat_axis1. rewrite H1. cbn [forallb].
  rewrite H1, H2, H3, !Nat.eqb_refl. cbn [andb map nth list_sum fold_right].
  rewrite H1, H2, H3. cbn [nth].
  eexists. split; [reflexivity|]. split.
  { rewrite shape_tabulate. f_equal. f_equal. lia. }
  split; [apply wf_tabulate|].
  intros bb cc Hbb Hcc.
  assert (Hpick : forall r, r < r1 + (r2 + (r3 + 0)) ->
            get (tabulate [b; r1 + (r2 + (r3 + 0)); c]
                   (fun idx => pick_rows [t1; t2; t3] (nth 0 idx 0)
                                 (nth 1 idx 0) (nth 2 idx 0)))
                [bb; r; cc]
            = pick_rows [t1; t2; t3] bb r cc).
  { intros r Hr. rewrite get_tabulate by (simpl; lia). reflexivity. }
  repeat split; intros r Hr; rewrite Hpick by lia;
    cbn [pick_rows]; rewrite H1; cbn [nth].
  - replace (r <? r1) with true by (symmetry; apply Nat.ltb_lt; lia).
    reflexivity.
  - replace (r1 + r <? r1) with false by (symmetry; apply Nat.ltb_ge; lia).
    rewrite H2. cbn [nth]. replace (r1 + r - r1) with r by lia.
    replace (r <? r2) with true by (symmetry; apply Nat.ltb_lt; lia).
    reflexivity.
  - replace (r1 + r2 + r <? r1) with false
      by (symmetry; apply Nat.ltb_ge; lia).
    rewrite H2. cbn [nth].
    replace (r1 + r2 + r - r1 <? r2) with false
      by (symmetry; apply Nat.ltb_ge; lia).
    rewrite H3. cbn [nth].
    replace (r1 + r2 + r - r1 - r2) with r by lia.
    replace (r <? r3) with true by (symmetry; apply Nat.ltb_lt; lia).
    reflexivity.
Qed.

(** X7: [YOLOv4.__init__] reads [anchors[0..2]] and [xyscales[0..2]]: it
    fails exactly when one of the two sequences has fewer than three
    entries. *)
Theorem yolov4_init_needs_three :
  forall (anchors : list (tensor F)) num_classes (xyscales : list F),
  YOLOv4.init anchors num_classes xyscales = None
  <-> length anchors < 3 \/ length xyscales < 3.
Proof.
  intros anchors C xyscales. unfold YOLOv4.init. split.
  - intros Hnone.
    destruct (Nat.lt_ge_cases (length anchors) 3) as [|Ha]; [auto|].
    destruct (Nat.lt_ge_cases (length xyscales) 3) as [|Hs]; [auto|].
    exfalso.
    destruct anchors as [|a0 [|a1 [|a2 ?]]]; cbn [length] in Ha; try lia.
    destruct xyscales as [|s0 [|s1 [|s2 ?]]]; cbn [length] in Hs; try lia.
    discriminate.
  - intros [Ha | Hs].
    + assert (E : nth_error anchors 2 = None) by (apply nth_error_None; lia).
      rewrite E.
      destruct (nth_error anchors 0), (nth_error xyscales 0),
        (nth_error anchors 1), (nth_error xyscales 1); reflexivity.
    + assert (E : nth_error xyscales 2 = None) by (apply nth_error_None; lia).
      rewrite E.
      destruct (nth_error anchors 0), (nth_error xyscales 0),
        (nth_error anchors 1), (nth_error xyscales 1),
        (nth_error anchors 2); reflexivity.
Qed.

(** X8: the candidates of [YOLOv4.call] are the rows of [decode93] (cell
    width 8, first anchors and scale), then those of [decode101] (16,
    second), then those of [decode109] (32, third), each block in the
    order its head gives them. *)
Theorem yolov4_call_row_order :
  forall trunk a0 a1 a2 more_anchors C s0 s1 s2 more_scales
         (self : YOLOv4.YOLOv4) (x : tensor F) training
         (s m l : tensor F) B g1 g2 g3,
  YOLOv4.init (a0 :: a1 :: a2 :: more_anchors) C
              (s0 :: s1 :: s2 :: more_scales) = Some self ->
  shape a0 = [3; 2] -> wf a0 -> shape a1 = [3; 2] -> wf a1 ->
  shape a2 = [3; 2] -> wf a2 ->
  trunk x = (s, m, l) ->
  shape s = [B; g1; g1; 3 * (5 + C)] -> wf s ->
  shape m = [B; g2; g2; 3 * (5 + C)] -> wf m ->
  shape l = [B; g3; g3; 3 * (5 + C)] -> wf l ->
  exists self' out d1 o1 d2 o2 d3 o3,
    YOLOv4.call trunk self x training = Some (self', out)
    /\ Decode.apply (Decode.init a0 8 C s0) s training = Some (d1, o1)
    /\ Decode.apply (Decode.init a1 16 C s1) m training = Some (d2, o2)
    /\ Decode.apply (Decode.init a2 32 C s2) l training = Some (d3, o3)
    /\ forall b c, b < B -> c < 5 + C ->
         (forall r, r < g1 * g1 * 3 -> get out [b; r; c] = get o1 [b; r; c])
         /\ (forall r, r < g2 * g2 * 3 ->
               get out [b; g1 * g1 * 3 + r; c] = get o2 [b; r; c])
         /\ (forall r, r < g3 * g3 * 3 ->
               get out [b; g1 * g1 * 3 + g2 * g2 * 3 + r; c]
               = get o3 [b; r; c]).
Proof.
  intros trunk a0 a1 a2 ra C s0 s1 s2 rs self x training s m l B g1 g2 g3
    Hinit Ha0 Hw0 Ha1 Hw1 Ha2 Hw2 Htr Hs Hsw Hm Hmw Hl Hlw.
  unfold YOLOv4.init in Hinit. cbn [nth_error obind] in Hinit.
  injection Hinit as <-.
  destruct (apply_spec 8%Z s0 training Ha0 Hw0 Hs Hsw)
    as (d1 & o1 & A1 & _ & S1 & _ & _).
  destruct (apply_spec 16%Z s1 training Ha1 Hw1 Hm Hmw)
    as (d2 & o2 & A2 & _ & S2 & _ & _).
  destruct (apply_spec 32%Z s2 training Ha2 Hw2 Hl Hlw)
    as (d3 & o3 & A3 & _ & S3 & _ & _).
  destruct (@concat_axis1_rows o1 o2 o3 _ _ _ _ _ S1 S2 S3)
    as (out & Hc & _ & _ & Hrows).
  exists (YOLOv4.mkYOLOv4 d1 d2 d3), out, d1, o1, d2, o2, d3, o3.
  split.
  { unfold YOLOv4.call. rewrite Htr.
    cbn [YOLOv4.decode93 YOLOv4.decode101 YOLOv4.decode109].
    rewrite A1, A2, A3. cbn [obind fst snd]. rewrite Hc. reflexivity. }
  repeat (split; [assumption|]). exact Hrows.
Qed.

End WithFloat.
End YOLOv4Rows.

(** ** The TFLite wrapper: what is raised, and when *)

Module TFLiteErrors.
Import Tensor TensorFacts YOLOv4Facts TFLite TFLiteFacts.

Section Load.
Context {F : Type} `{Float32 F}.
Variable load_delegate : string -> exn + string.
Variable tflite_Interpreter : string -> list string -> exn + Interpreter (F := F).
Variable allocate_tensors : Interpreter (F := F) -> exn + Interpreter (F := F).

Lemma bind_or_raise_none : forall {A B} e (k : A -> M (@YOLOv4 F) B) s,
  bind (or_raise e None) k s = (s, inl e).
Proof. reflexivity. Qed.

Lemma bind_or_raise_some : forall {A B} e a (k : A -> M (@YOLOv4 F) B) s,
  bind (or_raise e (Some a)) k s = k a s.
Proof. reflexivity. Qed.

Lemma bind_lift_inl : forall {A B} (r : exn + A) e (k : A -> M (@YOLOv4 F) B) s,
  r = inl e -> bind (lift r) k s = (s, inl e).
Proof. intros A B r e k s ->. reflexivity. Qed.

(** X9: without a "yolo_tpu" entry in [config.layer_count],
    [load_tflite] raises [KeyError] and leaves the detector untouched. *)
Theorem load_tflite_missing_key : forall path lib (s : @YOLOv4 F),
  dict_get (layer_count (config s)) "yolo_tpu"%string = None ->
  load_tflite load_delegate tflite_Interpreter allocate_tensors path lib s
    = (s, inl (KeyError "yolo_tpu"%string)).
Proof.
  intros path lib s Hk. unfold load_tflite.
  apply bind_inl. unfold create_interpreter.
  rewrite bind_gets, Hk. apply bind_or_raise_none.
Qed.

(** X10: an error of the runtime while the delegate is loaded (with a
    TPU layer in the configuration) or the interpreter is created is the
    error of [load_tflite]; [_tpu] is assigned by then and nothing else
    is. *)
Theorem load_tflite_runtime_failure :
  forall path lib (s : @YOLOv4 F) n_tpu e,
  dict_get (layer_count (config s)) "yolo_tpu"%string = Some n_tpu ->
  (if 0 <? n_tpu
   then load_delegate lib = inl e
        \/ exists d, load_delegate lib = inr d
                     /\ tflite_Interpreter path [d] = inl e
   else tflite_Interpreter path [] = inl e) ->
  load_tflite load_delegate tflite_Interpreter allocate_tensors path lib s
    = (set_tpu (0 <? n_tpu) s, inl e).
Proof.
  intros path lib s n_tpu e Hk Hfail. unfold load_tflite.
  apply bind_inl. unfold create_interpreter.
  rewrite bind_gets, Hk, bind_or_raise_some, bind_modify.
  rewrite (@bind_attr _ _ _ "_tpu"%string _tpu (0 <? n_tpu))
    by (destruct s; reflexivity).
  apply bind_inl.
  destruct (0 <? n_tpu).
  - destruct Hfail as [Hd | (d & Hd & Hi)].
    + now apply bind_lift_inl.
    + rewrite (bind_lift_inr _ _ Hd). unfold lift. now rewrite Hi.
  - unfold lift. now rewrite Hfail.
Qed.

(** X11: when the model has no input tensor, or its first input has a
    shape of fewer than two dimensions, [load_tflite] raises [IndexError]
    in the shape check: the interpreter is stored, [_input_details] is not
    assigned. *)
Theorem load_tflite_input_rank :
  forall path lib (s : @YOLOv4 F) n_tpu it,
  dict_get (layer_count (config s)) "yolo_tpu"%string = Some n_tpu ->
  created load_delegate tflite_Interpreter allocate_tensors path lib
    n_tpu it ->
  (input_details it = []
   \/ exists d rest, input_details it = d :: rest
                     /\ length (d_shape d) < 2) ->
  let run := load_tflite load_delegate tflite_Interpreter allocate_tensors
               path lib s in
  snd run = inl IndexError
  /\ _interpreter (fst run) = Some it
  /\ _input_details (fst run) = _input_details s.
Proof.
  intros path lib s n_tpu it Hcnt Hmk Hbad run.
  destruct (@create_interpreter_ok F load_delegate tflite_Interpreter
              allocate_tensors path lib s n_tpu it Hcnt Hmk)
    as (s1 & Hcr & Hit & Hcfg & Hid & Hif).
  assert (Hck : check_input_details s1 = (s1, inl IndexError)).
  { unfold check_input_details.
    rewrite (@bind_attr _ _ _ "_interpreter"%string _interpreter it _ _ Hit).
    rewrite bind_gets.
    destruct Hbad as [Hnil | (d & rest & Hin & Hlen)].
    - rewrite Hnil. reflexivity.
    - rewrite Hin. cbn [nth_error]. rewrite bind_or_raise_some.
      apply bind_inl. unfold differ.
      assert (E : nth_error (d_shape d) 1 = None)
        by (apply nth_error_None; lia).
      rewrite E. reflexivity. }
  unfold run, load_tflite.
  rewrite (@bind_inr _ _ _ _ _ _ _ _ Hcr), (@bind_inl _ _ _ _ _ _ _ _ Hck).
  cbn [fst snd]. auto.
Qed.

End Load.

Section Predict.
Context {F : Type} `{Float32 F}.
Variable resize_image : Config (F := F) -> tensor Z -> exn + tensor Z.
Variable yolo_diou_nms : tensor F -> F -> exn + tensor F.
Variable fit_to_original : tensor F -> nat -> nat -> tensor F.
Variable _yolo_layer : tensor F -> tensor F -> tensor F -> F -> tensor F.

(** X12: [predict] unpacks [frame.shape] into three names: a frame
    whose shape has another number of dimensions raises [ValueError]
    before anything is read or changed. *)
Theorem predict_rejects_frame_rank : forall (frame : tensor Z) (s : @YOLOv4 F),
  length (shape frame) <> 3 ->
  predict resize_image yolo_diou_nms fit_to_original _yolo_layer frame s
    = (s, inl ValueError).
Proof.
  intros frame s Hr. unfold predict.
  destruct (shape frame) as [|h [|w [|c [|? ?]]]]; try reflexivity.
  cbn [length] in Hr. lia.
Qed.

(** X13: on a frame of three dimensions, an error of [resize_image] is
    the error of [predict]: it is raised before the interpreter is used,
    and the detector is left as it was. *)
Theorem predict_resize_error :
  forall (frame : tensor Z) (s : @YOLOv4 F) h w c e,
  shape frame = [h; w; c] ->
  resize_image (config s) frame = inl e ->
  predict resize_image yolo_diou_nms fit_to_original _yolo_layer frame s
    = (s, inl e).
Proof.
  intros frame s h w c e Hs He.
  unfold predict. rewrite Hs, bind_ret, bind_gets.
  apply bind_inl. unfold lift. now rewrite He.
Qed.

End Predict.
End TFLiteErrors.

(** ** Candidate aggregation on buffers *)

Module AggregateFacts.
Import Tensor TensorFacts YOLOv4Facts TFLite TFLiteFacts TFLiteErrors.

Section WithFloat.
Context {F : Type} `{Float32 F}.
Variable _yolo_layer : tensor F -> tensor F -> tensor F -> F -> tensor F.

(** Rows of a batch of one, read from the concatenated buffers. *)
Lemma pick_rows_concat : forall (ts : list (tensor F)) c r col,
  Forall (fun t => exists n, shape t = [1; n; c] /\ wf t) ts ->
  r < list_sum (map (fun t => nth 1 (shape t) 0) ts) -> col < c ->
  pick_rows ts 0 r col = nth (r * c + col) (concat (map data ts)) default.
Proof.
  induction ts as [|t rest IH]; intros c r col Hall Hr Hcol.
  - cbn in Hr. lia.
  - pose proof (Forall_inv Hall) as (n & Hs & Hwf).
    pose proof (Forall_inv_tail Hall) as Hrest.
    cbn [pick_rows map concat list_sum fold_right] in *.
    rewrite Hs in *. cbn [nth] in *.
    assert (Hlen : length (data t) = n * c).
    { unfold wf in Hwf. rewrite Hwf, Hs. cbn [size fold_right]. lia. }
    destruct (Nat.ltb_spec r n) as [Hlt|Hge].
    + unfold get. rewrite Hs. cbn [ravel size fold_right].
      replace (0 * (n * (c * 1)) + (r * (c * 1) + (col * 1 + 0)))
        with (r * c + col) by lia.
      assert (r * c + col < n * c)
        by (apply Nat.lt_le_trans with ((r + 1) * c); [lia | nia]).
      rewrite app_nth1 by (rewrite Hlen; lia). reflexivity.
    + assert (n * c <= r * c + col) by nia.
      rewrite IH with (c := c) by (auto; unfold list_sum; lia).
      rewrite app_nth2 by (rewrite Hlen; lia). f_equal. rewrite Hlen. nia.
Qed.

Lemma unravel_batch1 : forall n c k, k < n * c -> 0 < c ->
  unravel [1; n; c] k = [0; k / c; k mod c].
Proof.
  intros n c k Hk Hc. cbn [unravel size fold_right].
  rewrite !Nat.mul_1_r, Nat.div_1_r.
  rewrite (Nat.div_small k (n * c)), (Nat.mod_small k (n * c)) by lia.
  reflexivity.
Qed.

Lemma concat_axis1_batch1 : forall (ts : list (tensor F)) c,
  ts <> [] -> 0 < c ->
  Forall (fun t => exists n, shape t = [1; n; c] /\ wf t) ts ->
  exists out,
    concat_axis1 ts = Some out
    /\ shape out = [1; list_sum (map (fun t => nth 1 (shape t) 0) ts); c]
    /\ data out = concat (map data ts).
Proof.
  intros ts c Hne Hc Hall.
  destruct ts as [|t0 rest]; [congruence|].
  pose proof (Forall_inv Hall) as (n0 & Hs0 & Hw0).
  unfold concat_axis1. rewrite Hs0.
  assert (Hf : forallb (fun t : tensor F =>
                          match shape t with
                          | [b'; _; c'] => (b' =? 1) && (c' =? c)
                          | _ => false
                          end) (t0 :: rest) = true).
  { apply forallb_forall. intros t Ht. rewrite Forall_forall in Hall.
    destruct (Hall t Ht) as (n & Hs & _). rewrite Hs.
    now rewrite !Nat.eqb_refl. }
  rewrite Hf. eexists. split; [reflexivity|]. split; [reflexivity|].
  set (N := list_sum (map (fun t => nth 1 (shape t) 0) (t0 :: rest))).
  assert (Hlen : length (concat (map data (t0 :: rest))) = N * c).
  { unfold N. clear Hf Hs0 Hw0 Hne. unfold list_sum.
    induction Hall as [|t l Ht Hl IHl].
    - reflexivity.
    - destruct Ht as (n & Hs & Hwf). cbn [map concat fold_right].
      rewrite length_app, IHl, Hs. cbn [nth].
      unfold wf in Hwf. rewrite Hwf, Hs. cbn [size fold_right]. lia. }
  unfold tabulate. cbn [data].
  apply nth_ext with (d := default) (d' := default).
  - rewrite length_map, length_seq, Hlen. cbn [size fold_right]. lia.
  - intros k Hk. rewrite length_map, length_seq in Hk.
    cbn [size fold_right] in Hk.
    rewrite nth_map_seq by exact Hk.
    rewrite unravel_batch1 by lia. cbn [nth].
    rewrite pick_rows_concat with (c := c); auto.
    + f_equal. rewrite (Nat.div_mod_eq k c) at 3. lia.
    + fold N. apply Nat.Div0.div_lt_upper_bound. lia.
    + apply Nat.mod_upper_bound. lia.
Qed.

Lemma reshape_1_infer_divisible : forall (y : tensor F) st,
  0 < st -> length (data y) mod st = 0 ->
  reshape_1_infer y st = Some (mk [1; length (data y) / st; st] (data y)).
Proof.
  intros y st Hst Hm. unfold reshape_1_infer. cbv zeta.
  destruct (Nat.eqb_spec st 0); [lia|]. now rewrite Hm.
Qed.

Lemma reshape_1_infer_indivisible : forall (y : tensor F) st,
  length (data y) mod st <> 0 -> reshape_1_infer y st = None.
Proof.
  intros y st Hm. unfold reshape_1_infer. cbv zeta.
  destruct (st =? 0); [reflexivity|].
  destruct (Nat.eqb_spec (length (data y) mod st) 0); [contradiction|].
  reflexivity.
Qed.

Lemma map_m_reshape_ok : forall (yolos : list (tensor F)) st (s : @YOLOv4 F),
  0 < st -> Forall (fun y => length (data y) mod st = 0) yolos ->
  map_m (fun y => np_reshape_1_infer y st) yolos s
  = (s, inr (map (fun y => mk [1; length (data y) / st; st] (data y)) yolos)).
Proof.
  intros yolos st s Hst Hall. induction Hall as [|y l Hy Hl IH].
  - reflexivity.
  - cbn [map_m map]. unfold np_reshape_1_infer at 1.
    rewrite (reshape_1_infer_divisible _ Hst Hy), bind_or_raise_some.
    unfold bind at 1. rewrite IH. reflexivity.
Qed.

Lemma map_m_reshape_bad : forall (yolos : list (tensor F)) st (s : @YOLOv4 F),
  Exists (fun y => length (data y) mod st <> 0) yolos ->
  map_m (fun y => np_reshape_1_infer y st) yolos s = (s, inl ValueError).
Proof.
  intros yolos st s Hex. induction Hex as [y l Hy | y l Hl IH].
  - cbn [map_m]. unfold np_reshape_1_infer at 1.
    now rewrite (@reshape_1_infer_indivisible y st Hy).
  - cbn [map_m]. unfold np_reshape_1_infer at 1.
    destruct (reshape_1_infer y st) as [t|]; [|reflexivity].
    rewrite bind_or_raise_some. unfold bind at 1. now rewrite IH.
Qed.

(** The aggregated tensor without TPU, in closed form. *)
Lemma aggregate_cpu_run :
  forall (s : @YOLOv4 F) meta (yolos : list (tensor F)),
  _tpu s = Some false ->
  yolo_0 (config s) = Some meta ->
  let stride := 5 + classes meta in
  yolos <> [] ->
  Forall (fun y => length (data y) mod stride = 0) yolos ->
  aggregate _yolo_layer yolos s
  = (s, inr (mk [1; list_sum (map (fun y => length (data y) / stride) yolos);
                 stride]
                (concat (map data yolos)))).
Proof.
  intros s meta yolos Htpu Hmeta stride Hne Hall.
  assert (Hst : 0 < stride) by (unfold stride; lia).
  set (ts := map (fun y => mk [1; length (data y) / stride; stride] (data y))
                 yolos).
  destruct (@concat_axis1_batch1 ts stride) as (out & Hc & Hs & Hd).
  - unfold ts. destruct yolos; [congruence | discriminate].
  - exact Hst.
  - unfold ts. apply Forall_map. eapply Forall_impl; [|exact Hall].
    intros y Hy. cbn [shape data]. eexists. split; [reflexivity|].
    unfold wf. cbn [shape data size fold_right].
    pose proof (Nat.div_mod_eq (length (data y)) stride) as Hdm.
    cbv beta in Hy. rewrite Hy in Hdm. lia.
  - unfold aggregate.
    rewrite (@bind_attr _ _ _ "_tpu"%string _tpu false _ _ Htpu), bind_gets.
    rewrite Hmeta. unfold bind at 1. unfold bind at 1.
    cbn [or_raise ret]. fold stride.
    rewrite (map_m_reshape_ok s Hst Hall). fold ts.
    unfold np_concatenate_axis1. rewrite Hc. cbn [or_raise ret].
    unfold ret. do 2 f_equal. destruct out as [sh dt]. cbn [shape data] in *.
    subst sh dt. unfold ts. now rewrite !map_map.
Qed.

Lemma length_concat_rows : forall (yolos : list (tensor F)) st,
  Forall (fun y => length (data y) mod st = 0) yolos ->
  length (concat (map data yolos))
  = list_sum (map (fun y => length (data y) / st) yolos) * st.
Proof.
  intros yolos st Hall. induction Hall as [|y l Hy Hl IH].
  - reflexivity.
  - cbn [map concat list_sum fold_right]. rewrite length_app, IH.
    pose proof (Nat.div_mod_eq (length (data y)) st) as Hdm.
    cbv beta in Hy. rewrite Hy in Hdm. unfold list_sum. nia.
Qed.

(** X14: without TPU, [_predict] aggregates the output buffers as they
    are: when there is at least one output and the length of each is a
    multiple of [5 + classes], the result holds the buffers one after the
    other, in output order, as [(1, N, 5 + classes)] with [N] the total
    number of rows. *)
Theorem aggregate_concatenates_buffers :
  forall (s : @YOLOv4 F) meta (yolos : list (tensor F)),
  _tpu s = Some false ->
  yolo_0 (config s) = Some meta ->
  let stride := 5 + classes meta in
  yolos <> [] ->
  Forall (fun y => length (data y) mod stride = 0) yolos ->
  exists out,
    aggregate _yolo_layer yolos s = (s, inr out)
    /\ data out = concat (map data yolos)
    /\ shape out
       = [1; list_sum (map (fun y => length (data y) / stride) yolos); stride].
Proof.
  intros s meta yolos Htpu Hmeta stride Hne Hall.
  eexists. split.
  - apply (@aggregate_cpu_run s meta yolos Htpu Hmeta Hne Hall).
  - split; reflexivity.
Qed.

(** X15: without TPU, the aggregation raises [ValueError], and changes
    nothing, when there is no output tensor or when the length of some
    output is not a multiple of [5 + classes]. *)
Theorem aggregate_value_errors :
  forall (s : @YOLOv4 F) meta (yolos : list (tensor F)),
  _tpu s = Some false ->
  yolo_0 (config s) = Some meta ->
  yolos = []
  \/ Exists (fun y => length (data y) mod (5 + classes meta) <> 0) yolos ->
  aggregate _yolo_layer yolos s = (s, inl ValueError).
Proof.
  intros s meta yolos Htpu Hmeta Hbad.
  unfold aggregate.
  rewrite (@bind_attr _ _ _ "_tpu"%string _tpu false _ _ Htpu), bind_gets.
  rewrite Hmeta. unfold bind at 1. unfold bind at 1. cbn [or_raise ret].
  destruct Hbad as [-> | Hex].
  - reflexivity.
  - now rewrite (@map_m_reshape_bad yolos _ s Hex).
Qed.

Lemma map_m_ext_in : forall {X Y} (f g : X -> M (@YOLOv4 F) Y) xs,
  (forall x, In x xs -> forall s, f x s = g x s) ->
  forall s, map_m f xs s = map_m g xs s.
Proof.
  intros X Y f g xs. induction xs as [|x xs IH]; intros Hfg s.
  - reflexivity.
  - cbn [map_m]. unfold bind at 1 3.
    rewrite (Hfg x) by (left; reflexivity).
    destruct (g x s) as [s1 [e|y]]; [reflexivity|].
    unfold bind at 1 2. rewrite IH; [reflexivity|].
    intros x' Hx'. apply Hfg. right; exact Hx'.
Qed.

(** X16: with TPU, the outputs are read in pairs: an output left over
    after the last pair is never read. *)
Theorem aggregate_tpu_ignores_unpaired_output :
  forall (s : @YOLOv4 F) (yolos : list (tensor F)) extra n,
  _tpu s = Some true ->
  length yolos = 2 * n ->
  aggregate _yolo_layer (yolos ++ [extra]) s
  = aggregate _yolo_layer yolos s.
Proof.
  intros s yolos extra n Htpu Hlen.
  unfold aggregate.
  rewrite !(@bind_attr _ _ _ "_tpu"%string _tpu true _ _ Htpu), !bind_gets.
  cbv iota.
  assert (Hn1 : length (yolos ++ [extra]) / 2 = n).
  { rewrite length_app, Hlen. cbn [length].
    symmetry. apply Nat.div_unique with (r := 1); lia. }
  assert (Hn2 : length yolos / 2 = n).
  { rewrite Hlen. rewrite Nat.mul_comm. apply Nat.div_mul. lia. }
  rewrite Hn1, Hn2.
  unfold bind at 1. unfold bind at 1.
  unfold bind at 9. unfold bind at 9.
  rewrite (@map_m_ext_in _ _ _
             (fun i =>
                bind (or_raise IndexError (nth_error yolos (2 * i)))
                  (fun y0 =>
                     bind (or_raise IndexError (nth_error yolos (2 * i + 1)))
                       (fun y1 =>
                          bind (gets _anhcors)
                            (fun anchors =>
                               bind (or_raise IndexError (nth_error anchors i))
                                 (fun a =>
                                    bind (gets _scale_x_y)
                                      (fun scales =>
                                         bind (or_raise IndexError
                                                 (nth_error scales i))
                                           (fun sc =>
                                              ret (_yolo_layer y0 y1 a sc))))))))
             (seq 0 n)).
  - reflexivity.
  - intros i Hi s'. apply in_seq in Hi.
    rewrite !nth_error_app1 by lia. reflexivity.
Qed.

End WithFloat.
End AggregateFacts.

(** ** The anchors, scales and [beta_nms] that [load_tflite] stores *)

Module StoredFacts.
Import Tensor TensorFacts TFLite TFLiteFacts TFLiteErrors Stored.

Local Abbreviation mask_body cfg meta i :=
  (fun jn : nat * nat =>
     let (j, n) := jn in
     bind (or_raise IndexError (nth_error (m_anchors meta) n)) (fun a =>
     bind (int_div (fst a) (width (net cfg))) (fun v =>
     bind (set_anchor i j 0 v) (fun _ =>
     bind (or_raise IndexError (nth_error (m_anchors meta) n)) (fun a =>
     bind (int_div (snd a) (height (net cfg))) (fun v =>
     set_anchor i j 1 v)))))).

Local Abbreviation layer_body cfg layer_type :=
  (fun i : nat =>
    bind (lift (find_metalayer cfg layer_type i)) (fun metayolo =>
    bind (modify (set_beta_nms (beta_nms metayolo))) (fun _ =>
    bind (modify (fun s => set_anhcors
                    (_anhcors s ++ [zeros2 (length (mask metayolo))]) s))
         (fun _ =>
    bind (modify (fun s => set_scale_x_y
                    (_scale_x_y s ++ [scale_x_y metayolo]) s)) (fun _ =>
    for_each (enumerate (mask metayolo)) (mask_body cfg metayolo i)))))).


Section WithFloat.
Context {F : Type} `{Float32 F}.

Lemma list_set_app : forall {X} (l1 : list X) x l2 v,
  list_set (l1 ++ x :: l2) (length l1) v = l1 ++ v :: l2.
Proof.
  intros X l1 x l2 v. induction l1 as [|y l1 IH]; cbn [app length list_set].
  - reflexivity.
  - now rewrite IH.
Qed.

Lemma set_anchor_run : forall (s : @YOLOv4 F) pre m done x rest i j c v,
  _anhcors s = pre ++ [mk [m; 2] (done ++ x :: rest)] ->
  i = length pre -> length done = 2 * j + c -> c < 2 ->
  set_anchor i j c v s
  = (set_anhcors (pre ++ [mk [m; 2] (done ++ v :: rest)]) s, inr tt).
Proof.
  intros s pre m done x rest i j c v Ha -> Hd Hc.
  unfold set_anchor. rewrite bind_gets, Ha.
  replace (nth_error (pre ++ [mk [m; 2] (done ++ x :: rest)]) (length pre))
    with (Some (mk [m; 2] (done ++ x :: rest)))
    by (rewrite nth_error_app2, Nat.sub_diag by lia; reflexivity).
  rewrite bind_or_raise_some. unfold modify. f_equal. f_equal.
  rewrite list_set_app. f_equal. f_equal.
  unfold tset. cbn [shape data ravel size fold_right].
  replace (j * (2 * 1) + (c * 1 + 0)) with (length done) by lia.
  now rewrite list_set_app.
Qed.

Lemma set_anhcors_same : forall (s : @YOLOv4 F) a,
  _anhcors s = a -> set_anhcors a s = s.
Proof. intros [] a; cbn. now intros <-. Qed.

Lemma set_anhcors_twice : forall (s : @YOLOv4 F) a b,
  set_anhcors a (set_anhcors b s) = set_anhcors a s.
Proof. reflexivity. Qed.

Lemma int_div_run : forall a b (s : @YOLOv4 F),
  b <> 0%Z -> int_div a b s = (s, inr (f_div (f_of_Z a) (f_of_Z b))).
Proof.
  intros a b s Hb. unfold int_div.
  destruct (Z.eqb_spec b 0); [contradiction | reflexivity].
Qed.

Lemma for_each_app : forall {S X} (xs ys : list X) (body : X -> M S unit) s,
  for_each (xs ++ ys) body s
  = bind (for_each xs body) (fun _ => for_each ys body) s.
Proof.
  intros S X xs ys body. induction xs as [|x xs IH]; intros s.
  - reflexivity.
  - cbn [app for_each]. unfold bind.
    destruct (body x s) as [s' [e|u]]; [reflexivity|].
    rewrite IH. reflexivity.
Qed.

Lemma combine_app_same : forall {A B} (l1 l1' : list A) (l2 l2' : list B),
  length l1 = length l2 ->
  combine (l1 ++ l1') (l2 ++ l2') = combine l1 l2 ++ combine l1' l2'.
Proof.
  intros A B l1. induction l1 as [|a l1 IH]; intros l1' [|b l2] l2' Hl;
    try discriminate; cbn [app combine].
  - reflexivity.
  - rewrite IH by now injection Hl. reflexivity.
Qed.

(** The inner loop over [enumerate(metayolo.mask)], started at row [j0];
    the rows after those of [ns] are left as they are. *)
Lemma inner_loop_run : forall cfg meta i ns j0 (s : @YOLOv4 F) pre m done tail,
  _anhcors s
    = pre ++ [mk [m; 2] (done ++ repeat (f_of_Z 0) (2 * length ns) ++ tail)] ->
  i = length pre -> length done = 2 * j0 ->
  Forall (fun n => n < length (m_anchors meta)) ns ->
  width (net cfg) <> 0%Z -> height (net cfg) <> 0%Z ->
  for_each (combine (seq j0 (length ns)) ns) (mask_body cfg meta i) s
  = (set_anhcors
       (pre ++ [mk [m; 2]
                  (done ++ flat_map (normalized_anchor cfg meta) ns ++ tail)])
       s, inr tt).
Proof.
  intros cfg meta i ns. induction ns as [|n ns IH];
    intros j0 s pre m done tail Ha Hi Hd Hall Hw Hh.
  - cbn [length seq combine for_each flat_map app]. unfold ret.
    cbn [length Nat.mul repeat app] in Ha.
    now rewrite set_anhcors_same.
  - pose proof (Forall_inv Hall) as Hn. cbv beta in Hn.
    pose proof (Forall_inv_tail Hall) as Hns.
    cbn [length seq combine for_each flat_map].
    cbn [length] in Ha.
    replace (2 * S (length ns)) with (S (S (2 * length ns))) in Ha by lia.
    cbn [repeat app] in Ha.
    destruct (nth_error (m_anchors meta) n) as [a|] eqn:Ea;
      [|apply nth_error_None in Ea; lia].
    assert (Hnth : nth n (m_anchors meta) (0, 0)%Z = a)
      by (apply nth_error_nth; exact Ea).
    set (v0 := f_div (f_of_Z (fst a)) (f_of_Z (width (net cfg)))).
    set (v1 := f_div (f_of_Z (snd a)) (f_of_Z (height (net cfg)))).
    set (zs := repeat (f_of_Z 0) (2 * length ns) ++ tail) in *.
    set (s1 := set_anhcors
                 (pre ++ [mk [m; 2] (done ++ v0 :: f_of_Z 0 :: zs)]) s).
    set (s2 := set_anhcors
                 (pre ++ [mk [m; 2] ((done ++ [v0]) ++ v1 :: zs)]) s1).
    assert (Ha1 : _anhcors s1
              = pre ++ [mk [m; 2] ((done ++ [v0]) ++ f_of_Z 0 :: zs)]).
    { unfold s1. destruct s. cbn [_anhcors set_anhcors].
      now rewrite <- app_assoc. }
    match goal with
    | |- bind ?body _ _ = _ => assert (Hbody : body s = (s2, inr tt))
    end.
    { rewrite bind_or_raise_some.
      unfold bind at 1. rewrite int_div_run by exact Hw. cbv beta iota.
      fold v0. unfold bind at 1.
      rewrite (@set_anchor_run s pre m done _ _ i j0 0 v0 Ha Hi) by lia.
      fold s1. cbv beta iota.
      rewrite bind_or_raise_some.
      unfold bind at 1. rewrite int_div_run by exact Hh. cbv beta iota.
      fold v1.
      rewrite (@set_anchor_run s1 pre m _ _ _ i j0 1 v1 Ha1 Hi)
        by (rewrite ?length_app; cbn [length]; lia).
      reflexivity. }
    unfold bind at 1. rewrite Hbody.
    rewrite (IH (S j0) s2 pre m (done ++ [v0; v1]) tail).
    + unfold s2, s1. rewrite !set_anhcors_twice.
      replace (normalized_anchor cfg meta n) with [v0; v1]
        by (unfold normalized_anchor, v0, v1; cbv zeta; now rewrite Hnth).
      cbn [app]. now rewrite <- !app_assoc.
    + unfold s2. destruct s1. cbn [_anhcors set_anhcors].
      now rewrite <- !app_assoc.
    + exact Hi.
    + rewrite length_app. cbn [length]. lia.
    + exact Hns.
    + exact Hw.
    + exact Hh.
Qed.

(** The inner loop on a mask whose entry [bad] names no anchor. *)
Lemma inner_loop_bad_index : forall cfg meta i ok bad more (s : @YOLOv4 F) pre,
  mask meta = ok ++ bad :: more ->
  _anhcors s = pre ++ [zeros2 (length (mask meta))] ->
  i = length pre ->
  Forall (fun n => n < length (m_anchors meta)) ok ->
  length (m_anchors meta) <= bad ->
  width (net cfg) <> 0%Z -> height (net cfg) <> 0%Z ->
  for_each (enumerate (mask meta)) (mask_body cfg meta i) s
  = (set_anhcors
       (pre ++ [mk [length (mask meta); 2]
                  (flat_map (normalized_anchor cfg meta) ok
                   ++ repeat (f_of_Z 0) (2 * S (length more)))])
       s, inl IndexError).
Proof.
  intros cfg meta i ok bad more s pre Hmask Ha Hi Hok Hbad Hw Hh.
  unfold enumerate. rewrite Hmask at 1 2.
  rewrite length_app, seq_app.
  rewrite combine_app_same by now rewrite length_seq.
  rewrite for_each_app. unfold bind at 1.
  rewrite (@inner_loop_run cfg meta i ok 0 s pre (length (mask meta)) []
             (repeat (f_of_Z 0) (2 * S (length more)))).
  - cbn [length seq combine for_each Nat.add].
    replace (nth_error (m_anchors meta) bad) with (@None (Z * Z))
      by (symmetry; now apply nth_error_None).
    reflexivity.
  - rewrite Ha. unfold zeros2. rewrite Hmask at 2.
    rewrite length_app. cbn [length app].
    rewrite <- repeat_app. do 4 f_equal. lia.
  - exact Hi.
  - reflexivity.
  - exact Hok.
  - exact Hw.
  - exact Hh.
Qed.

(** The loop over the yolo layers [i0 .. i0 + k - 1], started with [i0]
    arrays already in [self._anhcors]. *)
Lemma layer_loop_run : forall cfg layer_type metas k i0 (s : @YOLOv4 F),
  length (_anhcors s) = i0 ->
  (forall i, i0 <= i < i0 + k ->
     find_metalayer cfg layer_type i = inr (metas i)
     /\ Forall (fun n => n < length (m_anchors (metas i))) (mask (metas i))) ->
  width (net cfg) <> 0%Z -> height (net cfg) <> 0%Z ->
  for_each (seq i0 k) (layer_body cfg layer_type) s
  = (mkYOLOv4 (config s) (_tpu s) (_interpreter s) (_input_details s)
       (_input_float s) (_output_details s)
       (_anhcors s ++ map (fun i => layer_anchors cfg (metas i)) (seq i0 k))
       (_scale_x_y s ++ map (fun i => scale_x_y (metas i)) (seq i0 k))
       (last_beta metas i0 k (_beta_nms s)), inr tt).
Proof.
  intros cfg layer_type metas k. induction k as [|k IH];
    intros i0 s Hlen Hmeta Hw Hh.
  - cbn [seq for_each map last_beta]. unfold ret.
    destruct s. cbn. now rewrite !app_nil_r.
  - destruct (Hmeta i0 ltac:(lia)) as [Hfind Hmask].
    cbn [seq for_each].
    match goal with
    | |- bind ?body _ _ = _ =>
        assert (Hbody : body s
          = (mkYOLOv4 (config s) (_tpu s) (_interpreter s) (_input_details s)
               (_input_float s) (_output_details s)
               (_anhcors s ++ [layer_anchors cfg (metas i0)])
               (_scale_x_y s ++ [scale_x_y (metas i0)])
               (Some (beta_nms (metas i0))), inr tt))
    end.
    { rewrite (bind_lift_inr _ _ Hfind).
      rewrite bind_modify, bind_modify, bind_modify.
      unfold enumerate.
      rewrite (@inner_loop_run cfg (metas i0) i0 (mask (metas i0)) 0 _
                 (_anhcors s) (length (mask (metas i0))) [] []).
      - destruct s. cbn. unfold layer_anchors. now rewrite app_nil_r.
      - destruct s. cbn. unfold zeros2.
        now rewrite Nat.mul_comm, app_nil_r.
      - destruct s. cbn in *. lia.
      - reflexivity.
      - exact Hmask.
      - exact Hw.
      - exact Hh. }
    unfold bind at 1. rewrite Hbody.
    rewrite (IH (S i0)); cbn [_anhcors].
    + cbn [config _tpu _interpreter _input_details _input_float
           _output_details _anhcors _scale_x_y _beta_nms map].
      rewrite <- !app_assoc. cbn [app].
      replace (last_beta metas (S i0) k (Some (beta_nms (metas i0))))
        with (last_beta metas i0 (S k) (_beta_nms s)); [reflexivity|].
      destruct k as [|k']; cbn [last_beta].
      * now rewrite Nat.add_0_r.
      * now rewrite Nat.add_succ_r.
    + rewrite length_app. cbn [length]. lia.
    + intros i Hi. apply Hmeta. lia.
    + exact Hw.
    + exact Hh.
Qed.

(** [read_yolo_layers] up to its loop. *)
Lemma read_yolo_layers_loop : forall (s : @YOLOv4 F) it tpu n,
  _interpreter s = Some it -> _tpu s = Some tpu ->
  let layer_type := if tpu : bool then "yolo_tpu"%string else "yolo"%string in
  dict_get (layer_count (config s)) layer_type = Some n ->
  read_yolo_layers s
  = for_each (seq 0 n) (layer_body (config s) layer_type)
      (mkYOLOv4 (config s) (_tpu s) (_interpreter s) (_input_details s)
         (_input_float s) (Some (output_details it)) [] [] (_beta_nms s)).
Proof.
  intros s it tpu n Hit Htpu layer_type Hn.
  unfold read_yolo_layers.
  rewrite (@bind_attr _ _ _ "_interpreter"%string _interpreter it _ _ Hit).
  rewrite bind_modify.
  rewrite (@bind_attr _ _ _ "_tpu"%string _tpu tpu _ _)
    by (destruct s; exact Htpu).
  cbv zeta. fold layer_type.
  rewrite bind_modify, bind_modify, bind_gets.
  replace (config (set_scale_x_y [] (set_anhcors []
             (set_output_details (output_details it) s))))
    with (config s) by (now destruct s).
  rewrite Hn, bind_or_raise_some.
  destruct s. reflexivity.
Qed.

End WithFloat.

Section Load.
Context {F : Type} `{Float32 F}.
Variable load_delegate : string -> exn + string.
Variable tflite_Interpreter : string -> list string -> exn + Interpreter (F := F).
Variable allocate_tensors : Interpreter (F := F) -> exn + Interpreter (F := F).

Lemma create_interpreter_run : forall path lib (s : @YOLOv4 F) n_tpu it,
  dict_get (layer_count (config s)) "yolo_tpu" = Some n_tpu ->
  created load_delegate tflite_Interpreter allocate_tensors path lib
    n_tpu it ->
  create_interpreter load_delegate tflite_Interpreter allocate_tensors
    path lib s
  = (set_interpreter it (set_tpu (0 <? n_tpu) s), inr tt).
Proof.
  intros path lib s n_tpu it Hcnt (it0 & Hmk & Hal).
  destruct s as [cfg tpu itp idt ifl odt anh scl beta].
  cbn [config] in Hcnt.
  unfold create_interpreter. run_py. rewrite Hcnt. run_py.
  destruct (0 <? n_tpu).
  - destruct Hmk as (d & Hd & Hi). rewrite Hd. run_py. rewrite Hi. run_py.
    rewrite Hal. run_py. reflexivity.
  - rewrite Hmk. run_py. rewrite Hal. run_py. reflexivity.
Qed.

(** [load_tflite] up to the loop over the yolo layers, when the
    interpreter is created and its input has the configured shape. *)
Lemma load_tflite_loop :
  forall path lib (s : @YOLOv4 F) n_tpu it d rest nb h w c n,
  let layer_type := if 0 <? n_tpu then "yolo_tpu"%string else "yolo"%string in
  dict_get (layer_count (config s)) "yolo_tpu" = Some n_tpu ->
  created load_delegate tflite_Interpreter allocate_tensors path lib
    n_tpu it ->
  input_details it = d :: rest -> d_shape d = [nb; h; w; c] ->
  input_shape (net (config s)) = [h; w; c] ->
  dict_get (layer_count (config s)) layer_type = Some n ->
  load_tflite load_delegate tflite_Interpreter allocate_tensors path lib s
  = for_each (seq 0 n) (layer_body (config s) layer_type)
      (mkYOLOv4 (config s) (Some (0 <? n_tpu)) (Some it) (Some d)
         (Some (is_float32 (d_dtype d))) (Some (output_details it))
         [] [] (_beta_nms s)).
Proof.
  intros path lib s n_tpu it d rest nb h w c n layer_type
    Hcnt Hcr Hin Hds Hcs Hn.
  unfold load_tflite.
  unfold bind at 1.
  rewrite (@create_interpreter_run path lib s n_tpu it Hcnt Hcr).
  set (s1 := set_interpreter it (set_tpu (0 <? n_tpu) s)).
  assert (Hck : check_input_details s1
            = (set_input_float (is_float32 (d_dtype d))
                 (set_input_details d s1), inr tt)).
  { rewrite (@check_input_details_spec _ s1 it d rest nb h w c h w c)
      by (try reflexivity; try assumption; now destruct s).
    now rewrite !Z.eqb_refl. }
  unfold bind at 1. rewrite Hck.
  set (s2 := set_input_float _ _).
  rewrite (@read_yolo_layers_loop _ _ s2 it (0 <? n_tpu) n);
    try (destruct s; reflexivity || assumption).
Qed.

(** X17: when the interpreter is created, the input has the configured
    shape, every yolo layer is found and every mask entry names an anchor,
    [load_tflite] returns, on a network of non-zero width and height, with
    one anchor array and one scale per layer, in layer order, whatever
    [_anhcors] and [_scale_x_y] held before: row [j] of array [i] is
    anchor [mask[j]] of layer [i] divided by the network width and height.
    [_beta_nms] is that of the last layer, and is left as it was when
    there is no layer. *)
Theorem load_tflite_stores_anchor_fractions :
  forall path lib (s : @YOLOv4 F) n_tpu it d rest nb h w c n metas,
  let layer_type := if 0 <? n_tpu then "yolo_tpu"%string else "yolo"%string in
  dict_get (layer_count (config s)) "yolo_tpu" = Some n_tpu ->
  created load_delegate tflite_Interpreter allocate_tensors path lib
    n_tpu it ->
  input_details it = d :: rest -> d_shape d = [nb; h; w; c] ->
  input_shape (net (config s)) = [h; w; c] ->
  dict_get (layer_count (config s)) layer_type = Some n ->
  (forall i, i < n ->
     find_metalayer (config s) layer_type i = inr (metas i)
     /\ Forall (fun a => a < length (m_anchors (metas i))) (mask (metas i))) ->
  width (net (config s)) <> 0%Z -> height (net (config s)) <> 0%Z ->
  load_tflite load_delegate tflite_Interpreter allocate_tensors path lib s
  = (mkYOLOv4 (config s) (Some (0 <? n_tpu)) (Some it) (Some d)
       (Some (is_float32 (d_dtype d))) (Some (output_details it))
       (map (fun i => layer_anchors (config s) (metas i)) (seq 0 n))
       (map (fun i => scale_x_y (metas i)) (seq 0 n))
       (last_beta metas 0 n (_beta_nms s)), inr tt).
Proof.
  intros path lib s n_tpu it d rest nb h w c n metas layer_type
    Hcnt Hcr Hin Hds Hcs Hn Hmeta Hw Hh.
  rewrite (@load_tflite_loop path lib s n_tpu it d rest nb h w c n
             Hcnt Hcr Hin Hds Hcs Hn).
  rewrite (@layer_loop_run _ _ (config s) layer_type metas n 0);
    try reflexivity; try assumption.
  intros i Hi. apply Hmeta. lia.
Qed.

(** X18: when [find_metalayer] fails on layer [i], [load_tflite] stops
    with that error and a detector that holds the interpreter, the input
    details and the anchors and scales of the [i] layers before. *)
Theorem load_tflite_layer_lookup_error :
  forall path lib (s : @YOLOv4 F) n_tpu it d rest nb h w c n metas i e,
  let layer_type := if 0 <? n_tpu then "yolo_tpu"%string else "yolo"%string in
  dict_get (layer_count (config s)) "yolo_tpu" = Some n_tpu ->
  created load_delegate tflite_Interpreter allocate_tensors path lib
    n_tpu it ->
  input_details it = d :: rest -> d_shape d = [nb; h; w; c] ->
  input_shape (net (config s)) = [h; w; c] ->
  dict_get (layer_count (config s)) layer_type = Some n ->
  i < n ->
  (forall k, k < i ->
     find_metalayer (config s) layer_type k = inr (metas k)
     /\ Forall (fun a => a < length (m_anchors (metas k))) (mask (metas k))) ->
  find_metalayer (config s) layer_type i = inl e ->
  width (net (config s)) <> 0%Z -> height (net (config s)) <> 0%Z ->
  load_tflite load_delegate tflite_Interpreter allocate_tensors path lib s
  = (mkYOLOv4 (config s) (Some (0 <? n_tpu)) (Some it) (Some d)
       (Some (is_float32 (d_dtype d))) (Some (output_details it))
       (map (fun k => layer_anchors (config s) (metas k)) (seq 0 i))
       (map (fun k => scale_x_y (metas k)) (seq 0 i))
       (last_beta metas 0 i (_beta_nms s)), inl e).
Proof.
  intros path lib s n_tpu it d rest nb h w c n metas i e layer_type
    Hcnt Hcr Hin Hds Hcs Hn Hi Hmeta Hfind Hw Hh.
  subst layer_type.
  rewrite (@load_tflite_loop path lib s n_tpu it d rest nb h w c n
             Hcnt Hcr Hin Hds Hcs Hn).
  replace n with (i + S (n - S i)) by lia.
  rewrite seq_app, for_each_app. unfold bind at 1.
  rewrite (@layer_loop_run _ _ (config s) _ metas i 0);
    try reflexivity; try assumption.
  - cbn [seq for_each Nat.add]. unfold bind, lift.
    now rewrite Hfind.
  - intros k Hk. apply Hmeta. lia.
Qed.

(** X19: when the mask of layer [i] names an anchor that the layer does
    not have, [load_tflite] raises [IndexError]; the anchor array of
    layer [i] is left with the rows of the mask entries before the bad
    one, and zeros after them. *)
Theorem load_tflite_mask_index_error :
  forall path lib (s : @YOLOv4 F) n_tpu it d rest nb h w c n metas i
         ok bad more,
  let layer_type := if 0 <? n_tpu then "yolo_tpu"%string else "yolo"%string in
  dict_get (layer_count (config s)) "yolo_tpu" = Some n_tpu ->
  created load_delegate tflite_Interpreter allocate_tensors path lib
    n_tpu it ->
  input_details it = d :: rest -> d_shape d = [nb; h; w; c] ->
  input_shape (net (config s)) = [h; w; c] ->
  dict_get (layer_count (config s)) layer_type = Some n ->
  i < n ->
  (forall k, k < i ->
     find_metalayer (config s) layer_type k = inr (metas k)
     /\ Forall (fun a => a < length (m_anchors (metas k))) (mask (metas k))) ->
  find_metalayer (config s) layer_type i = inr (metas i) ->
  mask (metas i) = ok ++ bad :: more ->
  Forall (fun a => a < length (m_anchors (metas i))) ok ->
  length (m_anchors (metas i)) <= bad ->
  width (net (config s)) <> 0%Z -> height (net (config s)) <> 0%Z ->
  load_tflite load_delegate tflite_Interpreter allocate_tensors path lib s
  = (mkYOLOv4 (config s) (Some (0 <? n_tpu)) (Some it) (Some d)
       (Some (is_float32 (d_dtype d))) (Some (output_details it))
       (map (fun k => layer_anchors (config s) (metas k)) (seq 0 i)
        ++ [mk [length (mask (metas i)); 2]
              (flat_map (normalized_anchor (config s) (metas i)) ok
               ++ repeat (f_of_Z 0) (2 * S (length more)))])
       (map (fun k => scale_x_y (metas k)) (seq 0 i) ++ [scale_x_y (metas i)])
       (Some (beta_nms (metas i))), inl IndexError).
Proof.
  intros path lib s n_tpu it d rest nb h w c n metas i ok bad more layer_type
    Hcnt Hcr Hin Hds Hcs Hn Hi Hmeta Hfind Hmask Hok Hbad Hw Hh.
  subst layer_type.
  rewrite (@load_tflite_loop path lib s n_tpu it d rest nb h w c n
             Hcnt Hcr Hin Hds Hcs Hn).
  replace n with (i + S (n - S i)) by lia.
  rewrite seq_app, for_each_app. unfold bind at 1.
  rewrite (@layer_loop_run _ _ (config s) _ metas i 0);
    try reflexivity; try assumption.
  - cbn [seq for_each Nat.add]. unfold bind at 1.
    rewrite (bind_lift_inr _ _ Hfind).
    rewrite bind_modify, bind_modify, bind_modify.
    rewrite (@inner_loop_bad_index _ _ (config s) (metas i) i ok bad more _
               (map (fun k => layer_anchors (config s) (metas k)) (seq 0 i)));
      try assumption.
    + cbn [set_anhcors set_scale_x_y set_beta_nms config _tpu _interpreter
           _input_details _input_float _output_details _anhcors _scale_x_y
           _beta_nms app].
      reflexivity.
    + reflexivity.
    + now rewrite length_map, length_seq.
  - intros k Hk. apply Hmeta. lia.
Qed.

End Load.
End StoredFacts.

(** ** [predict], from the outputs to the boxes *)

Module PredictFacts.
Import Tensor TensorFacts YOLOv4Facts TFLite TFLiteFacts TFLiteErrors AggregateFacts.

Section WithFloat.
Context {F : Type} `{Float32 F}.
Variable resize_image : Config (F := F) -> tensor Z -> exn + tensor Z.
Variable yolo_diou_nms : tensor F -> F -> exn + tensor F.
Variable fit_to_original : tensor F -> nat -> nat -> tensor F.
Variable _yolo_layer : tensor F -> tensor F -> tensor F -> F -> tensor F.

(** X20: without TPU, when the interpreter returns its outputs,
    [predict] hands [yolo_diou_nms] every row of every output, in output
    order, as one [(N, 5 + classes)] array, together with the stored
    [_beta_nms]; the boxes it gets back go through [fit_to_original] with
    the height and width of the frame that was given, not those of the
    resized image. *)
Theorem predict_candidates_are_all_rows :
  forall (frame : tensor Z) (s s1 : @YOLOv4 F) h w c img fl yolos meta beta
         boxes,
  shape frame = [h; w; c] ->
  resize_image (config s) frame = inr img ->
  _input_float s = Some fl ->
  invoke_and_fetch
    (if fl : bool then F32 (normalize (newaxis img)) else U8 (newaxis img)) s
    = (s1, inr yolos) ->
  _tpu s1 = Some false ->
  yolo_0 (config s1) = Some meta ->
  let stride := 5 + classes meta in
  yolos <> [] ->
  Forall (fun y => length (data y) mod stride = 0) yolos ->
  _beta_nms s1 = Some beta ->
  yolo_diou_nms
    (mk [list_sum (map (fun y => length (data y) / stride) yolos); stride]
        (concat (map data yolos))) beta = inr boxes ->
  predict resize_image yolo_diou_nms fit_to_original _yolo_layer frame s
  = (s1, inr (fit_to_original boxes h w)).
Proof.
  intros frame s s1 h w c img fl yolos meta beta boxes
    Hshape Hresize Hfl Hfetch Htpu Hmeta stride Hne Hall Hbeta Hnms.
  unfold predict. rewrite Hshape, bind_ret, bind_gets.
  rewrite (bind_lift_inr _ _ Hresize).
  rewrite (bind_attr _ _ _ _ Hfl).
  assert (Hp : (if fl
                then _predict _yolo_layer (F32 (normalize (newaxis img)))
                else _predict _yolo_layer (U8 (newaxis img))) s
               = (s1, inr (mk [1; list_sum (map (fun y => length (data y) / stride)
                                             yolos); stride]
                              (concat (map data yolos))))).
  { unfold _predict.
    destruct fl; unfold bind at 1; rewrite Hfetch;
      apply (@aggregate_cpu_run _ _ _yolo_layer s1 meta yolos Htpu Hmeta Hne Hall). }
  unfold bind at 1. rewrite Hp.
  unfold index0. cbn [shape data].
  rewrite bind_or_raise_some.
  rewrite (bind_attr _ _ _ _ Hbeta).
  replace (firstn _ _) with (concat (map data yolos)).
  - rewrite (bind_lift_inr _ _ Hnms). reflexivity.
  - symmetry. apply firstn_all2.
    rewrite (@length_concat_rows _ yolos stride Hall). cbn [size fold_right]. fold stride. lia.
Qed.

End WithFloat.
End PredictFacts.

(** ** Rejected inputs, the load path and [predict] on concrete inputs *)

Module OnInputs.
Import Tensor TensorFacts Examples Inputs.

Lemma decode_rejects_channel_mismatch_witness :
  Decode.apply (Decode.init anchors_tenth 8 1 1%R) zeros_1x1 false = None.
Proof.
  apply (@DecodeEdges.decode_rejects_channel_mismatch R _ anchors_tenth 8%Z 1
           1%R zeros_1x1 false 1 1 15); try reflexivity; lia.
Defined.

Lemma decode_layer_reuse_witness :
  exists self' out,
    Decode.apply (Decode.init anchors_tenth 8 0 1%R) zeros_1x1 false
      = Some (self', out)
    /\ (forall (x2 : tensor R) training2 B2,
          shape x2 = [B2; 1; 1; 3 * (5 + 0)] -> wf x2 ->
          exists out2,
            Decode.apply self' x2 training2 = Some (self', out2)
            /\ Decode.apply (Decode.init anchors_tenth 8 0 1%R) x2 training2
               = Some (self', out2))
    /\ (forall (x3 : tensor R) training3 B3 g3,
          shape x3 = [B3; g3; g3; 3 * (5 + 0)] -> wf x3 ->
          0 < B3 -> g3 <> 1 ->
          Decode.apply self' x3 training3 = None).
Proof.
  apply (@DecodeEdges.decode_layer_reuse R _ anchors_tenth 8%Z 0 1%R
           zeros_1x1 false 1 1); reflexivity.
Defined.

Lemma decode_row_is_local_witness :
  exists self' out out',
    Decode.apply (Decode.init anchors_tenth 8 0 1%R) zeros_1x1 false
      = Some (self', out)
    /\ Decode.apply (Decode.init anchors_tenth 8 0 1%R) zeros_then_ones false
      = Some (self', out')
    /\ forall c, c < 5 + 0 ->
         get out [0; (0 * 1 + 0) * 3 + 0; c]
         = get out' [0; (0 * 1 + 0) * 3 + 0; c].
Proof.
  apply (@DecodeEdges.decode_row_is_local R _ anchors_tenth 8%Z 0 1%R
           zeros_1x1 zeros_then_ones false 1 1 0 0 0 0);
    try reflexivity; try lia.
  intros c Hc. do 5 (destruct c as [|c]; [reflexivity|]). lia.
Defined.




Lemma yolov4_call_row_order_witness :
  exists self' out d1 o1 d2 o2 d3 o3,
    YOLOv4.call trunk_zeros
      (YOLOv4.mkYOLOv4 (Decode.init anchors_tenth 8 0 1%R)
         (Decode.init anchors_tenth 16 0 1%R)
         (Decode.init anchors_tenth 32 0 1%R)) zeros_1x1 false
      = Some (self', out)
    /\ Decode.apply (Decode.init anchors_tenth 8 0 1%R) zeros_1x1 false
       = Some (d1, o1)
    /\ Decode.apply (Decode.init anchors_tenth 16 0 1%R) zeros_1x1 false
       = Some (d2, o2)
    /\ Decode.apply (Decode.init anchors_tenth 32 0 1%R) zeros_1x1 false
       = Some (d3, o3)
    /\ forall b c, b < 1 -> c < 5 + 0 ->
         (forall r, r < 1 * 1 * 3 -> get out [b; r; c] = get o1 [b; r; c])
         /\ (forall r, r < 1 * 1 * 3 ->
               get out [b; 1 * 1 * 3 + r; c] = get o2 [b; r; c])
         /\ (forall r, r < 1 * 1 * 3 ->
               get out [b; 1 * 1 * 3 + 1 * 1 * 3 + r; c]
               = get o3 [b; r; c]).
Proof.
  apply (@YOLOv4Rows.yolov4_call_row_order R _ trunk_zeros
           anchors_tenth anchors_tenth anchors_tenth [] 0 1%R 1%R 1%R []
           _ zeros_1x1 false zeros_1x1 zeros_1x1 zeros_1x1 1 1 1 1);
    reflexivity.
Defined.

Lemma load_tflite_missing_key_witness :
  TFLite.load_tflite no_delegate open_model allocate
    "yolov4.tflite" "libedgetpu.so.1" (TFLite.new config_no_tpu_key)
  = (TFLite.new config_no_tpu_key, inl (TFLite.KeyError "yolo_tpu")).
Proof.
  apply (@TFLiteErrors.load_tflite_missing_key R _ no_delegate open_model
           allocate "yolov4.tflite" "libedgetpu.so.1"
           (TFLite.new config_no_tpu_key)).
  reflexivity.
Defined.

Lemma load_tflite_runtime_failure_witness :
  TFLite.load_tflite no_delegate no_model allocate
    "yolov4.tflite" "libedgetpu.so.1" (TFLite.new config0)
  = (TFLite.set_tpu (0 <? 0) (TFLite.new config0),
     inl (TFLite.ExternalError "no model")).
Proof.
  apply (@TFLiteErrors.load_tflite_runtime_failure R _ no_delegate no_model
           allocate "yolov4.tflite" "libedgetpu.so.1" (TFLite.new config0) 0
           (TFLite.ExternalError "no model")); reflexivity.
Defined.

Lemma load_tflite_input_rank_witness :
  let run := TFLite.load_tflite no_delegate open_no_input allocate
               "yolov4.tflite" "libedgetpu.so.1" (TFLite.new config0) in
  snd run = inl TFLite.IndexError
  /\ TFLite._interpreter (fst run) = Some interpreter_no_input
  /\ TFLite._input_details (fst run)
     = TFLite._input_details (TFLite.new config0).
Proof.
  apply (@TFLiteErrors.load_tflite_input_rank R _ no_delegate open_no_input
           allocate "yolov4.tflite" "libedgetpu.so.1" (TFLite.new config0) 0
           interpreter_no_input).
  - reflexivity.
  - exists interpreter_no_input. split; reflexivity.
  - left. reflexivity.
Defined.

Lemma predict_rejects_frame_rank_witness :
  TFLite.predict keep_size keep_all keep_boxes first_output gray_frame
    detector_cpu
  = (detector_cpu, inl TFLite.ValueError).
Proof.
  apply (@TFLiteErrors.predict_rejects_frame_rank R _ keep_size keep_all
           keep_boxes first_output gray_frame detector_cpu).
  discriminate.
Defined.

Lemma predict_resize_error_witness :
  TFLite.predict reject_size keep_all keep_boxes first_output black_frame
    detector_cpu
  = (detector_cpu, inl TFLite.ValueError).
Proof.
  apply (@TFLiteErrors.predict_resize_error R _ reject_size keep_all
           keep_boxes first_output black_frame detector_cpu 2 2 3
           TFLite.ValueError); reflexivity.
Defined.

Lemma aggregate_concatenates_buffers_witness :
  exists out,
    TFLite.aggregate first_output [zeros_1x1; zeros_then_ones] detector_cpu
      = (detector_cpu, inr out)
    /\ data out = concat (map data [zeros_1x1; zeros_then_ones])
    /\ shape out
       = [1;
          list_sum (map (fun y => length (data y) / (5 + TFLite.classes meta0))
                        [zeros_1x1; zeros_then_ones]);
          5 + TFLite.classes meta0].
Proof.
  apply (@AggregateFacts.aggregate_concatenates_buffers R _ first_output
           detector_cpu meta0 [zeros_1x1; zeros_then_ones]);
    try reflexivity.
  - discriminate.
  - repeat constructor.
Defined.

Lemma aggregate_value_errors_witness :
  TFLite.aggregate first_output [zeros_1x1; anchors_tenth] detector_cpu
  = (detector_cpu, inl TFLite.ValueError).
Proof.
  apply (@AggregateFacts.aggregate_value_errors R _ first_output
           detector_cpu meta0 [zeros_1x1; anchors_tenth]);
    try reflexivity.
  right. apply Exists_cons_tl, Exists_cons_hd. discriminate.
Defined.

Lemma aggregate_tpu_ignores_unpaired_output_witness :
  TFLite.aggregate first_output
    ([zeros_1x1; zeros_then_ones] ++ [anchors_tenth]) detector_tpu
  = TFLite.aggregate first_output [zeros_1x1; zeros_then_ones] detector_tpu.
Proof.
  apply (@AggregateFacts.aggregate_tpu_ignores_unpaired_output R _
           first_output detector_tpu [zeros_1x1; zeros_then_ones]
           anchors_tenth 1); reflexivity.
Defined.

Lemma load_tflite_stores_anchor_fractions_witness :
  TFLite.load_tflite no_delegate open_model allocate
    "yolov4.tflite" "libedgetpu.so.1" (TFLite.new config1)
  = (TFLite.mkYOLOv4 config1 (Some false) (Some interpreter0)
       (Some input_f32) (Some true) (Some [])
       [mk [1; 2] [f_div (f_of_Z 19) (f_of_Z 416);
                   f_div (f_of_Z 36) (f_of_Z 416)]]
       [(12 / 10)%R] (Some (6 / 10)%R), inr tt).
Proof.
  apply (@StoredFacts.load_tflite_stores_anchor_fractions R _ no_delegate
           open_model allocate "yolov4.tflite" "libedgetpu.so.1"
           (TFLite.new config1) 0 interpreter0 input_f32 [] 1%Z 416%Z 416%Z
           3%Z 1 (fun _ => meta1)); try reflexivity; try discriminate.
  - exists interpreter0. split; reflexivity.
  - intros i Hi. split; [reflexivity | repeat constructor].
Defined.

Lemma load_tflite_layer_lookup_error_witness :
  TFLite.load_tflite no_delegate open_model allocate
    "yolov4.tflite" "libedgetpu.so.1" (TFLite.new config_lost_layer)
  = (TFLite.mkYOLOv4 config_lost_layer (Some false) (Some interpreter0)
       (Some input_f32) (Some true) (Some []) [] [] None,
     inl (TFLite.KeyError "yolo")).
Proof.
  apply (@StoredFacts.load_tflite_layer_lookup_error R _ no_delegate
           open_model allocate "yolov4.tflite" "libedgetpu.so.1"
           (TFLite.new config_lost_layer) 0 interpreter0 input_f32 [] 1%Z
           416%Z 416%Z 3%Z 1 (fun _ => meta1) 0 (TFLite.KeyError "yolo"));
    try reflexivity; try discriminate; try lia.
  exists interpreter0. split; reflexivity.
Defined.

Lemma load_tflite_mask_index_error_witness :
  TFLite.load_tflite no_delegate open_model allocate
    "yolov4.tflite" "libedgetpu.so.1" (TFLite.new config_bad_mask)
  = (TFLite.mkYOLOv4 config_bad_mask (Some false) (Some interpreter0)
       (Some input_f32) (Some true) (Some [])
       [mk [2; 2] [f_div (f_of_Z 12) (f_of_Z 416);
                   f_div (f_of_Z 16) (f_of_Z 416); f_of_Z 0; f_of_Z 0]]
       [(12 / 10)%R] (Some (6 / 10)%R),
     inl TFLite.IndexError).
Proof.
  apply (@StoredFacts.load_tflite_mask_index_error R _ no_delegate
           open_model allocate "yolov4.tflite" "libedgetpu.so.1"
           (TFLite.new config_bad_mask) 0 interpreter0 input_f32 [] 1%Z
           416%Z 416%Z 3%Z 1 (fun _ => meta_bad_mask) 0 [0] 2 []);
    try reflexivity; try discriminate; try lia.
  - exists interpreter0. split; reflexivity.
  - repeat constructor.
Defined.

Lemma predict_candidates_are_all_rows_witness :
  TFLite.predict keep_size keep_all keep_boxes first_output black_frame
    detector_ready
  = (TFLite.set_interpreter
       (TFLite.ran_on interpreter_one_output 0
          (TFLite.F32 (TFLite.normalize (TFLite.newaxis black_frame))))
       detector_ready,
     inr (keep_boxes (mk [3; 5] (repeat 0%R 15)) 2 2)).
Proof.
  apply (@PredictFacts.predict_candidates_are_all_rows R _ keep_size keep_all
           keep_boxes first_output black_frame detector_ready _ 2 2 3
           black_frame true [zeros_1x1] meta0 (6 / 10)%R
           (mk [3; 5] (repeat 0%R 15))); try reflexivity.
  - discriminate.
  - repeat constructor.
Defined.

End OnInputs.
